(** * The todo API of [src/api/server.js]

    A shallow embedding of the request handlers of the service and of the
    in-memory store they share, followed by the properties of the
    specification that were checked against it.

    Conventions of the model:
    - a JavaScript string is the [string] of its UTF-8 bytes; [length],
      [trim] and [toLowerCase] read it by characters, as the UTF-16 code
      units of the program give them (case tables of Unicode 14.0).  A lone
      surrogate has no UTF-8 form and is left out;
    - a JavaScript number is a [jsnum]: [NaN], the two infinities, an
      integer, or a fraction with a power of two below.  [Number] rounds a
      numeral to the nearest double.  Integers are exact as doubles up to
      2^53, and the sums of the model keep to that range: the id counter
      is assumed to stay below it, and a [limit] or [offset] that reads as
      an integer beyond it is left out ([None]).  The sign of zero is not
      modelled (it never reaches a response: [JSON.stringify] prints [-0]
      as [0]);
    - arrays are mutable and shared in JavaScript, so they live in a heap
      and are named by references; todo objects are kept by value inside
      the arrays;
    - the wall clock ([new Date().toISOString()]) and the UUID of a request
      without an id are inputs of each request;
    - of Express, the model has what the source relies on: the order of
      the middlewares and routes, which route takes a path, the decoding
      of a path parameter, and where an error goes. *)

From stdpp Require Import base gmap strings list.
From Stdlib Require Import ZArith Ascii String Sorted Lia.

Set Warnings "-register-all".
Local Open Scope string_scope.
Local Open Scope list_scope.

(** ** JavaScript built-ins used by the handlers *)

Module JS.

(** *** Strings

    A [string] holds the UTF-8 bytes of the text.  The built-ins below
    read it one character at a time, as the program's strings of UTF-16
    code units are read. *)

Definition code (c : ascii) : Z := Z.of_N (N_of_ascii c).

Definition byte (n : Z) : ascii := ascii_of_N (Z.to_N n).

(** The six bits that a continuation byte [10xxxxxx] carries. *)
Definition continuation (c : ascii) : option Z :=
  if ((128 <=? code c) && (code c <=? 191))%Z then Some (code c - 128)%Z else None.

(** The code point [s] starts with and the number of bytes it takes;
    [None] when [s] is empty or does not start with a well-formed
    character (shortest form, no surrogate, at most U+10FFFF). *)
Definition charAt (s : string) : option (Z * nat) :=
  match s with
  | EmptyString => None
  | String a r =>
      let n := code a in
      if (n <? 128)%Z then Some (n, 1%nat)
      else if (n <? 224)%Z then
        match r with
        | String b _ =>
            match continuation b with
            | Some x => if (194 <=? n)%Z then Some ((n - 192) * 64 + x, 2%nat)%Z else None
            | None => None
            end
        | EmptyString => None
        end
      else if (n <? 240)%Z then
        match r with
        | String b (String c _) =>
            match continuation b, continuation c with
            | Some x, Some y =>
                let cp := ((n - 224) * 4096 + x * 64 + y)%Z in
                if ((2048 <=? cp) && negb ((55296 <=? cp) && (cp <=? 57343)))%Z
                then Some (cp, 3%nat) else None
            | _, _ => None
            end
        | _ => None
        end
      else
        match r with
        | String b (String c (String d _)) =>
            match continuation b, continuation c, continuation d with
            | Some x, Some y, Some z =>
                let cp := ((n - 240) * 262144 + x * 4096 + y * 64 + z)%Z in
                if ((65536 <=? cp) && (cp <=? 1114111))%Z then Some (cp, 4%nat) else None
            | _, _, _ => None
            end
        | _ => None
        end
  end.

(** The code points of [s], the first [skip] bytes apart.  A byte that
    starts no well-formed character stands for itself, as a negative
    number. *)
Fixpoint codePointsFrom (skip : nat) (s : string) : list Z :=
  match s with
  | EmptyString => []
  | String a r =>
      match skip with
      | S k => codePointsFrom k r
      | O =>
          match charAt s with
          | Some (cp, n) => cp :: codePointsFrom (Nat.pred n) r
          | None => (- 1 - code a)%Z :: codePointsFrom 0 r
          end
      end
  end.

Definition codePoints (s : string) : list Z := codePointsFrom 0 s.

(** The UTF-8 bytes of a code point. *)
Definition encode (cp : Z) : string :=
  if (cp <? 0)%Z then String (byte (- 1 - cp)) EmptyString
  else if (cp <? 128)%Z then String (byte cp) EmptyString
  else if (cp <? 2048)%Z then
    String (byte (192 + cp / 64)) (String (byte (128 + cp mod 64)) EmptyString)
  else if (cp <? 65536)%Z then
    String (byte (224 + cp / 4096))
      (String (byte (128 + (cp / 64) mod 64)) (String (byte (128 + cp mod 64)) EmptyString))
  else
    String (byte (240 + cp / 262144))
      (String (byte (128 + (cp / 4096) mod 64))
         (String (byte (128 + (cp / 64) mod 64))
            (String (byte (128 + cp mod 64)) EmptyString))).

Definition fromCodePoints (l : list Z) : string :=
  List.fold_right (fun cp s => encode cp ++ s)%string EmptyString l.

(** [s.length]: the number of UTF-16 code units, two for a code point
    above U+FFFF. *)
Definition length (s : string) : nat :=
  List.fold_right (fun cp n => ((if (65536 <=? cp)%Z then 2 else 1) + n)%nat) 0%nat
    (codePoints s).

(** WhiteSpace and LineTerminator: TAB, LF, VT, FF, CR, SP, U+00A0,
    U+1680, U+2000 to U+200A, U+2028, U+2029, U+202F, U+205F, U+3000 and
    U+FEFF. *)
Definition isWhiteSpace (cp : Z) : bool :=
  ((9 <=? cp) && (cp <=? 13) || (cp =? 32) || (cp =? 160) || (cp =? 5760)
   || (8192 <=? cp) && (cp <=? 8202) || (cp =? 8232) || (cp =? 8233) || (cp =? 8239)
   || (cp =? 8287) || (cp =? 12288) || (cp =? 65279))%Z.

(** [s] without the white space it starts with, the first [skip] bytes
    apart. *)
Fixpoint trimStartFrom (skip : nat) (s : string) : string :=
  match s with
  | EmptyString => EmptyString
  | String _ r =>
      match skip with
      | S k => trimStartFrom k r
      | O =>
          match charAt s with
          | Some (cp, n) => if isWhiteSpace cp then trimStartFrom (Nat.pred n) r else s
          | None => s
          end
      end
  end.

Definition trimStart (s : string) : string := trimStartFrom 0 s.

(** [s] is made of white space only. *)
Definition allWhiteSpace (s : string) : bool :=
  match trimStart s with
  | EmptyString => true
  | _ => false
  end.

Fixpoint trimEnd (s : string) : string :=
  match s with
  | String c r => if allWhiteSpace s then EmptyString else String c (trimEnd r)
  | EmptyString => EmptyString
  end.

Definition trim (s : string) : string := trimEnd (trimStart s).

(** The code points that have a lower-case form of one code point, as runs
    [(first, last, step, delta)]: every [step]-th code point from [first] to
    [last] maps to itself plus [delta] (Unicode 14.0, UnicodeData.txt). *)
Definition lowerRuns : list (Z * Z * Z * Z) := [
  (65, 90, 1, 32); (192, 214, 1, 32); (216, 222, 1, 32); (256, 302, 2, 1); (306, 310, 2, 1); (313,
  327, 2, 1); (330, 374, 2, 1); (376, 376, 1, -121); (377, 381, 2, 1); (385, 385, 1, 210); (386,
  388, 2, 1); (390, 390, 1, 206); (391, 391, 1, 1); (393, 394, 1, 205); (395, 395, 1, 1); (398,
  398, 1, 79); (399, 399, 1, 202); (400, 400, 1, 203); (401, 401, 1, 1); (403, 403, 1, 205); (404,
  404, 1, 207); (406, 406, 1, 211); (407, 407, 1, 209); (408, 408, 1, 1); (412, 412, 1, 211);
  (413, 413, 1, 213); (415, 415, 1, 214); (416, 420, 2, 1); (422, 422, 1, 218); (423, 423, 1, 1);
  (425, 425, 1, 218); (428, 428, 1, 1); (430, 430, 1, 218); (431, 431, 1, 1); (433, 434, 1, 217);
  (435, 437, 2, 1); (439, 439, 1, 219); (440, 440, 1, 1); (444, 444, 1, 1); (452, 452, 1, 2);
  (453, 453, 1, 1); (455, 455, 1, 2); (456, 456, 1, 1); (458, 458, 1, 2); (459, 475, 2, 1); (478,
  494, 2, 1); (497, 497, 1, 2); (498, 500, 2, 1); (502, 502, 1, -97); (503, 503, 1, -56); (504,
  542, 2, 1); (544, 544, 1, -130); (546, 562, 2, 1); (570, 570, 1, 10795); (571, 571, 1, 1); (573,
  573, 1, -163); (574, 574, 1, 10792); (577, 577, 1, 1); (579, 579, 1, -195); (580, 580, 1, 69);
  (581, 581, 1, 71); (582, 590, 2, 1); (880, 882, 2, 1); (886, 886, 1, 1); (895, 895, 1, 116);
  (902, 902, 1, 38); (904, 906, 1, 37); (908, 908, 1, 64); (910, 911, 1, 63); (913, 929, 1, 32);
  (931, 939, 1, 32); (975, 975, 1, 8); (984, 1006, 2, 1); (1012, 1012, 1, -60); (1015, 1015, 1,
  1); (1017, 1017, 1, -7); (1018, 1018, 1, 1); (1021, 1023, 1, -130); (1024, 1039, 1, 80); (1040,
  1071, 1, 32); (1120, 1152, 2, 1); (1162, 1214, 2, 1); (1216, 1216, 1, 15); (1217, 1229, 2, 1);
  (1232, 1326, 2, 1); (1329, 1366, 1, 48); (4256, 4293, 1, 7264); (4295, 4295, 1, 7264); (4301,
  4301, 1, 7264); (5024, 5103, 1, 38864); (5104, 5109, 1, 8); (7312, 7354, 1, -3008); (7357, 7359,
  1, -3008); (7680, 7828, 2, 1); (7838, 7838, 1, -7615); (7840, 7934, 2, 1); (7944, 7951, 1, -8);
  (7960, 7965, 1, -8); (7976, 7983, 1, -8); (7992, 7999, 1, -8); (8008, 8013, 1, -8); (8025, 8031,
  2, -8); (8040, 8047, 1, -8); (8072, 8079, 1, -8); (8088, 8095, 1, -8); (8104, 8111, 1, -8);
  (8120, 8121, 1, -8); (8122, 8123, 1, -74); (8124, 8124, 1, -9); (8136, 8139, 1, -86); (8140,
  8140, 1, -9); (8152, 8153, 1, -8); (8154, 8155, 1, -100); (8168, 8169, 1, -8); (8170, 8171, 1,
  -112); (8172, 8172, 1, -7); (8184, 8185, 1, -128); (8186, 8187, 1, -126); (8188, 8188, 1, -9);
  (8486, 8486, 1, -7517); (8490, 8490, 1, -8383); (8491, 8491, 1, -8262); (8498, 8498, 1, 28);
  (8544, 8559, 1, 16); (8579, 8579, 1, 1); (9398, 9423, 1, 26); (11264, 11311, 1, 48); (11360,
  11360, 1, 1); (11362, 11362, 1, -10743); (11363, 11363, 1, -3814); (11364, 11364, 1, -10727);
  (11367, 11371, 2, 1); (11373, 11373, 1, -10780); (11374, 11374, 1, -10749); (11375, 11375, 1,
  -10783); (11376, 11376, 1, -10782); (11378, 11378, 1, 1); (11381, 11381, 1, 1); (11390, 11391,
  1, -10815); (11392, 11490, 2, 1); (11499, 11501, 2, 1); (11506, 11506, 1, 1); (42560, 42604, 2,
  1); (42624, 42650, 2, 1); (42786, 42798, 2, 1); (42802, 42862, 2, 1); (42873, 42875, 2, 1);
  (42877, 42877, 1, -35332); (42878, 42886, 2, 1); (42891, 42891, 1, 1); (42893, 42893, 1,
  -42280); (42896, 42898, 2, 1); (42902, 42920, 2, 1); (42922, 42922, 1, -42308); (42923, 42923,
  1, -42319); (42924, 42924, 1, -42315); (42925, 42925, 1, -42305); (42926, 42926, 1, -42308);
  (42928, 42928, 1, -42258); (42929, 42929, 1, -42282); (42930, 42930, 1, -42261); (42931, 42931,
  1, 928); (42932, 42946, 2, 1); (42948, 42948, 1, -48); (42949, 42949, 1, -42307); (42950, 42950,
  1, -35384); (42951, 42953, 2, 1); (42960, 42960, 1, 1); (42966, 42968, 2, 1); (42997, 42997, 1,
  1); (65313, 65338, 1, 32); (66560, 66599, 1, 40); (66736, 66771, 1, 40); (66928, 66938, 1, 39);
  (66940, 66954, 1, 39); (66956, 66962, 1, 39); (66964, 66965, 1, 39); (68736, 68786, 1, 64);
  (71840, 71871, 1, 32); (93760, 93791, 1, 32); (125184, 125217, 1, 34)
]%Z.

(** The ranges of the code points that are Cased and not Case_Ignorable. *)
Definition casedRanges : list (Z * Z) := [
  (65, 90); (97, 122); (170, 170); (181, 181); (186, 186); (192, 214); (216, 246); (248, 442);
  (444, 447); (452, 659); (661, 687); (880, 883); (886, 887); (891, 893); (895, 895); (902, 902);
  (904, 906); (908, 908); (910, 929); (931, 1013); (1015, 1153); (1162, 1327); (1329, 1366);
  (1376, 1416); (4256, 4293); (4295, 4295); (4301, 4301); (4304, 4346); (4349, 4351); (5024,
  5109); (5112, 5117); (7296, 7304); (7312, 7354); (7357, 7359); (7424, 7467); (7531, 7543);
  (7545, 7578); (7680, 7957); (7960, 7965); (7968, 8005); (8008, 8013); (8016, 8023); (8025,
  8025); (8027, 8027); (8029, 8029); (8031, 8061); (8064, 8116); (8118, 8124); (8126, 8126);
  (8130, 8132); (8134, 8140); (8144, 8147); (8150, 8155); (8160, 8172); (8178, 8180); (8182,
  8188); (8450, 8450); (8455, 8455); (8458, 8467); (8469, 8469); (8473, 8477); (8484, 8484);
  (8486, 8486); (8488, 8488); (8490, 8493); (8495, 8500); (8505, 8505); (8508, 8511); (8517,
  8521); (8526, 8526); (8544, 8575); (8579, 8580); (9398, 9449); (11264, 11387); (11390, 11492);
  (11499, 11502); (11506, 11507); (11520, 11557); (11559, 11559); (11565, 11565); (42560, 42605);
  (42624, 42651); (42786, 42863); (42865, 42887); (42891, 42894); (42896, 42954); (42960, 42961);
  (42963, 42963); (42965, 42969); (42997, 42998); (43002, 43002); (43824, 43866); (43872, 43880);
  (43888, 43967); (64256, 64262); (64275, 64279); (65313, 65338); (65345, 65370); (66560, 66639);
  (66736, 66771); (66776, 66811); (66928, 66938); (66940, 66954); (66956, 66962); (66964, 66965);
  (66967, 66977); (66979, 66993); (66995, 67001); (67003, 67004); (68736, 68786); (68800, 68850);
  (71840, 71903); (93760, 93823); (119808, 119892); (119894, 119964); (119966, 119967); (119970,
  119970); (119973, 119974); (119977, 119980); (119982, 119993); (119995, 119995); (119997,
  120003); (120005, 120069); (120071, 120074); (120077, 120084); (120086, 120092); (120094,
  120121); (120123, 120126); (120128, 120132); (120134, 120134); (120138, 120144); (120146,
  120485); (120488, 120512); (120514, 120538); (120540, 120570); (120572, 120596); (120598,
  120628); (120630, 120654); (120656, 120686); (120688, 120712); (120714, 120744); (120746,
  120770); (120772, 120779); (122624, 122633); (122635, 122654); (125184, 125251); (127280,
  127305); (127312, 127337); (127344, 127369)
]%Z.

(** The ranges of the code points that are Case_Ignorable. *)
Definition caseIgnorableRanges : list (Z * Z) := [
  (39, 39); (46, 46); (58, 58); (94, 94); (96, 96); (168, 168); (173, 173); (175, 175); (180,
  180); (183, 184); (688, 879); (884, 885); (890, 890); (900, 901); (903, 903); (1155, 1161);
  (1369, 1369); (1375, 1375); (1425, 1469); (1471, 1471); (1473, 1474); (1476, 1477); (1479,
  1479); (1524, 1524); (1536, 1541); (1552, 1562); (1564, 1564); (1600, 1600); (1611, 1631);
  (1648, 1648); (1750, 1757); (1759, 1768); (1770, 1773); (1807, 1807); (1809, 1809); (1840,
  1866); (1958, 1968); (2027, 2037); (2042, 2042); (2045, 2045); (2070, 2093); (2137, 2139);
  (2184, 2184); (2192, 2193); (2200, 2207); (2249, 2306); (2362, 2362); (2364, 2364); (2369,
  2376); (2381, 2381); (2385, 2391); (2402, 2403); (2417, 2417); (2433, 2433); (2492, 2492);
  (2497, 2500); (2509, 2509); (2530, 2531); (2558, 2558); (2561, 2562); (2620, 2620); (2625,
  2626); (2631, 2632); (2635, 2637); (2641, 2641); (2672, 2673); (2677, 2677); (2689, 2690);
  (2748, 2748); (2753, 2757); (2759, 2760); (2765, 2765); (2786, 2787); (2810, 2815); (2817,
  2817); (2876, 2876); (2879, 2879); (2881, 2884); (2893, 2893); (2901, 2902); (2914, 2915);
  (2946, 2946); (3008, 3008); (3021, 3021); (3072, 3072); (3076, 3076); (3132, 3132); (3134,
  3136); (3142, 3144); (3146, 3149); (3157, 3158); (3170, 3171); (3201, 3201); (3260, 3260);
  (3263, 3263); (3270, 3270); (3276, 3277); (3298, 3299); (3328, 3329); (3387, 3388); (3393,
  3396); (3405, 3405); (3426, 3427); (3457, 3457); (3530, 3530); (3538, 3540); (3542, 3542);
  (3633, 3633); (3636, 3642); (3654, 3662); (3761, 3761); (3764, 3772); (3782, 3782); (3784,
  3789); (3864, 3865); (3893, 3893); (3895, 3895); (3897, 3897); (3953, 3966); (3968, 3972);
  (3974, 3975); (3981, 3991); (3993, 4028); (4038, 4038); (4141, 4144); (4146, 4151); (4153,
  4154); (4157, 4158); (4184, 4185); (4190, 4192); (4209, 4212); (4226, 4226); (4229, 4230);
  (4237, 4237); (4253, 4253); (4348, 4348); (4957, 4959); (5906, 5908); (5938, 5939); (5970,
  5971); (6002, 6003); (6068, 6069); (6071, 6077); (6086, 6086); (6089, 6099); (6103, 6103);
  (6109, 6109); (6155, 6159); (6211, 6211); (6277, 6278); (6313, 6313); (6432, 6434); (6439,
  6440); (6450, 6450); (6457, 6459); (6679, 6680); (6683, 6683); (6742, 6742); (6744, 6750);
  (6752, 6752); (6754, 6754); (6757, 6764); (6771, 6780); (6783, 6783); (6823, 6823); (6832,
  6862); (6912, 6915); (6964, 6964); (6966, 6970); (6972, 6972); (6978, 6978); (7019, 7027);
  (7040, 7041); (7074, 7077); (7080, 7081); (7083, 7085); (7142, 7142); (7144, 7145); (7149,
  7149); (7151, 7153); (7212, 7219); (7222, 7223); (7288, 7293); (7376, 7378); (7380, 7392);
  (7394, 7400); (7405, 7405); (7412, 7412); (7416, 7417); (7468, 7530); (7544, 7544); (7579,
  7679); (8125, 8125); (8127, 8129); (8141, 8143); (8157, 8159); (8173, 8175); (8189, 8190);
  (8203, 8207); (8216, 8217); (8228, 8228); (8231, 8231); (8234, 8238); (8288, 8292); (8294,
  8303); (8305, 8305); (8319, 8319); (8336, 8348); (8400, 8432); (11388, 11389); (11503, 11505);
  (11631, 11631); (11647, 11647); (11744, 11775); (11823, 11823); (12293, 12293); (12330, 12333);
  (12337, 12341); (12347, 12347); (12441, 12446); (12540, 12542); (40981, 40981); (42232, 42237);
  (42508, 42508); (42607, 42610); (42612, 42621); (42623, 42623); (42652, 42655); (42736, 42737);
  (42752, 42785); (42864, 42864); (42888, 42890); (42994, 42996); (43000, 43001); (43010, 43010);
  (43014, 43014); (43019, 43019); (43045, 43046); (43052, 43052); (43204, 43205); (43232, 43249);
  (43263, 43263); (43302, 43309); (43335, 43345); (43392, 43394); (43443, 43443); (43446, 43449);
  (43452, 43453); (43471, 43471); (43493, 43494); (43561, 43566); (43569, 43570); (43573, 43574);
  (43587, 43587); (43596, 43596); (43632, 43632); (43644, 43644); (43696, 43696); (43698, 43700);
  (43703, 43704); (43710, 43711); (43713, 43713); (43741, 43741); (43756, 43757); (43763, 43764);
  (43766, 43766); (43867, 43871); (43881, 43883); (44005, 44005); (44008, 44008); (44013, 44013);
  (64286, 64286); (64434, 64450); (65024, 65039); (65043, 65043); (65056, 65071); (65106, 65106);
  (65109, 65109); (65279, 65279); (65287, 65287); (65294, 65294); (65306, 65306); (65342, 65342);
  (65344, 65344); (65392, 65392); (65438, 65439); (65507, 65507); (65529, 65531); (66045, 66045);
  (66272, 66272); (66422, 66426); (67456, 67461); (67463, 67504); (67506, 67514); (68097, 68099);
  (68101, 68102); (68108, 68111); (68152, 68154); (68159, 68159); (68325, 68326); (68900, 68903);
  (69291, 69292); (69446, 69456); (69506, 69509); (69633, 69633); (69688, 69702); (69744, 69744);
  (69747, 69748); (69759, 69761); (69811, 69814); (69817, 69818); (69821, 69821); (69826, 69826);
  (69837, 69837); (69888, 69890); (69927, 69931); (69933, 69940); (70003, 70003); (70016, 70017);
  (70070, 70078); (70089, 70092); (70095, 70095); (70191, 70193); (70196, 70196); (70198, 70199);
  (70206, 70206); (70367, 70367); (70371, 70378); (70400, 70401); (70459, 70460); (70464, 70464);
  (70502, 70508); (70512, 70516); (70712, 70719); (70722, 70724); (70726, 70726); (70750, 70750);
  (70835, 70840); (70842, 70842); (70847, 70848); (70850, 70851); (71090, 71093); (71100, 71101);
  (71103, 71104); (71132, 71133); (71219, 71226); (71229, 71229); (71231, 71232); (71339, 71339);
  (71341, 71341); (71344, 71349); (71351, 71351); (71453, 71455); (71458, 71461); (71463, 71467);
  (71727, 71735); (71737, 71738); (71995, 71996); (71998, 71998); (72003, 72003); (72148, 72151);
  (72154, 72155); (72160, 72160); (72193, 72202); (72243, 72248); (72251, 72254); (72263, 72263);
  (72273, 72278); (72281, 72283); (72330, 72342); (72344, 72345); (72752, 72758); (72760, 72765);
  (72767, 72767); (72850, 72871); (72874, 72880); (72882, 72883); (72885, 72886); (73009, 73014);
  (73018, 73018); (73020, 73021); (73023, 73029); (73031, 73031); (73104, 73105); (73109, 73109);
  (73111, 73111); (73459, 73460); (78896, 78904); (92912, 92916); (92976, 92982); (92992, 92995);
  (94031, 94031); (94095, 94111); (94176, 94177); (94179, 94180); (110576, 110579); (110581,
  110587); (110589, 110590); (113821, 113822); (113824, 113827); (118528, 118573); (118576,
  118598); (119143, 119145); (119155, 119170); (119173, 119179); (119210, 119213); (119362,
  119364); (121344, 121398); (121403, 121452); (121461, 121461); (121476, 121476); (121499,
  121503); (121505, 121519); (122880, 122886); (122888, 122904); (122907, 122913); (122915,
  122916); (122918, 122922); (123184, 123197); (123566, 123566); (123628, 123631); (125136,
  125142); (125252, 125259); (127995, 127999); (917505, 917505); (917536, 917631); (917760,
  917999)
]%Z.

Definition inRanges (ranges : list (Z * Z)) (cp : Z) : bool :=
  existsb (fun '(first, last) => ((first <=? cp) && (cp <=? last))%Z) ranges.

Definition isCased (cp : Z) : bool := inRanges casedRanges cp.

Definition isCaseIgnorable (cp : Z) : bool := inRanges caseIgnorableRanges cp.

(** The lower-case form of a code point that has one of one code point. *)
Definition lowerOne (cp : Z) : Z :=
  match List.find (fun '(first, last, step, _) =>
                     ((first <=? cp) && (cp <=? last) && ((cp - first) mod step =? 0))%Z)
                  lowerRuns with
  | Some (_, _, _, delta) => (cp + delta)%Z
  | None => cp
  end.

(** After case-ignorable code points, a cased one follows. *)
Fixpoint casedFollows (l : list Z) : bool :=
  match l with
  | [] => false
  | c :: r => if isCaseIgnorable c then casedFollows r else isCased c
  end.

(** The lower-case forms of the code points of [l]; [afterCased] says that
    a cased code point and then only case-ignorable ones come before.
    U+0130 becomes [i] and U+0307, and a capital sigma (U+03A3) the final
    sigma U+03C2 where it ends a word (SpecialCasing.txt), U+03C3
    elsewhere. *)
Fixpoint lowerFrom (afterCased : bool) (l : list Z) : list Z :=
  match l with
  | [] => []
  | c :: r =>
      (if (c =? 931)%Z then [if afterCased && negb (casedFollows r) then 962 else 963]%Z
       else if (c =? 304)%Z then [105; 775]%Z
       else [lowerOne c])
      ++ lowerFrom (if isCaseIgnorable c then afterCased else isCased c) r
  end.

(** [s.toLowerCase()] *)
Definition toLowerCase (s : string) : string :=
  fromCodePoints (lowerFrom false (codePoints s)).

(** [s.includes(sub)] *)
Fixpoint includes (s sub : string) : bool :=
  String.prefix sub s ||
  match s with
  | String _ r => includes r sub
  | EmptyString => false
  end.

(** [a < b] on strings: lexicographic.  The order of the bytes is the
    order of the code units as long as no character is above U+FFFF; the
    strings that the program compares are timestamps. *)
Definition str_lt (a b : string) : bool := String.ltb a b.

(** A string is falsy exactly when it is empty. *)
Definition truthy_str (s : string) : bool :=
  match s with EmptyString => false | _ => true end.

(** *** Numbers

    A number is a double: [NaN], an infinity, an integer, or a fraction
    [num / 2^k] with [num] odd.  The sign of zero is not kept. *)

Inductive jsnum :=
  | JNaN
  | JNegInf
  | JPosInf
  | JInt (n : Z)
  | JFrac (num : Z) (k : positive).

(** A finite number is [numerator / 2^exponent]. *)
Definition numerator (x : jsnum) : Z :=
  match x with
  | JInt n => n
  | JFrac num _ => num
  | _ => 0
  end.

Definition exponent (x : jsnum) : Z :=
  match x with
  | JFrac _ k => Z.pos k
  | _ => 0
  end.

(** [a < b] for finite numbers. *)
Definition ltFinite (a b : jsnum) : bool :=
  (numerator a * 2 ^ exponent b <? numerator b * 2 ^ exponent a)%Z.

(** The integer nearest to [p / q], for [q > 0]; of two that are as near,
    the even one. *)
Definition roundHalfEven (p q : Z) : Z :=
  let d := (p / q)%Z in
  let r := (p mod q)%Z in
  if (2 * r <? q)%Z then d
  else if (q <? 2 * r)%Z then (d + 1)%Z
  else if Z.even d then d else (d + 1)%Z.

(** [m / 2^k] in lowest terms. *)
Fixpoint halve (m : positive) (k : nat) : positive * nat :=
  match m, k with
  | xO m', S k' => halve m' k'
  | _, _ => (m, k)
  end.

(** The number [m * 2^e], negated when [neg], for [m >= 0]. *)
Definition dyadic (neg : bool) (m e : Z) : jsnum :=
  let signed (n : Z) := if neg then (- n)%Z else n in
  match m with
  | Z.pos p =>
      if (0 <=? e)%Z then JInt (signed (m * 2 ^ e)%Z)
      else
        let '(p', k) := halve p (Z.to_nat (- e)) in
        match k with
        | O => JInt (signed (Z.pos p'))
        | S _ => JFrac (signed (Z.pos p')) (Pos.of_nat k)
        end
  | _ => JInt 0
  end.

(** The double nearest to [p / q], for [q > 0]: 53 significant bits, the
    exponent of the last one at least -1074, ties to even, and an infinity
    from 2^1024 on. *)
Definition double (p q : Z) : jsnum :=
  let a := Z.abs p in
  if (a =? 0)%Z then JInt 0
  else
    let k0 := (Z.log2 a - Z.log2 q)%Z in
    let below := if (0 <=? k0)%Z then (a <? q * 2 ^ k0)%Z else (a * 2 ^ (- k0) <? q)%Z in
    let k := if below then (k0 - 1)%Z else k0 in
    let e := Z.max (k - 52) (-1074) in
    let m := if (0 <=? e)%Z then roundHalfEven a (q * 2 ^ e)
             else roundHalfEven (a * 2 ^ (- e)) q in
    if ((971 <? e) || (e =? 971) && (2 ^ 53 <=? m))%Z
    then (if (p <? 0)%Z then JNegInf else JPosInf)
    else dyadic (p <? 0)%Z m e.

Definition Math_min (a b : jsnum) : jsnum :=
  match a, b with
  | JNaN, _ | _, JNaN => JNaN
  | JNegInf, _ | _, JNegInf => JNegInf
  | JPosInf, x | x, JPosInf => x
  | JInt x, JInt y => JInt (Z.min x y)
  | _, _ => if ltFinite b a then b else a
  end.

Definition Math_max (a b : jsnum) : jsnum :=
  match a, b with
  | JNaN, _ | _, JNaN => JNaN
  | JPosInf, _ | _, JPosInf => JPosInf
  | JNegInf, x | x, JNegInf => x
  | JInt x, JInt y => JInt (Z.max x y)
  | _, _ => if ltFinite a b then b else a
  end.

(** [a + b].  The sum of two integers is kept exact (they are assumed to
    stay within 2^53); a sum with a fraction is rounded. *)
Definition add (a b : jsnum) : jsnum :=
  match a, b with
  | JNaN, _ | _, JNaN => JNaN
  | JPosInf, JNegInf | JNegInf, JPosInf => JNaN
  | JPosInf, _ | _, JPosInf => JPosInf
  | JNegInf, _ | _, JNegInf => JNegInf
  | JInt x, JInt y => JInt (x + y)
  | _, _ =>
      double (numerator a * 2 ^ exponent b + numerator b * 2 ^ exponent a)
             (2 ^ (exponent a + exponent b))
  end.

(** [a < b]; any comparison with [NaN] is false. *)
Definition lt (a b : jsnum) : bool :=
  match a, b with
  | JNaN, _ | _, JNaN => false
  | _, JNegInf => false
  | JNegInf, _ => true
  | JPosInf, _ => false
  | _, JPosInf => true
  | JInt x, JInt y => (x <? y)%Z
  | _, _ => ltFinite a b
  end.

(** [a > b] *)
Definition gt (a b : jsnum) : bool := lt b a.

(** [a === b] on numbers; [NaN] equals nothing. *)
Definition strict_eq (a b : jsnum) : bool :=
  match a, b with
  | JNegInf, JNegInf | JPosInf, JPosInf => true
  | JInt x, JInt y => (x =? y)%Z
  | JFrac x j, JFrac y k => (x =? y)%Z && (j =? k)%positive
  | _, _ => false
  end.

(** *** [Number(string)] (StringToNumber)

    The grammar is StringNumericLiteral: optional white space around a
    signed decimal literal (digits, fraction, exponent, or [Infinity]) or
    an unsigned [0x]/[0o]/[0b] literal; the empty literal is 0 and
    anything else is [NaN].  The value is rounded to the nearest double.
    The result is always [Some] number. *)

Definition isDigit (c : ascii) : bool := ((48 <=? code c) && (code c <=? 57))%Z.

(** Value of a digit in the given radix, if it is one. *)
Definition digitValue (radix : Z) (c : ascii) : option Z :=
  let n := code c in
  let v :=
    if ((48 <=? n) && (n <=? 57))%Z then Some (n - 48)%Z
    else if ((97 <=? n) && (n <=? 102))%Z then Some (n - 87)%Z
    else if ((65 <=? n) && (n <=? 70))%Z then Some (n - 55)%Z
    else None in
  match v with
  | Some d => if (d <? radix)%Z then Some d else None
  | None => None
  end.

(** Reads a whole list of characters as digits of the radix. *)
Fixpoint digitsValue (radix : Z) (acc : Z) (l : list ascii) : option Z :=
  match l with
  | [] => Some acc
  | c :: r =>
      match digitValue radix c with
      | Some d => digitsValue radix (acc * radix + d)%Z r
      | None => None
      end
  end.

(** Longest prefix of decimal digits, and the rest. *)
Fixpoint spanDigits (l : list ascii) : list ascii * list ascii :=
  match l with
  | c :: r =>
      if isDigit c then let '(d, t) := spanDigits r in (c :: d, t)
      else ([], l)
  | [] => ([], [])
  end.


Definition two53 : Z := 9007199254740992.

(** [0x..], [0o..], [0b..]: [Some] when the prefix is there. *)
Definition radixLiteral (l : list ascii) : option (option jsnum) :=
  match l with
  | "0"%char :: p :: ds =>
      let radix :=
        if (p =? "x")%char || (p =? "X")%char then Some 16%Z
        else if (p =? "o")%char || (p =? "O")%char then Some 8%Z
        else if (p =? "b")%char || (p =? "B")%char then Some 2%Z
        else None in
      match radix with
      | Some r =>
          Some match ds with
               | [] => Some JNaN
               | _ => match digitsValue r 0 ds with
                      | Some n => Some (double n 1)
                      | None => Some JNaN
                      end
               end
      | None => None
      end
  | _ => None
  end.

(** The exponent part: [Some e] for a well-formed one (or none at all). *)
Definition exponentPart (l : list ascii) : option Z :=
  match l with
  | [] => Some 0%Z
  | e :: r =>
      if (e =? "e")%char || (e =? "E")%char then
        let '(neg, ds) :=
          match r with
          | "-"%char :: t => (true, t)
          | "+"%char :: t => (false, t)
          | _ => (false, r)
          end in
        match ds with
        | [] => None
        | _ => match digitsValue 10 0 ds with
               | Some n => Some (if neg then - n else n)%Z
               | None => None
               end
        end
      else None
  end.


(** The double of [m * 10^k], negated when [neg], for [m >= 0] written
    with [ndigits] digits.  Beyond 10^400 it is an infinity and below
    10^-400 it is zero, whatever the digits. *)
Definition decimal (neg : bool) (m k : Z) (ndigits : nat) : jsnum :=
  if (m =? 0)%Z then JInt 0
  else if (400 <? k)%Z then (if neg then JNegInf else JPosInf)
  else if (k + Z.of_nat ndigits <? -400)%Z then JInt 0
  else
    let signed := if neg then (- m)%Z else m in
    if (0 <=? k)%Z then double (signed * 10 ^ k) 1 else double signed (10 ^ (- k)).

(** An unsigned decimal literal, [Infinity] apart. *)
Definition unsignedDecimal (neg : bool) (l : list ascii) : option jsnum :=
  let '(ip, r1) := spanDigits l in
  let '(fp, r2) :=
    match r1 with
    | "."%char :: t => spanDigits t
    | _ => ([], r1)
    end in
  match ip ++ fp with
  | [] => Some JNaN
  | ds =>
      match exponentPart r2, digitsValue 10 0 ds with
      | Some e, Some m =>
          Some (decimal neg m (e - Z.of_nat (List.length fp)) (List.length ds))
      | _, _ => Some JNaN
      end
  end.

Definition signedDecimal (l : list ascii) : option jsnum :=
  let '(neg, r) :=
    match l with
    | "-"%char :: t => (true, t)
    | "+"%char :: t => (false, t)
    | _ => (false, l)
    end in
  if String.eqb (string_of_list_ascii r) "Infinity"
  then Some (if neg then JNegInf else JPosInf)
  else unsignedDecimal neg r.

Definition StringToNumber (s : string) : option jsnum :=
  match list_ascii_of_string (trim s) with
  | [] => Some (JInt 0)
  | t => match radixLiteral t with
         | Some r => r
         | None => signedDecimal t
         end
  end.

(** The numbers whose sums the model computes: every number but the
    integers beyond 2^53, where the sum of two integers is no longer
    exact. *)
Definition exactInt (n : Z) : option jsnum :=
  if (Z.abs n <=? two53)%Z then Some (JInt n) else None.

Definition inRange (x : jsnum) : option jsnum :=
  match x with
  | JInt n => exactInt n
  | _ => Some x
  end.

(** *** Arrays, as far as their contents go *)

(** The index [slice] starts or stops at, for an array of [len] elements:
    ToIntegerOrInfinity, then counted from the end when negative, then
    clamped to [0, len]. *)
Definition relativeIndex (len : Z) (x : jsnum) : Z :=
  match x with
  | JNaN => 0
  | JNegInf => 0
  | JPosInf => len
  | JInt n => if (n <? 0)%Z then Z.max (len + n) 0 else Z.min n len
  | JFrac num k =>
      let n := Z.quot num (2 ^ Z.pos k) in
      if (n <? 0)%Z then Z.max (len + n) 0 else Z.min n len
  end.

(** [l.slice(start, end)] *)
Definition slice {A} (l : list A) (start end_ : jsnum) : list A :=
  let len := Z.of_nat (List.length l) in
  let k := relativeIndex len start in
  let final := relativeIndex len end_ in
  firstn (Z.to_nat (final - k)) (skipn (Z.to_nat k) l).

(** [l.sort(cmp)] is stable, and [cmp a b > 0] puts [b] first.  For a
    consistent comparator the result is the one of any stable sort; this
    is insertion from the right. *)
Fixpoint insertSorted {A} (cmp : A -> A -> Z) (x : A) (l : list A) : list A :=
  match l with
  | [] => [x]
  | y :: r => if (cmp x y <=? 0)%Z then x :: l else y :: insertSorted cmp x r
  end.

Fixpoint sort {A} (cmp : A -> A -> Z) (l : list A) : list A :=
  match l with
  | [] => []
  | x :: r => insertSorted cmp x (sort cmp r)
  end.

(** [l.findIndex(p)], with [None] for -1. *)
Fixpoint findIndex {A} (p : A -> bool) (l : list A) : option nat :=
  match l with
  | [] => None
  | x :: r => if p x then Some 0%nat else S <$> findIndex p r
  end.

End JS.

(** ** What Express and zod hand to the handlers *)

Module Http.

(** A value of [req.query]: a string, or for a repeated or bracketed
    parameter an array or an object. *)
Inductive qval :=
  | QStr (s : string)
  | QArr (l : list qval)
  | QObj.

(** [v.toString()] *)
Fixpoint toString (v : qval) : string :=
  match v with
  | QStr s => s
  | QArr l => String.concat "," (List.map toString l)
  | QObj => "[object Object]"
  end.

(** Arrays and objects are truthy; a string is unless it is empty. *)
Definition truthy (v : qval) : bool :=
  match v with
  | QStr s => JS.truthy_str s
  | _ => true
  end.

(** [(v || dflt).toString()] for a string default. *)
Definition orString (v : option qval) (dflt : string) : string :=
  match v with
  | Some x => if truthy x then toString x else dflt
  | None => dflt
  end.

(** [Number(v || dflt)] for a numeric default.  An array or object is
    converted through its [toString].  These are the numbers that the
    list handler adds up: an integer beyond 2^53 is left out ([None]). *)
Definition orNumber (v : option qval) (dflt : Z) : option JS.jsnum :=
  match v with
  | Some x =>
      if truthy x then JS.StringToNumber (toString x) ≫= JS.inRange
      else Some (JS.JInt dflt)
  | None => Some (JS.JInt dflt)
  end.

Record Query := {
  query_q : option qval;
  query_done : option qval;
  query_sort : option qval;
  query_order : option qval;
  query_limit : option qval;
  query_offset : option qval;
}.

(** [req.body] after [express.json()].  A number keeps its literal: no
    schema looks at it. *)
Inductive json :=
  | JNull
  | JBool (b : bool)
  | JNum (literal : string)
  | JStr (s : string)
  | JArr (l : list json)
  | JObj (m : gmap string json).

End Http.

(** The four zod schemas: [safeParse] gives the parsed data or fails. *)

Module Zod.
Import Http.

(** [z.string().trim().min(1).max(200)] on a property that may be absent. *)
Definition text_field (v : option json) : option string :=
  match v with
  | Some (JStr s) =>
      let t := JS.trim s in
      if (1 <=? JS.length t)%nat && (JS.length t <=? 200)%nat
      then Some t else None
  | _ => None
  end.

(** [z.boolean()] *)
Definition bool_field (v : option json) : option bool :=
  match v with
  | Some (JBool b) => Some b
  | _ => None
  end.

(** [.optional()]: an absent property is accepted as [undefined]. *)
Definition optional {A} (f : option json -> option A) (v : option json)
  : option (option A) :=
  match v with
  | None => Some None
  | Some _ => Some <$> f v
  end.

(** [v !== undefined] *)
Definition defined {A} (v : option A) : bool :=
  match v with
  | Some _ => true
  | None => false
  end.

Definition TodoCreateSchema (body : json) : option string :=
  match body with
  | JObj m => text_field (m !! "text")
  | _ => None
  end.

Definition TodoPutSchema (body : json) : option (string * bool) :=
  match body with
  | JObj m =>
      match text_field (m !! "text"), bool_field (m !! "done") with
      | Some t, Some d => Some (t, d)
      | _, _ => None
      end
  | _ => None
  end.

Definition TodoPatchSchema (body : json) : option (option string * option bool) :=
  match body with
  | JObj m =>
      match optional text_field (m !! "text"), optional bool_field (m !! "done") with
      | Some t, Some d =>
          if defined t || defined d then Some (t, d) else None
      | _, _ => None
      end
  | _ => None
  end.

(** Every element through [f], failing as soon as one does. *)
Fixpoint all_items {A B} (f : A -> option B) (l : list A) : option (list B) :=
  match l with
  | [] => Some []
  | x :: r =>
      match f x, all_items f r with
      | Some y, Some ys => Some (y :: ys)
      | _, _ => None
      end
  end.

Definition BulkCreateSchema (body : json) : option (list string) :=
  match body with
  | JObj m =>
      match m !! "items" with
      | Some (JArr l) =>
          if (1 <=? List.length l)%nat && (List.length l <=? 100)%nat
          then all_items TodoCreateSchema l else None
      | _ => None
      end
  | _ => None
  end.

End Zod.

(** ** The store and the handlers *)

Module Server.
Import Http Zod.

Record Todo := {
  id : Z;
  text : string;
  done : bool;
  createdAt : string;
  updatedAt : string;
}.

(** A reference to an array of todos in the heap. *)
Definition ref := nat.

(** The heap of arrays and the two module variables [todos], [nextId]. *)
Record state := {
  heap : list (list Todo);
  todos : ref;
  nextId : Z;
}.

(** A handler step: it may change the state, and it leaves the model
    ([None]) on a [limit] or [offset] beyond 2^53, on a dangling reference
    or on an index past the end of an array. *)
Definition M (A : Type) : Type := state -> option (A * state).

#[global] Instance M_ret : MRet M := fun A a st => Some (a, st).
#[global] Instance M_bind : MBind M := fun A B f m st =>
  match m st with
  | Some (a, st') => f a st'
  | None => None
  end.

Definition lift {A} (o : option A) : M A := fun st =>
  match o with
  | Some a => Some (a, st)
  | None => None
  end.

(** *** Arrays in the heap *)

(** A new array. *)
Definition Array_new (l : list Todo) : M ref := fun st =>
  Some (List.length (heap st),
        {| heap := heap st ++ [l]; todos := todos st; nextId := nextId st |}).

(** The elements of an array. *)
Definition Array_read (r : ref) : M (list Todo) := fun st =>
  match heap st !! r with
  | Some l => Some (l, st)
  | None => None
  end.

(** Replaces the elements of an array in place. *)
Definition Array_write (r : ref) (l : list Todo) : M unit := fun st =>
  Some (tt, {| heap := <[r := l]> (heap st); todos := todos st; nextId := nextId st |}).

(** [r.filter(p)]: a new array. *)
Definition Array_filter (p : Todo -> bool) (r : ref) : M ref :=
  l ← Array_read r; Array_new (List.filter p l).

(** [r.slice()]: a copy. *)
Definition Array_copy (r : ref) : M ref :=
  l ← Array_read r; Array_new l.

(** [r.slice(start, end)]: a new array. *)
Definition Array_slice (r : ref) (start end_ : JS.jsnum) : M ref :=
  l ← Array_read r; Array_new (JS.slice l start end_).

(** [r.sort(cmp)]: sorts [r] itself and returns it. *)
Definition Array_sort (cmp : Todo -> Todo -> Z) (r : ref) : M ref :=
  l ← Array_read r; Array_write r (JS.sort cmp l);; mret r.

(** [r.push(x)] *)
Definition Array_push (r : ref) (x : Todo) : M unit :=
  l ← Array_read r; Array_write r (l ++ [x]).

(** [r.length] *)
Definition Array_length (r : ref) : M nat :=
  l ← Array_read r; mret (List.length l).

(** [r.findIndex(p)] *)
Definition Array_findIndex (p : Todo -> bool) (r : ref) : M (option nat) :=
  l ← Array_read r; mret (JS.findIndex p l).

(** [r[i]], for an index inside the array. *)
Definition Array_get (r : ref) (i : nat) : M Todo :=
  l ← Array_read r; lift (l !! i).

(** [r[i] = x], for an index inside the array. *)
Definition Array_set (r : ref) (i : nat) (x : Todo) : M unit :=
  l ← Array_read r; Array_write r (<[i := x]> l).

(** *** The module variables *)

(** Reading the variable [todos] gives the reference it holds. *)
Definition get_todos : M ref := fun st => Some (todos st, st).

(** [todos = r] *)
Definition set_todos (r : ref) : M unit := fun st =>
  Some (tt, {| heap := heap st; todos := r; nextId := nextId st |}).

(** [nextId++] *)
Definition nextId_incr : M Z := fun st =>
  Some (nextId st,
        {| heap := heap st; todos := todos st; nextId := nextId st + 1 |}).

(** The state the module starts in: one seed todo, whose two timestamps
    come from two readings of the clock. *)
Definition init (t1 t2 : string) : state := {|
  heap := [[ {| id := 1; text := "İlk todo"; done := false;
                createdAt := t1; updatedAt := t2 |} ]];
  todos := 0%nat;
  nextId := 2;
|}.

(** *** Responses *)

(** [parsed.error.flatten()]: its content is not modelled. *)
Inductive zodError := Flattened.

Record Meta := {
  total : Z;
  limit : JS.jsnum;
  offset : JS.jsnum;
  hasNext : bool;
  hasPrev : bool;
}.

Inductive body :=
  | ListBody (items : list Todo) (meta : Meta)
  | StatsBody (total done pending : Z)
  | TodoBody (t : Todo)
  | ItemsBody (items : list Todo)
  | ErrorBody (code message : string) (details : option zodError) (requestId : string)
  | NoBody.

Record response := {
  status : Z;
  payload : body;
}.

Definition json_response (st : Z) (b : body) : response :=
  {| status := st; payload := b |}.

(** [apiError(res, status, code, message, details)]; [rid] is the
    [x-request-id] header that the first middleware set on [res]. *)
Definition apiError (rid : string) (st : Z) (code message : string)
    (details : option zodError) : response :=
  json_response st (ErrorBody code message details rid).

Definition parseBool (v : string) : option bool :=
  if String.eqb v "true" then Some true
  else if String.eqb v "false" then Some false
  else None.

(** *** [sortTodos] *)

Inductive sortKey := KeyId | KeyCreatedAt | KeyUpdatedAt.

(** [a[key] > b[key]] *)
Definition key_gt (key : sortKey) (a b : Todo) : bool :=
  match key with
  | KeyId => (id b <? id a)%Z
  | KeyCreatedAt => JS.str_lt (createdAt b) (createdAt a)
  | KeyUpdatedAt => JS.str_lt (updatedAt b) (updatedAt a)
  end.

(** [a[key] < b[key]] *)
Definition key_lt (key : sortKey) (a b : Todo) : bool := key_gt key b a.

Definition sort_dir (order : string) : Z :=
  if String.eqb order "desc" then -1 else 1.

Definition sort_key (sort : string) : sortKey :=
  if String.eqb sort "updatedAt" then KeyUpdatedAt
  else if String.eqb sort "createdAt" then KeyCreatedAt
  else KeyId.

(** The comparator that [sortTodos] passes to [sort]. *)
Definition compareTodos (dir : Z) (key : sortKey) (a b : Todo) : Z :=
  if key_gt key a b then 1 * dir
  else if key_lt key a b then -1 * dir
  else 0.

Definition sortTodos (items : ref) (sort order : string) : M ref :=
  let dir := sort_dir order in
  let key := sort_key sort in
  copy ← Array_copy items;
  Array_sort (compareTodos dir key) copy.

(** *** The routes *)

(** [x.id === id] *)
Definition has_id (n : JS.jsnum) (x : Todo) : bool :=
  JS.strict_eq (JS.JInt (id x)) n.

(** [GET /v1/todos], from the sort on: the part after the two filters. *)
Definition list_page (rid : string) (query : Query) (items : ref) : M response :=
  let sort := orString (query_sort query) "createdAt" in
  let order := orString (query_order query) "desc" in
  items ← sortTodos items sort order;
  l ← lift (orNumber (query_limit query) 20);
  let limit := JS.Math_min l (JS.JInt 100) in
  o ← lift (orNumber (query_offset query) 0);
  let offset := JS.Math_max o (JS.JInt 0) in
  page ← Array_slice items offset (JS.add offset limit);
  pageItems ← Array_read page;
  len ← Array_length items;
  mret (json_response 200 (ListBody pageItems {|
    total := Z.of_nat len;
    limit := limit;
    offset := offset;
    hasNext := JS.lt (JS.add offset limit) (JS.JInt (Z.of_nat len));
    hasPrev := JS.gt offset (JS.JInt 0);
  |})).

(** [GET /v1/todos] *)
Definition GET_todos (rid : string) (query : Query) : M response :=
  items ← get_todos;
  let q := JS.toLowerCase (JS.trim (orString (query_q query) "")) in
  items ← (if JS.truthy_str q
           then Array_filter (fun t => JS.includes (JS.toLowerCase (text t)) q) items
           else mret items);
  match toString <$> query_done query with
  | Some doneRaw =>
      match parseBool doneRaw with
      | None => mret (apiError rid 400 "VALIDATION_ERROR" "done must be true or false" None)
      | Some b =>
          items ← Array_filter (fun t => Bool.eqb (done t) b) items;
          list_page rid query items
      end
  | None => list_page rid query items
  end.

(** [GET /v1/todos/stats] *)
Definition GET_stats : M response :=
  ts ← get_todos;
  total ← Array_length ts;
  ts ← get_todos;
  finished ← Array_filter (fun t => done t) ts;
  done ← Array_length finished;
  mret (json_response 200
          (StatsBody (Z.of_nat total) (Z.of_nat done) (Z.of_nat total - Z.of_nat done))).

(** [GET /v1/todos/:id] *)
Definition GET_todo (rid : string) (param_id : string) : M response :=
  n ← lift (JS.StringToNumber param_id);
  ts ← get_todos;
  l ← Array_read ts;
  match List.find (has_id n) l with
  | None => mret (apiError rid 404 "NOT_FOUND" "Todo not found" None)
  | Some t => mret (json_response 200 (TodoBody t))
  end.

(** The todo that both create routes build and push. *)
Definition push_new (now : string) (txt : string) : M Todo :=
  i ← nextId_incr;
  let todo := {| id := i; text := txt; done := false;
                 createdAt := now; updatedAt := now |} in
  ts ← get_todos;
  Array_push ts todo;;
  mret todo.

(** [POST /v1/todos] *)
Definition POST_todos (rid now : string) (body : json) : M response :=
  match TodoCreateSchema body with
  | None => mret (apiError rid 400 "VALIDATION_ERROR" "Invalid body" (Some Flattened))
  | Some txt =>
      todo ← push_new now txt;
      mret (json_response 201 (TodoBody todo))
  end.

(** [parsed.data.items.map(...)]: the callback runs on each item in
    order.  The array [created] is only read afterwards and is kept as a
    value. *)
Fixpoint create_each (now : string) (texts : list string) : M (list Todo) :=
  match texts with
  | [] => mret []
  | txt :: rest =>
      todo ← push_new now txt;
      created ← create_each now rest;
      mret (todo :: created)
  end.

(** [POST /v1/todos/bulk] *)
Definition POST_bulk (rid now : string) (body : json) : M response :=
  match BulkCreateSchema body with
  | None => mret (apiError rid 400 "VALIDATION_ERROR" "Invalid body" (Some Flattened))
  | Some texts =>
      created ← create_each now texts;
      mret (json_response 201 (ItemsBody created))
  end.

(** [PUT /v1/todos/:id] *)
Definition PUT_todo (rid now : string) (param_id : string) (body : json) : M response :=
  n ← lift (JS.StringToNumber param_id);
  ts ← get_todos;
  found ← Array_findIndex (has_id n) ts;
  match found with
  | None => mret (apiError rid 404 "NOT_FOUND" "Todo not found" None)
  | Some idx =>
      match TodoPutSchema body with
      | None => mret (apiError rid 400 "VALIDATION_ERROR" "Invalid body" (Some Flattened))
      | Some (txt, d) =>
          old ← Array_get ts idx;
          Array_set ts idx {| id := id old; text := txt; done := d;
                              createdAt := createdAt old; updatedAt := now |};;
          t ← Array_get ts idx;
          mret (json_response 200 (TodoBody t))
      end
  end.

(** [PATCH /v1/todos/:id].  The object [t] that [find] returns is the
    element at the first matching index, and the assignments to its
    properties change that element where it is. *)
Definition PATCH_todo (rid now : string) (param_id : string) (body : json) : M response :=
  n ← lift (JS.StringToNumber param_id);
  ts ← get_todos;
  found ← Array_findIndex (has_id n) ts;
  match found with
  | None => mret (apiError rid 404 "NOT_FOUND" "Todo not found" None)
  | Some idx =>
      match TodoPatchSchema body with
      | None => mret (apiError rid 400 "VALIDATION_ERROR" "Invalid body" (Some Flattened))
      | Some (txt, d) =>
          t ← Array_get ts idx;
          let t := match txt with
                   | Some x => {| id := id t; text := x; done := done t;
                                  createdAt := createdAt t; updatedAt := updatedAt t |}
                   | None => t
                   end in
          let t := match d with
                   | Some x => {| id := id t; text := text t; done := x;
                                  createdAt := createdAt t; updatedAt := updatedAt t |}
                   | None => t
                   end in
          let t := {| id := id t; text := text t; done := done t;
                      createdAt := createdAt t; updatedAt := now |} in
          Array_set ts idx t;;
          mret (json_response 200 (TodoBody t))
      end
  end.

(** [DELETE /v1/todos/:id] *)
Definition DELETE_todo (rid : string) (param_id : string) : M response :=
  n ← lift (JS.StringToNumber param_id);
  ts ← get_todos;
  before ← Array_length ts;
  kept ← Array_filter (fun x => negb (has_id n x)) ts;
  set_todos kept;;
  ts ← get_todos;
  after ← Array_length ts;
  if (after =? before)%nat
  then mret (apiError rid 404 "NOT_FOUND" "Todo not found" None)
  else mret (json_response 204 NoBody).

(** *** Requests *)

Inductive route :=
  | GetTodos (query : Query)
  | GetStats
  | GetTodo (param_id : string)
  | PostTodos (body : json)
  | PostBulk (body : json)
  | PutTodo (param_id : string) (body : json)
  | PatchTodo (param_id : string) (body : json)
  | DeleteTodo (param_id : string).

(** A request on one of the [/v1/todos] routes, with the request id the
    first middleware gave it and the time the handler reads. *)
Record request := {
  req_route : route;
  req_id : string;
  req_now : string;
}.

Definition handle (r : request) : M response :=
  match req_route r with
  | GetTodos query => GET_todos (req_id r) query
  | GetStats => GET_stats
  | GetTodo i => GET_todo (req_id r) i
  | PostTodos b => POST_todos (req_id r) (req_now r) b
  | PostBulk b => POST_bulk (req_id r) (req_now r) b
  | PutTodo i b => PUT_todo (req_id r) (req_now r) i b
  | PatchTodo i b => PATCH_todo (req_id r) (req_now r) i b
  | DeleteTodo i => DELETE_todo (req_id r) i
  end.

(** Requests are served one after the other. *)
Fixpoint serve (rs : list request) : M (list response) :=
  match rs with
  | [] => mret []
  | r :: rest =>
      resp ← handle r;
      resps ← serve rest;
      mret (resp :: resps)
  end.

(** *** What a client can observe of the state *)

(** The elements of the array [todos] names, in order. *)
Definition collection (st : state) : option (list Todo) := heap st !! todos st.

(** The variable [todos] names an array of the heap. *)
Definition wf (st : state) : Prop := is_Some (collection st).

(** Two states hold the same store: same todos in the same order, same
    counter. *)
Definition same_store (st st' : state) : Prop :=
  collection st = collection st' /\ nextId st = nextId st'.

End Server.

(** ** What the handlers compute, as functions of the collection

    These are not part of the program: they say, for the proofs, what each
    response is in terms of the elements of [todos]. *)

Module Pure.
Import Http Zod Server.

(** [s] without its first [n] bytes. *)
Fixpoint skipBytes (n : nat) (s : string) : string :=
  match n, s with
  | S k, String _ r => skipBytes k r
  | _, _ => s
  end.

(** What follows the white space character that [s] starts with. *)
Definition afterWhiteSpace (s : string) : option string :=
  match JS.charAt s with
  | Some (cp, n) => if JS.isWhiteSpace cp then Some (skipBytes n s) else None
  | None => None
  end.

(** The state with further arrays allocated after those it has. *)
Definition extend (st : state) (extra : list (list Todo)) : state :=
  {| heap := heap st ++ extra; todos := todos st; nextId := nextId st |}.

(** The state with the elements of [todos] replaced in place and the
    counter at [n]. *)
Definition with_store (st : state) (l : list Todo) (n : Z) : state :=
  {| heap := <[todos st := l]> (heap st); todos := todos st; nextId := n |}.

(** The state with [todos] naming a new array. *)
Definition rebind (st : state) (l : list Todo) : state :=
  {| heap := heap st ++ [l]; todos := List.length (heap st); nextId := nextId st |}.

(** The todo a create route builds. *)
Definition new_todo (now : string) (n : Z) (txt : string) : Todo :=
  {| id := n; text := txt; done := false; createdAt := now; updatedAt := now |}.

(** The todo [PUT] stores in place of [old]. *)
Definition replaced (now : string) (old : Todo) (txt : string) (d : bool) : Todo :=
  {| id := id old; text := txt; done := d;
     createdAt := createdAt old; updatedAt := now |}.

(** The todo [PATCH] leaves in place of [old]. *)
Definition patched (now : string) (old : Todo) (txt : option string) (d : option bool)
  : Todo :=
  {| id := id old; text := default (text old) txt; done := default (done old) d;
     createdAt := createdAt old; updatedAt := now |}.

(** The comparator of a list request. *)
Definition query_cmp (query : Query) : Todo -> Todo -> Z :=
  compareTodos (sort_dir (orString (query_order query) "desc"))
               (sort_key (orString (query_sort query) "createdAt")).

(** The [q] of a list request, and the todos it keeps. *)
Definition query_needle (query : Query) : string :=
  JS.toLowerCase (JS.trim (orString (query_q query) "")).

Definition filter_q (query : Query) (l : list Todo) : list Todo :=
  let q := query_needle query in
  if JS.truthy_str q
  then List.filter (fun t => JS.includes (JS.toLowerCase (text t)) q) l
  else l.

Definition filter_done (b : bool) (l : list Todo) : list Todo :=
  List.filter (fun t => Bool.eqb (done t) b) l.

(** The response for the todos that passed the filters. *)
Definition page_result (query : Query) (items : list Todo) : option response :=
  let sorted := JS.sort (query_cmp query) items in
  l ← orNumber (query_limit query) 20;
  let limit := JS.Math_min l (JS.JInt 100) in
  o ← orNumber (query_offset query) 0;
  let offset := JS.Math_max o (JS.JInt 0) in
  Some (json_response 200 (ListBody (JS.slice sorted offset (JS.add offset limit)) {|
    total := Z.of_nat (List.length sorted);
    limit := limit;
    offset := offset;
    hasNext := JS.lt (JS.add offset limit) (JS.JInt (Z.of_nat (List.length sorted)));
    hasPrev := JS.gt offset (JS.JInt 0);
  |})).

Definition list_result (rid : string) (query : Query) (l : list Todo) : option response :=
  match toString <$> query_done query with
  | Some doneRaw =>
      match parseBool doneRaw with
      | None => Some (apiError rid 400 "VALIDATION_ERROR" "done must be true or false" None)
      | Some b => page_result query (filter_done b (filter_q query l))
      end
  | None => page_result query (filter_q query l)
  end.

(** The todos that [create_each] builds from the counter value [n]. *)
Fixpoint new_todos (now : string) (n : Z) (texts : list string) : list Todo :=
  match texts with
  | [] => []
  | txt :: rest => new_todo now n txt :: new_todos now (n + 1) rest
  end.

(** The ids that a response reports as created. *)
Definition created_ids (r : response) : list Z :=
  if (status r =? 201)%Z then
    match payload r with
    | TodoBody t => [id t]
    | ItemsBody ts => List.map id ts
    | _ => []
    end
  else [].

(** What one request does to the counter and to the ids in the store. *)
Definition step_ok (st : state) (l : list Todo) (resp : response) (st' : state) : Prop :=
  exists l',
    collection st' = Some l' /\
    Sorted.StronglySorted Z.lt (created_ids resp) /\
    Forall (fun i => nextId st <= i < nextId st')%Z (created_ids resp) /\
    (nextId st <= nextId st')%Z /\
    (Forall (fun t => id t < nextId st)%Z l -> Forall (fun t => id t < nextId st')%Z l').

(** The numerals of a list request that the handler gets to read are
    covered by the model. *)
Definition numbers_modelled (query : Query) : bool :=
  let numbers := defined (orNumber (query_limit query) 20)
                 && defined (orNumber (query_offset query) 0) in
  match toString <$> query_done query with
  | Some doneRaw =>
      match parseBool doneRaw with
      | Some _ => numbers
      | None => true
      end
  | None => numbers
  end.

(** The requests the model covers: all but the list requests whose
    [limit] or [offset] reads as an integer beyond 2^53. *)
Definition modelled (r : route) : bool :=
  match r with
  | GetTodos query => numbers_modelled query
  | GetStats | PostTodos _ | PostBulk _ => true
  | GetTodo i | PutTodo i _ | PatchTodo i _ | DeleteTodo i =>
      defined (JS.StringToNumber i)
  end.

(** The routes that only read. *)
Definition is_read (r : route) : bool :=
  match r with
  | GetTodos _ | GetStats | GetTodo _ => true
  | _ => false
  end.

(** A path segment made of decimal digits only. *)
Definition decimal_numeral (s : string) : bool :=
  match list_ascii_of_string s with
  | [] => false
  | cs => forallb JS.isDigit cs
  end.

(** A list request with another [order], [limit], [offset] or [done]. *)
Definition with_order (o : option qval) (query : Query) : Query :=
  {| query_q := query_q query; query_done := query_done query;
     query_sort := query_sort query; query_order := o;
     query_limit := query_limit query; query_offset := query_offset query |}.

(** The todos a list request keeps, before it sorts them. *)
Definition filtered (query : Query) (l : list Todo) : list Todo :=
  match toString <$> query_done query with
  | Some doneRaw =>
      match parseBool doneRaw with
      | Some b => filter_done b (filter_q query l)
      | None => filter_q query l
      end
  | None => filter_q query l
  end.

(** The items of a list response. *)
Definition listed (r : response) : list Todo :=
  match payload r with
  | ListBody items _ => items
  | _ => []
  end.

End Pure.

(** ** Sample requests and states *)

Module Sample.
Import Http Zod Server Pure.

Definition t0 : string := "2024-05-01T10:00:00.000Z".
Definition t1 : string := "2024-05-01T10:00:01.000Z".
Definition t2 : string := "2024-05-01T10:00:02.000Z".

(** The state of a server that has just started. *)
Definition started : state := init t0 t0.

Definition req (r : route) (now : string) : request :=
  {| req_route := r; req_id := "req-1"; req_now := now |}.

Definition text_body (s : string) : json := JObj {[ "text" := JStr s ]}.

Definition bulk_body (texts : list string) : json :=
  JObj {[ "items" := JArr (List.map text_body texts) ]}.

(** The state after the given requests, served from [st]. *)
Definition after (rs : list request) (st : state) : state :=
  match serve rs st with
  | Some (_, st') => st'
  | None => st
  end.

(** The responses to the given requests, served from [st]. *)
Definition answers (rs : list request) (st : state) : list response :=
  match serve rs st with
  | Some (resps, _) => resps
  | None => []
  end.

(** A create, a delete of what it created, a batch and one more create. *)
Definition busy : list request :=
  [req (PostTodos (text_body "a")) t1;
   req (DeleteTodo "2") t1;
   req (PostBulk (bulk_body ["b"; "c"])) t2;
   req (PostTodos (text_body "d")) t2].

(** The seed todo and one more. *)
Definition two_todos : state := after [req (PostTodos (text_body "buy milk")) t1] started.

(** The seed todo and two more, created in one batch. *)
Definition three_todos : state := after [req (PostBulk (bulk_body ["a"; "b"])) t1] started.

(** Three todos whose [done] are true, false, true. *)
Definition done_mixed : state :=
  after [req (PatchTodo "1" (JObj {[ "done" := JBool true ]})) t2;
         req (PatchTodo "3" (JObj {[ "done" := JBool true ]})) t2] three_todos.

(** The seed todo and four more. *)
Definition five_todos : state :=
  after [req (PostBulk (bulk_body ["a"; "b"; "c"; "d"])) t1] started.

(** [n] times the text [s]. *)
Definition repeated (n : nat) (s : string) : string :=
  String.concat "" (List.repeat s n).

(** U+00A0, the no-break space. *)
Definition nbsp : string := String (JS.byte 194) (String (JS.byte 160) "").

(** Texts at the bounds of the schemas: 200 accented letters between
    spaces, 201 of them, no-break spaces only, and a replace whose text is
    padded with no-break spaces. *)
Definition wordy : list request :=
  [req (PostTodos (text_body (nbsp ++ repeated 200 "é" ++ "  "))) t1;
   req (PostTodos (text_body (repeated 201 "é"))) t1;
   req (PostTodos (text_body (nbsp ++ nbsp))) t1;
   req (PutTodo "1" (JObj {[ "text" := JStr (nbsp ++ "a b" ++ nbsp);
                             "done" := JBool true ]})) t2].

(** The seed todo and two hundred more, created in two batches. *)
Definition many_todos : state :=
  after [req (PostBulk (bulk_body (List.repeat "x" 100))) t1;
         req (PostBulk (bulk_body (List.repeat "y" 100))) t2] started.

Definition no_query : Query :=
  {| query_q := None; query_done := None; query_sort := None;
     query_order := None; query_limit := None; query_offset := None |}.

Definition by_id (order : option qval) : Query :=
  {| query_q := None; query_done := None; query_sort := Some (QStr "id");
     query_order := order; query_limit := None; query_offset := None |}.

Definition paged (limit offset : option qval) : Query :=
  {| query_q := None; query_done := None; query_sort := Some (QStr "id");
     query_order := Some (QStr "asc"); query_limit := limit; query_offset := offset |}.

Definition with_done (d : string) : Query :=
  {| query_q := None; query_done := Some (QStr d); query_sort := Some (QStr "id");
     query_order := Some (QStr "asc"); query_limit := None; query_offset := None |}.

End Sample.

(** ** The application around the todo routes

    What Express does with a request before and after a handler of the
    source runs: the JSON body parser, the request-id middleware, the
    choice of the route, the final 404 and the error handler. *)

Module App.
Import Http Zod Server.

(** The request-id middleware: [req.id] is the [x-request-id] header of
    the request, or a fresh UUID when the header is absent or empty; the
    same value is set as the [x-request-id] header of the response. *)
Definition request_id (header : option string) (uuid : string) : string :=
  match header with
  | Some h => if JS.truthy_str h then h else uuid
  | None => uuid
  end.

(** *** The path parameter *)

(** The bytes of a text with its percent-escapes replaced; [None] for a
    [%] that two hexadecimal digits do not follow. *)
Fixpoint unescape (l : list ascii) : option (list ascii) :=
  match l with
  | [] => Some []
  | "%"%char :: r =>
      match r with
      | high :: low :: t =>
          match JS.digitValue 16 high, JS.digitValue 16 low with
          | Some x, Some y => cons (JS.byte (16 * x + y)) <$> unescape t
          | _, _ => None
          end
      | _ => None
      end
  | c :: r => cons c <$> unescape r
  end.

(** Every byte belongs to a well-formed character. *)
Definition wellFormed (s : string) : bool :=
  forallb (fun cp => (0 <=? cp)%Z) (JS.codePoints s).

(** [decodeURIComponent(s)], which Express applies to a path parameter;
    [None] where it throws: a malformed escape, or escaped bytes that
    are not the UTF-8 form of a character. *)
Definition decodeURIComponent (s : string) : option string :=
  match unescape (list_ascii_of_string s) with
  | Some bytes =>
      let t := string_of_list_ascii bytes in
      if wellFormed t then Some t else None
  | None => None
  end.

(** The letters A to Z in lower case.  The match of a route path ignores
    the case of these letters and of no other character. *)
Fixpoint asciiLower (s : string) : string :=
  match s with
  | String c r =>
      String (if ((65 <=? JS.code c) && (JS.code c <=? 90))%Z
              then JS.byte (JS.code c + 32) else c)
             (asciiLower r)
  | EmptyString => EmptyString
  end.

(** The segment matches the literal segment of a route path. *)
Definition names (literal segment : string) : bool :=
  String.eqb (asciiLower segment) literal.

(** *** The router *)

Inductive verb := GET | HEAD | POST | PUT | PATCH | DELETE | OtherVerb.

(** The path of a request, as far as the routes tell paths apart; a slash
    at its end does not count.  [Member] carries the segment that follows
    [/v1/todos/] as the URL has it, escapes included; it is not empty
    and holds no slash. *)
Inductive target :=
  | Healthz
  | Readyz
  | OpenapiJson
  | Collection
  | Member (segment : string)
  | Elsewhere.

(** What the router finds for a request. *)
Inductive matched :=
  | Health (text : string)
  | Openapi
  | Handler (r : route)
  | BadParam
  | Unmatched.

(** The routes in the order the source registers them.  A [HEAD] request
    takes the route of [GET].  Every path [/v1/todos/<segment>] meets the
    layer of a [/v1/todos/:id] route, which decodes the segment whatever
    the method; when that fails no route takes the request and the error
    goes to the error handler.  [/v1/todos/stats], registered before
    [/v1/todos/:id], takes its path first. *)
Definition router (v : verb) (t : target) (query : Query) (b : json) : matched :=
  match t with
  | Healthz => match v with GET | HEAD => Health "ok" | _ => Unmatched end
  | Readyz => match v with GET | HEAD => Health "ready" | _ => Unmatched end
  | OpenapiJson => match v with GET | HEAD => Openapi | _ => Unmatched end
  | Collection =>
      match v with
      | GET | HEAD => Handler (GetTodos query)
      | POST => Handler (PostTodos b)
      | _ => Unmatched
      end
  | Member segment =>
      match decodeURIComponent segment with
      | None => BadParam
      | Some i =>
          match v with
          | GET | HEAD =>
              if names "stats" segment then Handler GetStats else Handler (GetTodo i)
          | POST => if names "bulk" segment then Handler (PostBulk b) else Unmatched
          | PUT => Handler (PutTodo i b)
          | PATCH => Handler (PatchTodo i b)
          | DELETE => Handler (DeleteTodo i)
          | OtherVerb => Unmatched
          end
      end
  | Elsewhere => Unmatched
  end.

(** The requests that reach the handler of a [/v1/todos/:id] route when
    their segment decodes. *)
Definition id_route (v : verb) (segment : string) : bool :=
  match v with
  | GET | HEAD => negb (names "stats" segment)
  | PUT | PATCH | DELETE => true
  | POST | OtherVerb => false
  end.

(** *** Requests and responses *)

(** What is handed to the response object: a JSON response of the API, a
    text, the OpenAPI document (whose content is not modelled), or the
    error page of Express itself.  What Express then does on its own is
    not modelled: a [HEAD] request gets the headers without the body, and
    a [GET] whose [If-None-Match] header matches the entity tag of the
    body gets 304 in place of the 200 that the handler set. *)
Inductive reply :=
  | Json (r : response)
  | Text (status : Z) (text : string)
  | OpenapiDocument
  | ErrorPage (status : Z).

(** [in_body] is [req.body] as [express.json()] leaves it, [{}] or nothing
    for a request without a JSON body (either fails every schema), and
    [None] when the parser rejects the body: malformed JSON, a JSON text
    that is neither an object nor an array, more than 256 kB. *)
Record incoming := {
  in_verb : verb;
  in_target : target;
  in_query : Query;
  in_body : option json;
  in_x_request_id : option string;
  in_uuid : string;
  in_now : string;
}.

(** [out_x_request_id] is the [x-request-id] header of the response, if
    it has one. *)
Record outgoing := {
  out_x_request_id : option string;
  out_reply : reply;
}.

(** One request through the application.

    [express.json()] is the first middleware that can fail.  Its error
    skips the request-id and logging middlewares and every route; the
    error handler of the source then reads [req.log], which the logging
    middleware never set, and throws, so that Express answers with its
    own error page, status 500, and no [x-request-id] header.

    Otherwise the request gets its id, and goes to the handler the
    router finds, to the final 404 handler, or, with a path parameter
    that cannot be decoded, to the error handler, which answers 500
    [INTERNAL_ERROR] in the error envelope. *)
Definition app (i : incoming) : M outgoing :=
  match in_body i with
  | None => mret {| out_x_request_id := None; out_reply := ErrorPage 500 |}
  | Some b =>
      let rid := request_id (in_x_request_id i) (in_uuid i) in
      let sent (r : reply) := {| out_x_request_id := Some rid; out_reply := r |} in
      match router (in_verb i) (in_target i) (in_query i) b with
      | Health t => mret (sent (Text 200 t))
      | Openapi => mret (sent OpenapiDocument)
      | Handler r =>
          resp ← handle {| req_route := r; req_id := rid; req_now := in_now i |};
          mret (sent (Json resp))
      | Unmatched =>
          mret (sent (Json (apiError rid 404 "NOT_FOUND" "Route not found" None)))
      | BadParam =>
          mret (sent (Json (apiError rid 500 "INTERNAL_ERROR" "Internal server error" None)))
      end
  end.

(** Sample requests. *)
Definition get (segment : string) : incoming :=
  {| in_verb := GET; in_target := Member segment;
     in_query := {| query_q := None; query_done := None; query_sort := None;
                    query_order := None; query_limit := None; query_offset := None |};
     in_body := Some (JObj ∅); in_x_request_id := Some "abc-1";
     in_uuid := "generated"; in_now := "2024-05-01T10:00:03.000Z" |}.

Definition with_verb (v : verb) (i : incoming) : incoming :=
  {| in_verb := v; in_target := in_target i; in_query := in_query i;
     in_body := in_body i; in_x_request_id := in_x_request_id i;
     in_uuid := in_uuid i; in_now := in_now i |}.

Definition with_body (b : option json) (i : incoming) : incoming :=
  {| in_verb := in_verb i; in_target := in_target i; in_query := in_query i;
     in_body := b; in_x_request_id := in_x_request_id i;
     in_uuid := in_uuid i; in_now := in_now i |}.


Definition with_target (t : target) (i : incoming) : incoming :=
  {| in_verb := in_verb i; in_target := t; in_query := in_query i;
     in_body := in_body i; in_x_request_id := in_x_request_id i;
     in_uuid := in_uuid i; in_now := in_now i |}.

Definition without_header (i : incoming) : incoming :=
  {| in_verb := in_verb i; in_target := in_target i; in_query := in_query i;
     in_body := in_body i; in_x_request_id := None;
     in_uuid := in_uuid i; in_now := in_now i |}.

(** What is sent for a request, from a state. *)
Definition outcome_of (i : incoming) (st : state) : outgoing :=
  match app i st with
  | Some (out, _) => out
  | None => {| out_x_request_id := None; out_reply := ErrorPage 0 |}
  end.

(** The status of what is sent. *)
Definition status_of (i : incoming) (st : state) : Z :=
  match out_reply (outcome_of i st) with
  | Json r => status r
  | Text s _ => s
  | OpenapiDocument => 200
  | ErrorPage s => s
  end.

(** The reply to a request and the header it carries, from a state. *)
Definition answer (i : incoming) (st : state) : option (option string * reply) :=
  (fun x => (out_x_request_id (fst x), out_reply (fst x))) <$> app i st.

End App.

(** ** One request as a function of the collection and the counter

    Like [Pure], this is for the proofs: what [handle] answers and what it
    leaves in the store, from the elements of [todos] and [nextId]. *)

Module Outcome.
Import Http Zod Server Pure.

Definition stats_body (l : list Todo) : body :=
  StatsBody (Z.of_nat (List.length l))
    (Z.of_nat (List.length (List.filter (fun t => done t) l)))
    (Z.of_nat (List.length l) - Z.of_nat (List.length (List.filter (fun t => done t) l))).

Definition not_found (rid : string) : response :=
  apiError rid 404 "NOT_FOUND" "Todo not found" None.

Definition invalid_body (rid : string) : response :=
  apiError rid 400 "VALIDATION_ERROR" "Invalid body" (Some Flattened).

(** The shapes a response of the todo routes has: an error envelope with
    the request id and 400 or 404, or a success whose status fits its
    body. *)
Definition well_shaped (rid : string) (resp : response) : Prop :=
  match payload resp with
  | ErrorBody code message details rid' =>
      rid' = rid /\
      ((status resp = 400%Z /\ code = "VALIDATION_ERROR") \/
       (status resp = 404%Z /\ code = "NOT_FOUND" /\
        message = "Todo not found" /\ details = None))
  | NoBody => status resp = 204%Z
  | TodoBody _ => status resp = 200%Z \/ status resp = 201%Z
  | ItemsBody _ => status resp = 201%Z
  | ListBody _ _ | StatsBody _ _ _ => status resp = 200%Z
  end.




(** The todos a delete keeps. *)
Definition without (k : JS.jsnum) (l : list Todo) : list Todo :=
  List.filter (fun x => negb (has_id k x)) l.

Definition outcome (r : request) (l : list Todo) (n : Z)
  : option (response * list Todo * Z) :=
  let rid := req_id r in
  let now := req_now r in
  match req_route r with
  | GetTodos query => (fun resp => (resp, l, n)) <$> list_result rid query l
  | GetStats => Some (json_response 200 (stats_body l), l, n)
  | GetTodo i =>
      k ← JS.StringToNumber i;
      Some (match List.find (has_id k) l with
            | None => not_found rid
            | Some t => json_response 200 (TodoBody t)
            end, l, n)
  | PostTodos b =>
      Some match TodoCreateSchema b with
           | None => (invalid_body rid, l, n)
           | Some txt =>
               (json_response 201 (TodoBody (new_todo now n txt)),
                l ++ [new_todo now n txt], (n + 1)%Z)
           end
  | PostBulk b =>
      Some match BulkCreateSchema b with
           | None => (invalid_body rid, l, n)
           | Some texts =>
               (json_response 201 (ItemsBody (new_todos now n texts)),
                l ++ new_todos now n texts, (n + Z.of_nat (List.length texts))%Z)
           end
  | PutTodo i b =>
      k ← JS.StringToNumber i;
      match JS.findIndex (has_id k) l with
      | None => Some (not_found rid, l, n)
      | Some idx =>
          match TodoPutSchema b with
          | None => Some (invalid_body rid, l, n)
          | Some (txt, d) =>
              old ← l !! idx;
              Some (json_response 200 (TodoBody (replaced now old txt d)),
                    <[idx := replaced now old txt d]> l, n)
          end
      end
  | PatchTodo i b =>
      k ← JS.StringToNumber i;
      match JS.findIndex (has_id k) l with
      | None => Some (not_found rid, l, n)
      | Some idx =>
          match TodoPatchSchema b with
          | None => Some (invalid_body rid, l, n)
          | Some (txt, d) =>
              old ← l !! idx;
              Some (json_response 200 (TodoBody (patched now old txt d)),
                    <[idx := patched now old txt d]> l, n)
          end
      end
  | DeleteTodo i =>
      k ← JS.StringToNumber i;
      Some (if (List.length (without k l) =? List.length l)%nat
            then not_found rid else json_response 204 NoBody,
            without k l, n)
  end.

(** A list request with another [limit] and [offset], or another [sort]. *)
Definition with_page (limit offset : option qval) (query : Query) : Query :=
  {| query_q := query_q query; query_done := query_done query;
     query_sort := query_sort query; query_order := query_order query;
     query_limit := limit; query_offset := offset |}.

Definition with_q (q : option qval) (query : Query) : Query :=
  {| query_q := q; query_done := query_done query;
     query_sort := query_sort query; query_order := query_order query;
     query_limit := query_limit query; query_offset := query_offset query |}.

Definition with_sort (sort : option qval) (query : Query) : Query :=
  {| query_q := query_q query; query_done := query_done query;
     query_sort := sort; query_order := query_order query;
     query_limit := query_limit query; query_offset := query_offset query |}.

(** The response of a list request for the todos that passed its filters,
    sorted, and the two numbers read from [limit] and [offset]. *)
Definition paged (sorted : list Todo) (ln on : JS.jsnum) : response :=
  let limit := JS.Math_min ln (JS.JInt 100) in
  let offset := JS.Math_max on (JS.JInt 0) in
  json_response 200 (ListBody (JS.slice sorted offset (JS.add offset limit)) {|
    total := Z.of_nat (List.length sorted);
    limit := limit;
    offset := offset;
    hasNext := JS.lt (JS.add offset limit) (JS.JInt (Z.of_nat (List.length sorted)));
    hasPrev := JS.gt offset (JS.JInt 0);
  |}).

(** The [done] parameter that asks for [b], or none. *)
Definition done_param (b : option bool) : option qval :=
  (fun x : bool => QStr (if x then "true" else "false")) <$> b.

(** The todos [a] and [b] have the same sort key. *)
Definition same_key (key : sortKey) (a b : Todo) : bool :=
  negb (key_gt key a b) && negb (key_lt key a b).

(** A text as every route stores it: trimmed, and of 1 to 200 characters. *)
Definition valid_text (s : string) : Prop :=
  JS.trim s = s /\ (1 <= JS.length s <= 200)%nat.

Definition text_ok (t : Todo) : Prop := valid_text (text t).

(** The [done] of a list request is absent or is [true] or [false]. *)
Definition done_ok (query : Query) : Prop :=
  forall raw, toString <$> query_done query = Some raw -> is_Some (parseBool raw).

End Outcome.

Import Http Zod Server Pure.

(** ** The state monad and the heap *)

Section Monad.
Context {A B : Type}.

Lemma bind_Some (m : M A) (f : A -> M B) st a st1 :
  m st = Some (a, st1) -> (m ≫= f) st = f a st1.
Proof. intros H. unfold mbind, M_bind. now rewrite H. Qed.

Lemma bind_inv (m : M A) (f : A -> M B) st b st2 :
  (m ≫= f) st = Some (b, st2) ->
  exists a st1, m st = Some (a, st1) /\ f a st1 = Some (b, st2).
Proof.
  unfold mbind, M_bind. destruct (m st) as [[a st1]|]; [|discriminate].
  intros H. now exists a, st1.
Qed.
End Monad.

Lemma extend_nil st : extend st [] = st.
Proof. destruct st. unfold extend. simpl. now rewrite app_nil_r. Qed.

Lemma extend_extend st e1 e2 : extend (extend st e1) e2 = extend st (e1 ++ e2).
Proof. unfold extend. simpl. now rewrite <- app_assoc. Qed.

Lemma heap_extend st e r l :
  heap st !! r = Some l -> heap (extend st e) !! r = Some l.
Proof. intros H. simpl. now apply lookup_app_l_Some. Qed.

Lemma collection_extend st e :
  wf st -> collection (extend st e) = collection st.
Proof.
  intros [l Hl]. unfold collection in *. simpl.
  rewrite Hl. now apply lookup_app_l_Some.
Qed.

Lemma Array_read_run r l st :
  heap st !! r = Some l -> Array_read r st = Some (l, st).
Proof. intros H. unfold Array_read. now rewrite H. Qed.

Lemma Array_new_run l st :
  Array_new l st = Some (List.length (heap st), extend st [l]).
Proof. reflexivity. Qed.

Lemma Array_filter_run p r l st :
  heap st !! r = Some l ->
  Array_filter p r st = Some (List.length (heap st), extend st [List.filter p l]).
Proof.
  intros H. unfold Array_filter.
  now rewrite (bind_Some _ _ _ _ _ (Array_read_run _ _ _ H)).
Qed.

Lemma Array_slice_run r a b l st :
  heap st !! r = Some l ->
  Array_slice r a b st = Some (List.length (heap st), extend st [JS.slice l a b]).
Proof.
  intros H. unfold Array_slice.
  now rewrite (bind_Some _ _ _ _ _ (Array_read_run _ _ _ H)).
Qed.

Lemma Array_length_run r l st :
  heap st !! r = Some l -> Array_length r st = Some (List.length l, st).
Proof.
  intros H. unfold Array_length.
  now rewrite (bind_Some _ _ _ _ _ (Array_read_run _ _ _ H)).
Qed.

Lemma heap_fresh st l : heap (extend st [l]) !! List.length (heap st) = Some l.
Proof. simpl. apply list_lookup_middle. reflexivity. Qed.

Lemma Array_copy_run r l st :
  heap st !! r = Some l ->
  Array_copy r st = Some (List.length (heap st), extend st [l]).
Proof.
  intros H. unfold Array_copy.
  now rewrite (bind_Some _ _ _ _ _ (Array_read_run _ _ _ H)).
Qed.

(** Sorting the array allocated last changes that array and no other. *)
Lemma Array_sort_last cmp l st :
  Array_sort cmp (List.length (heap st)) (extend st [l]) =
    Some (List.length (heap st), extend st [JS.sort cmp l]).
Proof.
  unfold Array_sort.
  rewrite (bind_Some _ _ _ _ _ (Array_read_run _ _ _ (heap_fresh st l))).
  unfold mbind, M_bind, mret, M_ret, Array_write, extend. simpl.
  do 3 f_equal.
  rewrite insert_app_r_alt by reflexivity.
  now rewrite Nat.sub_diag.
Qed.

Lemma sortTodos_run r sort order l st :
  heap st !! r = Some l ->
  sortTodos r sort order st =
    Some (List.length (heap st),
          extend st [JS.sort (compareTodos (sort_dir order) (sort_key sort)) l]).
Proof.
  intros H. unfold sortTodos.
  rewrite (bind_Some _ _ _ _ _ (Array_copy_run _ _ _ H)).
  apply Array_sort_last.
Qed.

(** ** The read routes as functions of the collection *)

Lemma list_page_run rid query items cur st :
  heap st !! items = Some cur ->
  exists extra,
    list_page rid query items st =
      (fun r => (r, extend st extra)) <$> page_result query cur.
Proof.
  intros H. unfold list_page, page_result.
  rewrite (bind_Some _ _ _ _ _ (sortTodos_run _ _ _ _ _ H)).
  fold (query_cmp query).
  set (sorted := JS.sort (query_cmp query) cur).
  destruct (orNumber (query_limit query) 20) as [l|]; [|now exists []].
  destruct (orNumber (query_offset query) 0) as [o|]; [|now exists []].
  set (st1 := extend st [sorted]).
  assert (H1 : heap st1 !! List.length (heap st) = Some sorted) by apply heap_fresh.
  exists [sorted; JS.slice sorted (JS.Math_max o (JS.JInt 0))
                     (JS.add (JS.Math_max o (JS.JInt 0)) (JS.Math_min l (JS.JInt 100)))].
  rewrite (bind_Some _ _ st1 l st1) by reflexivity.
  rewrite (bind_Some _ _ st1 o st1) by reflexivity.
  rewrite (bind_Some _ _ _ _ _ (Array_slice_run _ _ _ _ _ H1)).
  rewrite (bind_Some _ _ _ _ _ (Array_read_run _ _ _ (heap_fresh st1 _))).
  rewrite (bind_Some _ _ _ _ _ (Array_length_run _ _ _ (heap_extend _ _ _ _ H1))).
  unfold st1. rewrite extend_extend. reflexivity.
Qed.

Lemma GET_todos_run rid query l st :
  collection st = Some l ->
  exists extra,
    GET_todos rid query st =
      (fun r => (r, extend st extra)) <$> list_result rid query l.
Proof.
  intros H. unfold GET_todos, list_result, filter_q. fold (query_needle query).
  rewrite (bind_Some _ _ st (todos st) st) by reflexivity.
  set (keep := fun t => JS.includes (JS.toLowerCase (text t)) (query_needle query)).
  assert (exists e1 items cur,
    (if JS.truthy_str (query_needle query)
     then Array_filter keep (todos st) else mret (todos st)) st
      = Some (items, extend st e1) /\
    heap (extend st e1) !! items = Some cur /\
    cur = (if JS.truthy_str (query_needle query) then List.filter keep l else l))
    as (e1 & items & cur & Hq & Hcur & ->).
  { destruct (JS.truthy_str (query_needle query)).
    - exists [List.filter keep l], (List.length (heap st)), (List.filter keep l).
      split; [now apply Array_filter_run|]. split; [apply heap_fresh|reflexivity].
    - exists [], (todos st), l. rewrite extend_nil. now split. }
  rewrite (bind_Some _ _ _ _ _ Hq). clear Hq.
  set (cur := if JS.truthy_str (query_needle query) then List.filter keep l else l) in *.
  destruct (toString <$> query_done query) as [raw|].
  - destruct (parseBool raw) as [b|].
    + rewrite (bind_Some _ _ _ _ _ (Array_filter_run _ _ _ _ Hcur)).
      destruct (list_page_run rid query _ _ _
                  (heap_fresh (extend st e1) (filter_done b cur))) as [e2 He2].
      unfold filter_done in *. rewrite He2, !extend_extend. now eexists.
    + now exists e1.
  - destruct (list_page_run rid query _ _ _ Hcur) as [e2 ->].
    rewrite extend_extend. now eexists.
Qed.

Lemma GET_stats_run l st :
  collection st = Some l ->
  GET_stats st =
    Some (json_response 200
            (StatsBody (Z.of_nat (List.length l))
               (Z.of_nat (List.length (List.filter (fun t => done t) l)))
               (Z.of_nat (List.length l)
                - Z.of_nat (List.length (List.filter (fun t => done t) l)))),
          extend st [List.filter (fun t => done t) l]).
Proof.
  intros H. unfold GET_stats.
  rewrite (bind_Some _ _ st (todos st) st) by reflexivity.
  rewrite (bind_Some _ _ _ _ _ (Array_length_run _ _ _ H)).
  rewrite (bind_Some _ _ st (todos st) st) by reflexivity.
  rewrite (bind_Some _ _ _ _ _ (Array_filter_run _ _ _ _ H)).
  now rewrite (bind_Some _ _ _ _ _ (Array_length_run _ _ _ (heap_fresh st _))).
Qed.

Lemma GET_todo_run rid param_id n l st :
  collection st = Some l ->
  JS.StringToNumber param_id = Some n ->
  GET_todo rid param_id st =
    Some (match List.find (has_id n) l with
          | None => apiError rid 404 "NOT_FOUND" "Todo not found" None
          | Some t => json_response 200 (TodoBody t)
          end, st).
Proof.
  intros H Hn. unfold GET_todo. rewrite Hn.
  rewrite (bind_Some _ _ st n st) by reflexivity.
  rewrite (bind_Some _ _ st (todos st) st) by reflexivity.
  rewrite (bind_Some _ _ _ _ _ (Array_read_run _ _ _ H)).
  now destruct (List.find (has_id n) l).
Qed.

(** ** The write routes as functions of the collection *)

Lemma collection_with_store st l l' n :
  collection st = Some l -> collection (with_store st l' n) = Some l'.
Proof.
  unfold collection. simpl. intros H.
  apply list_lookup_insert_eq. eapply lookup_lt_Some, H.
Qed.

Lemma with_store_id st l :
  collection st = Some l -> with_store st l (nextId st) = st.
Proof.
  unfold collection, with_store. intros H. rewrite list_insert_id by exact H.
  now destruct st.
Qed.

Lemma with_store_again st l1 n1 l2 n2 :
  with_store (with_store st l1 n1) l2 n2 = with_store st l2 n2.
Proof. unfold with_store. simpl. now rewrite list_insert_insert_eq. Qed.

Lemma collection_rebind st l : collection (rebind st l) = Some l.
Proof. unfold collection. simpl. now apply list_lookup_middle. Qed.

Lemma Array_push_run r l x st :
  heap st !! r = Some l ->
  Array_push r x st =
    Some (tt, {| heap := <[r := l ++ [x]]> (heap st);
                 todos := todos st; nextId := nextId st |}).
Proof.
  intros H. unfold Array_push.
  now rewrite (bind_Some _ _ _ _ _ (Array_read_run _ _ _ H)).
Qed.

Lemma push_new_run now txt l st :
  collection st = Some l ->
  push_new now txt st =
    Some (new_todo now (nextId st) txt,
          with_store st (l ++ [new_todo now (nextId st) txt]) (nextId st + 1)).
Proof.
  intros H. unfold push_new.
  rewrite (bind_Some _ _ st (nextId st)
             {| heap := heap st; todos := todos st; nextId := nextId st + 1 |})
    by reflexivity.
  rewrite (bind_Some _ _ _ (todos st) _) by reflexivity.
  erewrite bind_Some by (apply Array_push_run; exact H).
  reflexivity.
Qed.

Lemma create_each_run now texts : forall l st,
  collection st = Some l ->
  create_each now texts st =
    Some (new_todos now (nextId st) texts,
          with_store st (l ++ new_todos now (nextId st) texts)
            (nextId st + Z.of_nat (List.length texts))).
Proof.
  induction texts as [|txt rest IH]; intros l st H; simpl.
  - rewrite app_nil_r, Z.add_0_r, with_store_id by exact H. reflexivity.
  - rewrite (bind_Some _ _ _ _ _ (push_new_run now txt l st H)).
    erewrite bind_Some
      by (apply IH; eapply collection_with_store, H).
    unfold mret, M_ret. simpl nextId.
    rewrite with_store_again, <- app_assoc. simpl.
    do 3 f_equal. lia.
Qed.

Lemma POST_todos_run rid now body l st :
  collection st = Some l ->
  POST_todos rid now body st =
    Some match TodoCreateSchema body with
         | None => (apiError rid 400 "VALIDATION_ERROR" "Invalid body" (Some Flattened), st)
         | Some txt =>
             (json_response 201 (TodoBody (new_todo now (nextId st) txt)),
              with_store st (l ++ [new_todo now (nextId st) txt]) (nextId st + 1))
         end.
Proof.
  intros H. unfold POST_todos. destruct (TodoCreateSchema body) as [txt|]; [|reflexivity].
  now rewrite (bind_Some _ _ _ _ _ (push_new_run now txt l st H)).
Qed.

Lemma POST_bulk_run rid now body l st :
  collection st = Some l ->
  POST_bulk rid now body st =
    Some match BulkCreateSchema body with
         | None => (apiError rid 400 "VALIDATION_ERROR" "Invalid body" (Some Flattened), st)
         | Some texts =>
             (json_response 201 (ItemsBody (new_todos now (nextId st) texts)),
              with_store st (l ++ new_todos now (nextId st) texts)
                (nextId st + Z.of_nat (List.length texts)))
         end.
Proof.
  intros H. unfold POST_bulk. destruct (BulkCreateSchema body) as [texts|]; [|reflexivity].
  now rewrite (bind_Some _ _ _ _ _ (create_each_run now texts l st H)).
Qed.

Lemma findIndex_Some {A} (p : A -> bool) l i :
  JS.findIndex p l = Some i ->
  exists x, l !! i = Some x /\ p x = true.
Proof.
  revert i. induction l as [|y r IH]; intros i; simpl; [discriminate|].
  destruct (p y) eqn:Hy.
  - intros [= <-]. now exists y.
  - destruct (JS.findIndex p r) as [j|]; simpl; [|discriminate].
    intros [= <-]. simpl. now apply IH.
Qed.

Lemma findIndex_None {A} (p : A -> bool) l :
  JS.findIndex p l = None <-> List.find p l = None.
Proof.
  induction l as [|y r IH]; simpl; [tauto|].
  destruct (p y); [split; discriminate|].
  destruct (JS.findIndex p r); simpl.
  - split; [discriminate|]. intros H. apply IH in H. discriminate.
  - split; [|reflexivity]. intros _. now apply IH.
Qed.

Lemma find_filter_None {A} (p : A -> bool) l :
  List.find p l = None -> List.filter (fun x => negb (p x)) l = l.
Proof.
  induction l as [|y r IH]; simpl; [reflexivity|].
  destruct (p y); [discriminate|]. simpl. intros H. now rewrite IH.
Qed.

Lemma Array_findIndex_run p r l st :
  heap st !! r = Some l ->
  Array_findIndex p r st = Some (JS.findIndex p l, st).
Proof.
  intros H. unfold Array_findIndex.
  now rewrite (bind_Some _ _ _ _ _ (Array_read_run _ _ _ H)).
Qed.

Lemma Array_get_run r i l x st :
  heap st !! r = Some l -> l !! i = Some x ->
  Array_get r i st = Some (x, st).
Proof.
  intros H Hx. unfold Array_get.
  rewrite (bind_Some _ _ _ _ _ (Array_read_run _ _ _ H)).
  unfold lift. now rewrite Hx.
Qed.

Lemma Array_set_todos_run i l x st :
  collection st = Some l ->
  Array_set (todos st) i x st = Some (tt, with_store st (<[i := x]> l) (nextId st)).
Proof.
  intros H. unfold Array_set.
  now rewrite (bind_Some _ _ _ _ _ (Array_read_run _ _ _ H)).
Qed.

(** The first steps of the three routes that look a todo up by index. *)
Ltac lookup_steps H Hn :=
  rewrite Hn;
  erewrite bind_Some by reflexivity;
  erewrite bind_Some by reflexivity;
  rewrite (bind_Some _ _ _ _ _ (Array_findIndex_run _ _ _ _ H)).

Lemma PUT_todo_not_found rid now param_id body n l st :
  collection st = Some l ->
  JS.StringToNumber param_id = Some n ->
  JS.findIndex (has_id n) l = None ->
  PUT_todo rid now param_id body st =
    Some (apiError rid 404 "NOT_FOUND" "Todo not found" None, st).
Proof.
  intros H Hn Hf. unfold PUT_todo. lookup_steps H Hn. now rewrite Hf.
Qed.

Lemma PUT_todo_invalid rid now param_id body n l idx st :
  collection st = Some l ->
  JS.StringToNumber param_id = Some n ->
  JS.findIndex (has_id n) l = Some idx ->
  TodoPutSchema body = None ->
  PUT_todo rid now param_id body st =
    Some (apiError rid 400 "VALIDATION_ERROR" "Invalid body" (Some Flattened), st).
Proof.
  intros H Hn Hf Hb. unfold PUT_todo. lookup_steps H Hn. now rewrite Hf, Hb.
Qed.

Lemma PUT_todo_ok rid now param_id body n l idx old txt d st :
  collection st = Some l ->
  JS.StringToNumber param_id = Some n ->
  JS.findIndex (has_id n) l = Some idx ->
  l !! idx = Some old ->
  TodoPutSchema body = Some (txt, d) ->
  PUT_todo rid now param_id body st =
    Some (json_response 200 (TodoBody (replaced now old txt d)),
          with_store st (<[idx := replaced now old txt d]> l) (nextId st)).
Proof.
  intros H Hn Hf Ho Hb. unfold PUT_todo. lookup_steps H Hn. rewrite Hf, Hb.
  rewrite (bind_Some _ _ _ _ _ (Array_get_run _ _ _ _ _ H Ho)).
  fold (replaced now old txt d).
  rewrite (bind_Some _ _ _ _ _ (Array_set_todos_run idx _ (replaced now old txt d) _ H)).
  erewrite bind_Some; [reflexivity|].
  eapply Array_get_run.
  - eapply collection_with_store, H.
  - apply list_lookup_insert_eq. eapply lookup_lt_Some, Ho.
Qed.

Lemma PATCH_todo_not_found rid now param_id body n l st :
  collection st = Some l ->
  JS.StringToNumber param_id = Some n ->
  JS.findIndex (has_id n) l = None ->
  PATCH_todo rid now param_id body st =
    Some (apiError rid 404 "NOT_FOUND" "Todo not found" None, st).
Proof.
  intros H Hn Hf. unfold PATCH_todo. lookup_steps H Hn. now rewrite Hf.
Qed.

Lemma PATCH_todo_invalid rid now param_id body n l idx st :
  collection st = Some l ->
  JS.StringToNumber param_id = Some n ->
  JS.findIndex (has_id n) l = Some idx ->
  TodoPatchSchema body = None ->
  PATCH_todo rid now param_id body st =
    Some (apiError rid 400 "VALIDATION_ERROR" "Invalid body" (Some Flattened), st).
Proof.
  intros H Hn Hf Hb. unfold PATCH_todo. lookup_steps H Hn. now rewrite Hf, Hb.
Qed.

Lemma PATCH_todo_ok rid now param_id body n l idx old txt d st :
  collection st = Some l ->
  JS.StringToNumber param_id = Some n ->
  JS.findIndex (has_id n) l = Some idx ->
  l !! idx = Some old ->
  TodoPatchSchema body = Some (txt, d) ->
  PATCH_todo rid now param_id body st =
    Some (json_response 200 (TodoBody (patched now old txt d)),
          with_store st (<[idx := patched now old txt d]> l) (nextId st)).
Proof.
  intros H Hn Hf Ho Hb. unfold PATCH_todo. lookup_steps H Hn. rewrite Hf, Hb.
  rewrite (bind_Some _ _ _ _ _ (Array_get_run _ _ _ _ _ H Ho)).
  assert (Hp : forall t, t = patched now old txt d ->
    (Array_set (todos st) idx t ≫= fun _ => mret (json_response 200 (TodoBody t))) st
    = Some (json_response 200 (TodoBody (patched now old txt d)),
            with_store st (<[idx := patched now old txt d]> l) (nextId st))).
  { intros t ->.
    now rewrite (bind_Some _ _ _ _ _ (Array_set_todos_run idx _ _ _ H)). }
  apply Hp. unfold patched. destruct txt, d; reflexivity.
Qed.

Lemma DELETE_todo_run rid param_id n l st :
  collection st = Some l ->
  JS.StringToNumber param_id = Some n ->
  DELETE_todo rid param_id st =
    Some (if (List.length (List.filter (fun x => negb (has_id n x)) l) =? List.length l)%nat
          then apiError rid 404 "NOT_FOUND" "Todo not found" None
          else json_response 204 NoBody,
          rebind st (List.filter (fun x => negb (has_id n x)) l)).
Proof.
  intros H Hn. unfold DELETE_todo. rewrite Hn.
  erewrite bind_Some by reflexivity.
  erewrite bind_Some by reflexivity.
  rewrite (bind_Some _ _ _ _ _ (Array_length_run _ _ _ H)).
  rewrite (bind_Some _ _ _ _ _ (Array_filter_run _ _ _ _ H)).
  erewrite bind_Some by reflexivity.
  erewrite bind_Some by reflexivity.
  erewrite bind_Some by (apply Array_length_run; simpl; now apply list_lookup_middle).
  unfold rebind.
  now destruct (_ =? _)%nat.
Qed.

(** ** Sorting keeps the elements *)

Lemma insertSorted_perm {A} (cmp : A -> A -> Z) x l :
  Permutation (JS.insertSorted cmp x l) (x :: l).
Proof.
  induction l as [|y r IH]; simpl; [reflexivity|].
  destruct (cmp x y <=? 0)%Z; [reflexivity|].
  rewrite IH. apply perm_swap.
Qed.

Lemma sort_perm {A} (cmp : A -> A -> Z) l : Permutation (JS.sort cmp l) l.
Proof.
  induction l as [|x r IH]; simpl; [reflexivity|].
  now rewrite insertSorted_perm, IH.
Qed.

Lemma sort_length {A} (cmp : A -> A -> Z) l :
  List.length (JS.sort cmp l) = List.length l.
Proof. apply Permutation_length, sort_perm. Qed.

(** ** Sorting puts the elements in the order of the comparator *)

Section SortOrder.
Context {A : Type} (cmp : A -> A -> Z).
Hypothesis cmp_total : forall a b, (0 < cmp a b)%Z -> (cmp b a <= 0)%Z.

Lemma insertSorted_HdRel y x l :
  (cmp y x <= 0)%Z ->
  Sorted.HdRel (fun a b => cmp a b <= 0)%Z y l ->
  Sorted.HdRel (fun a b => cmp a b <= 0)%Z y (JS.insertSorted cmp x l).
Proof.
  intros Hyx Hy. destruct l as [|z r]; simpl; [now constructor|].
  destruct (cmp x z <=? 0)%Z; constructor; [exact Hyx|].
  now inversion Hy.
Qed.

Lemma insertSorted_Sorted x l :
  Sorted.Sorted (fun a b => cmp a b <= 0)%Z l ->
  Sorted.Sorted (fun a b => cmp a b <= 0)%Z (JS.insertSorted cmp x l).
Proof.
  induction l as [|y r IH]; simpl; intros Hs.
  - repeat constructor.
  - destruct (Z.leb_spec (cmp x y) 0) as [Hle|Hgt].
    + constructor; [exact Hs|now constructor].
    + inversion Hs as [|? ? Hr Hy]; subst. constructor; [now apply IH|].
      apply insertSorted_HdRel; [now apply cmp_total|exact Hy].
Qed.

Lemma sort_Sorted l : Sorted.Sorted (fun a b => cmp a b <= 0)%Z (JS.sort cmp l).
Proof.
  induction l as [|x r IH]; simpl; [constructor|]. now apply insertSorted_Sorted.
Qed.
End SortOrder.

Lemma Sorted_weaken {A} (R S : A -> A -> Prop) l :
  (forall a b, R a b -> S a b) -> Sorted.Sorted R l -> Sorted.Sorted S l.
Proof.
  intros HRS. induction 1 as [|a l Hs IH Ha]; constructor; [exact IH|].
  destruct Ha; constructor. now apply HRS.
Qed.

Lemma Sorted_skipn {A} (R : A -> A -> Prop) n : forall l,
  Sorted.Sorted R l -> Sorted.Sorted R (skipn n l).
Proof.
  induction n as [|n IH]; intros l Hs; [exact Hs|].
  destruct l as [|a r]; [constructor|]. simpl. apply IH. now inversion Hs.
Qed.

Lemma Sorted_firstn {A} (R : A -> A -> Prop) n : forall l,
  Sorted.Sorted R l -> Sorted.Sorted R (firstn n l).
Proof.
  induction n as [|n IH]; intros l Hs; [constructor|].
  destruct l as [|a r]; [constructor|]. simpl.
  inversion Hs as [|? ? Hr Ha]; subst. constructor; [now apply IH|].
  destruct n; [constructor|]. destruct Ha; constructor. assumption.
Qed.

Lemma Sorted_slice {A} (R : A -> A -> Prop) (l : list A) a b :
  Sorted.Sorted R l -> Sorted.Sorted R (JS.slice l a b).
Proof. intros Hs. unfold JS.slice. now apply Sorted_firstn, Sorted_skipn. Qed.

Lemma key_gt_asym key a b : key_gt key a b = true -> key_gt key b a = false.
Proof.
  assert (Hstr : forall s1 s2, JS.str_lt s1 s2 = true -> JS.str_lt s2 s1 = false).
  { intros s1 s2. unfold JS.str_lt, String.ltb. rewrite (String.compare_antisym s2 s1).
    now destruct (String.compare s1 s2). }
  destruct key; simpl; [|apply Hstr|apply Hstr].
  intros H. apply Z.ltb_lt in H. apply Z.ltb_ge. lia.
Qed.

Lemma compareTodos_asc key a b :
  (compareTodos 1 key a b <= 0)%Z <-> key_gt key a b = false.
Proof.
  unfold compareTodos. destruct (key_gt key a b); [split; [lia|discriminate]|].
  destruct (key_lt key a b); split; auto; lia.
Qed.

Lemma compareTodos_desc key a b :
  (compareTodos (-1) key a b <= 0)%Z <-> key_lt key a b = false.
Proof.
  unfold compareTodos, key_lt.
  destruct (key_gt key a b) eqn:E.
  - rewrite (key_gt_asym _ _ _ E). split; [reflexivity|lia].
  - destruct (key_gt key b a); split; auto; lia.
Qed.

Lemma compareTodos_total order key a b :
  (0 < compareTodos (sort_dir order) key a b)%Z ->
  (compareTodos (sort_dir order) key b a <= 0)%Z.
Proof.
  unfold sort_dir. destruct (String.eqb order "desc").
  - intros H. apply compareTodos_desc. unfold key_lt.
    destruct (key_gt key a b) eqn:E; [|reflexivity].
    unfold compareTodos in H. rewrite E in H. lia.
  - intros H. apply compareTodos_asc.
    unfold compareTodos in H. destruct (key_gt key a b) eqn:E.
    + apply (key_gt_asym _ _ _ E).
    + destruct (key_lt key a b); lia.
Qed.

(** ** The order of a list *)

(** The items of a list response are in the order of the comparator of
    the request. *)
Lemma list_result_Sorted rid query l resp :
  list_result rid query l = Some resp ->
  Sorted.Sorted (fun a b => query_cmp query a b <= 0)%Z (listed resp).
Proof.
  assert (Hp : forall items, page_result query items = Some resp ->
            Sorted.Sorted (fun a b => query_cmp query a b <= 0)%Z (listed resp)).
  { intros items. unfold page_result.
    destruct (orNumber (query_limit query) 20); [|discriminate].
    destruct (orNumber (query_offset query) 0); [|discriminate].
    intros [= <-]. simpl. apply Sorted_slice, sort_Sorted.
    intros a b. apply compareTodos_total. }
  unfold list_result. destruct (toString <$> query_done query) as [raw|]; [|apply Hp].
  destruct (parseBool raw); [apply Hp|]. intros [= <-]. constructor.
Qed.

(** C1, as the specification states it, fails: on a store of two todos,
    [GET /v1/todos?sort=id] without [order] lists id 2 before id 1, where
    [order=asc] lists id 1 first. *)
Lemma C1_absent_order_counterexample :
  query_order (Sample.by_id None) = None /\
  (List.map id ∘ listed ∘ fst <$>
     GET_todos "req-1" (Sample.by_id None) Sample.two_todos) = Some [2; 1]%Z /\
  (List.map id ∘ listed ∘ fst <$>
     GET_todos "req-1" (Sample.by_id (Some (QStr "asc"))) Sample.two_todos) = Some [1; 2]%Z.
Proof. vm_compute. repeat split; reflexivity. Qed.

(** C1, amended: a list request without [order], or with an empty one, is
    answered as with [order=desc]; any other value that is not [desc] is
    answered as with [order=asc]; [desc] reverses the sign of the
    comparison; and the items of the response are in that order on the
    sort key: none is below the next for [desc], none above the next
    otherwise. *)
Theorem C1_order_of_list (rid : string) (query : Query) (st : state) :
  (forall o, o = None \/ (exists v, o = Some v /\ truthy v = false) ->
     GET_todos rid (with_order o query) st =
     GET_todos rid (with_order (Some (QStr "desc")) query) st) /\
  (forall v, truthy v = true -> toString v <> "desc" ->
     GET_todos rid (with_order (Some v) query) st =
     GET_todos rid (with_order (Some (QStr "asc")) query) st) /\
  (forall key a b,
     compareTodos (sort_dir "desc") key a b = (- compareTodos (sort_dir "asc") key a b)%Z) /\
  (forall l resp st',
     collection st = Some l ->
     GET_todos rid query st = Some (resp, st') ->
     let key := sort_key (orString (query_sort query) "createdAt") in
     if String.eqb (orString (query_order query) "desc") "desc"
     then Sorted.Sorted (fun a b => key_lt key a b = false) (listed resp)
     else Sorted.Sorted (fun a b => key_gt key a b = false) (listed resp)).
Proof.
  split; [|split; [|split]].
  - intros o [->|(v & -> & Hv)]; unfold GET_todos, list_page, orString; simpl.
    + reflexivity.
    + now rewrite Hv.
  - intros v Hv Hd.
    assert (E : sort_dir (orString (Some v) "desc")
                = sort_dir (orString (Some (QStr "asc")) "desc")).
    { unfold orString, sort_dir. rewrite Hv. simpl.
      now destruct (String.eqb_spec (toString v) "desc"). }
    unfold GET_todos, list_page, sortTodos.
    cbn [with_order query_q query_done query_sort query_order query_limit query_offset].
    now rewrite E.
  - intros key a b. unfold compareTodos, sort_dir. simpl.
    destruct (key_gt key a b), (key_lt key a b); reflexivity.
  - intros l resp st' H Hrun key.
    destruct (GET_todos_run rid query l st H) as [extra E]. rewrite E in Hrun.
    destruct (list_result rid query l) as [x|] eqn:Hx; [|discriminate].
    injection Hrun as <- <-. apply list_result_Sorted in Hx.
    unfold query_cmp, sort_dir in Hx. fold key in Hx.
    destruct (String.eqb (orString (query_order query) "desc") "desc").
    + eapply Sorted_weaken; [|exact Hx]. intros a b. apply compareTodos_desc.
    + eapply Sorted_weaken; [|exact Hx]. intros a b. apply compareTodos_asc.
Qed.

Lemma C1_order_of_list_witness :
  GET_todos "req-1" (with_order None Sample.no_query) Sample.two_todos =
    GET_todos "req-1" (with_order (Some (QStr "desc")) Sample.no_query) Sample.two_todos /\
  GET_todos "req-1" (with_order (Some (QStr "up")) Sample.no_query) Sample.two_todos =
    GET_todos "req-1" (with_order (Some (QStr "asc")) Sample.no_query) Sample.two_todos /\
  Sorted.Sorted (fun a b => key_lt KeyCreatedAt a b = false)
    (listed (default (json_response 0 NoBody)
               (fst <$> GET_todos "req-1" Sample.no_query Sample.two_todos))).
Proof.
  destruct (C1_order_of_list "req-1" Sample.no_query Sample.two_todos)
    as (Ha & Hb & _ & Hd).
  split; [|split].
  - apply Ha. left. reflexivity.
  - apply (Hb (QStr "up")); [reflexivity|discriminate].
  - refine (Hd (default [] (collection Sample.two_todos)) _
              (Sample.after [Sample.req (GetTodos Sample.no_query) Sample.t2]
                 Sample.two_todos) _ _).
    + vm_compute. reflexivity.
    + vm_compute. reflexivity.
Defined.

(** ** Pagination *)

Lemma slice_firstn_skipn {A} (l : list A) (o n : Z) :
  (0 <= o)%Z -> (0 <= n)%Z ->
  JS.slice l (JS.JInt o) (JS.JInt (o + n)) = firstn (Z.to_nat n) (skipn (Z.to_nat o) l).
Proof.
  intros Ho Hn. unfold JS.slice, JS.relativeIndex.
  destruct (Z.ltb_spec o 0); [lia|]. destruct (Z.ltb_spec (o + n) 0); [lia|].
  set (len := Z.of_nat (List.length l)).
  destruct (Z.le_gt_cases len o) as [Hge|Hlt].
  - rewrite !skipn_all2 by lia. now rewrite !firstn_nil.
  - rewrite (Z.min_l o len) by lia.
    destruct (Z.le_gt_cases (o + n) len) as [Hin|Hout].
    + rewrite Z.min_l by lia. f_equal. lia.
    + rewrite Z.min_r by lia.
      rewrite !firstn_all2; [reflexivity| |]; rewrite length_skipn; lia.
Qed.

(** C2: the handler caps [limit] at 100 and raises [offset] to 0, but
    nothing raises a [limit] below 0.  [limit=-1] is answered with the
    limit -1, below the interval [0, 100]; from three todos the page holds
    the first two, not the empty slice [0, 0); and from 201 todos it holds
    200, twice the cap. *)
Lemma C2_negative_limit_is_served :
  (fst <$> GET_todos "req-1" (Sample.paged (Some (QStr "-1")) None) Sample.three_todos)
  = Some (json_response 200
            (ListBody
               [ {| id := 1; text := "İlk todo"; done := false;
                    createdAt := Sample.t0; updatedAt := Sample.t0 |};
                 {| id := 2; text := "a"; done := false;
                    createdAt := Sample.t1; updatedAt := Sample.t1 |} ]
               {| total := 3; limit := JS.JInt (-1); offset := JS.JInt 0;
                  hasNext := true; hasPrev := false |})) /\
  (List.length ∘ listed ∘ fst <$>
     GET_todos "req-1" (Sample.paged (Some (QStr "-1")) None) Sample.many_todos)
  = Some 200%nat /\
  (List.length ∘ listed ∘ fst <$>
     GET_todos "req-1" (Sample.paged (Some (QStr "1000")) None) Sample.many_todos)
  = Some 100%nat.
Proof. vm_compute. repeat split; reflexivity. Qed.

(** The pagination example of the specification: five todos, [limit=2],
    [offset=4]. *)
Example pagination_last_page :
  (fst <$> GET_todos "req-1" (Sample.paged (Some (QStr "2")) (Some (QStr "4")))
             Sample.five_todos)
  = Some (json_response 200
            (ListBody
               [ {| id := 5; text := "d"; done := false;
                    createdAt := Sample.t1; updatedAt := Sample.t1 |} ]
               {| total := 5; limit := JS.JInt 2; offset := JS.JInt 4;
                  hasNext := false; hasPrev := true |})).
Proof. vm_compute. reflexivity. Qed.

(** ** Validation and lookup *)

(** C3, as the specification states it, fails: [PUT] and [PATCH] look the
    id up first, so a body that fails the schema, here the empty object, is
    answered with [NOT_FOUND] when no todo has the id. *)
Lemma C3_lookup_first_counterexample :
  TodoPutSchema (JObj ∅) = None /\
  TodoPatchSchema (JObj ∅) = None /\
  PUT_todo "req-1" Sample.t1 "77" (JObj ∅) Sample.started
    = Some (apiError "req-1" 404 "NOT_FOUND" "Todo not found" None, Sample.started) /\
  PATCH_todo "req-1" Sample.t1 "77" (JObj ∅) Sample.started
    = Some (apiError "req-1" 404 "NOT_FOUND" "Todo not found" None, Sample.started).
Proof. vm_compute. repeat split; reflexivity. Qed.

(** C3, amended: the two create routes validate the body before they touch
    the store; [PUT] and [PATCH] look the id up first and validate second,
    so a body that fails the schema is answered with [VALIDATION_ERROR]
    when a todo has the id and with [NOT_FOUND] when none has; in each of
    these cases the state is left as it was. *)
Theorem C3_validation_order (rid now param_id : string) (body : json)
    (n : JS.jsnum) (l : list Todo) (st : state) :
  collection st = Some l ->
  JS.StringToNumber param_id = Some n ->
  (TodoCreateSchema body = None ->
     POST_todos rid now body st =
       Some (apiError rid 400 "VALIDATION_ERROR" "Invalid body" (Some Flattened), st)) /\
  (BulkCreateSchema body = None ->
     POST_bulk rid now body st =
       Some (apiError rid 400 "VALIDATION_ERROR" "Invalid body" (Some Flattened), st)) /\
  (TodoPutSchema body = None ->
     PUT_todo rid now param_id body st =
       Some (match List.find (has_id n) l with
             | Some _ => apiError rid 400 "VALIDATION_ERROR" "Invalid body" (Some Flattened)
             | None => apiError rid 404 "NOT_FOUND" "Todo not found" None
             end, st)) /\
  (TodoPatchSchema body = None ->
     PATCH_todo rid now param_id body st =
       Some (match List.find (has_id n) l with
             | Some _ => apiError rid 400 "VALIDATION_ERROR" "Invalid body" (Some Flattened)
             | None => apiError rid 404 "NOT_FOUND" "Todo not found" None
             end, st)).
Proof.
  intros H Hn. repeat split; intros Hb.
  - now rewrite (POST_todos_run rid now body l st H), Hb.
  - now rewrite (POST_bulk_run rid now body l st H), Hb.
  - destruct (JS.findIndex (has_id n) l) as [idx|] eqn:Hf.
    + rewrite (PUT_todo_invalid _ _ _ _ _ _ _ _ H Hn Hf Hb).
      destruct (List.find (has_id n) l) eqn:E; [reflexivity|].
      apply findIndex_None in E. congruence.
    + rewrite (PUT_todo_not_found _ _ _ _ _ _ _ H Hn Hf).
      apply findIndex_None in Hf. now rewrite Hf.
  - destruct (JS.findIndex (has_id n) l) as [idx|] eqn:Hf.
    + rewrite (PATCH_todo_invalid _ _ _ _ _ _ _ _ H Hn Hf Hb).
      destruct (List.find (has_id n) l) eqn:E; [reflexivity|].
      apply findIndex_None in E. congruence.
    + rewrite (PATCH_todo_not_found _ _ _ _ _ _ _ H Hn Hf).
      apply findIndex_None in Hf. now rewrite Hf.
Qed.

Lemma C3_validation_order_witness :
  PUT_todo "req-1" Sample.t1 "1" (Sample.text_body "no done") Sample.started =
    Some (apiError "req-1" 400 "VALIDATION_ERROR" "Invalid body" (Some Flattened),
          Sample.started) /\
  POST_todos "req-1" Sample.t1 (Sample.text_body "   ") Sample.started =
    Some (apiError "req-1" 400 "VALIDATION_ERROR" "Invalid body" (Some Flattened),
          Sample.started).
Proof.
  split.
  - refine (proj1 (proj2 (proj2
      (C3_validation_order "req-1" Sample.t1 "1" (Sample.text_body "no done")
         (JS.JInt 1) (default [] (collection Sample.started)) Sample.started _ _))) _);
      vm_compute; reflexivity.
  - refine (proj1
      (C3_validation_order "req-1" Sample.t1 "1" (Sample.text_body "   ")
         (JS.JInt 1) (default [] (collection Sample.started)) Sample.started _ _) _);
      vm_compute; reflexivity.
Defined.

(** ** Creation *)

Lemma new_todos_text now texts : forall n, List.map text (new_todos now n texts) = texts.
Proof. induction texts as [|t r IH]; intros n; simpl; [reflexivity|]. now rewrite IH. Qed.

Lemma new_todos_stamp now texts : forall n,
  Forall (fun t => createdAt t = now /\ updatedAt t = now /\ done t = false)
         (new_todos now n texts).
Proof.
  induction texts as [|t r IH]; intros n; simpl; constructor; auto.
Qed.

Lemma new_todos_ids now texts : forall n,
  List.map id (new_todos now n texts)
  = List.map (fun k => (n + Z.of_nat k)%Z) (seq 0 (List.length texts)).
Proof.
  induction texts as [|t r IH]; intros n; simpl; [reflexivity|].
  rewrite IH, Z.add_0_r. f_equal.
  rewrite <- seq_shift, List.map_map. apply List.map_ext. intros k. lia.
Qed.

Lemma all_items_Forall2 {A B} (f : A -> option B) l : forall ys,
  all_items f l = Some ys -> Forall2 (fun x y => f x = Some y) l ys.
Proof.
  induction l as [|x r IH]; simpl; intros ys.
  - intros [= <-]. constructor.
  - destruct (f x) as [y|] eqn:Hx; [|discriminate].
    destruct (all_items f r) as [ys'|]; [|discriminate].
    intros [= <-]. constructor; auto.
Qed.

Lemma all_items_fails {A B} (f : A -> option B) l x :
  In x l -> f x = None -> all_items f l = None.
Proof.
  induction l as [|y r IH]; simpl; [tauto|].
  intros [->|Hin] Hx.
  - now rewrite Hx.
  - rewrite (IH Hin Hx). now destruct (f y).
Qed.

(** C4: bulk create validates the whole batch first.  If one item fails,
    or the batch as a whole does, the answer is [VALIDATION_ERROR] and the
    state is as before; otherwise one todo is created for each item, in the
    order of the input, all with the same [now] as [createdAt] and
    [updatedAt], and they are appended to the collection. *)
Theorem C4_bulk_create (rid now : string) (body : json) (l : list Todo) (st : state) :
  collection st = Some l ->
  (forall m items it,
     body = JObj m -> m !! "items" = Some (JArr items) ->
     In it items -> TodoCreateSchema it = None ->
     POST_bulk rid now body st =
       Some (apiError rid 400 "VALIDATION_ERROR" "Invalid body" (Some Flattened), st)) /\
  (BulkCreateSchema body = None ->
     POST_bulk rid now body st =
       Some (apiError rid 400 "VALIDATION_ERROR" "Invalid body" (Some Flattened), st)) /\
  (forall texts,
     BulkCreateSchema body = Some texts ->
     exists m items created st',
       body = JObj m /\ m !! "items" = Some (JArr items) /\
       Forall2 (fun it txt => TodoCreateSchema it = Some txt) items texts /\
       POST_bulk rid now body st = Some (json_response 201 (ItemsBody created), st') /\
       List.map text created = texts /\
       Forall (fun t => createdAt t = now /\ updatedAt t = now /\ done t = false) created /\
       List.map id created
         = List.map (fun k => (nextId st + Z.of_nat k)%Z) (seq 0 (List.length texts)) /\
       collection st' = Some (l ++ created) /\
       nextId st' = (nextId st + Z.of_nat (List.length texts))%Z).
Proof.
  intros H.
  assert (Hfail : BulkCreateSchema body = None ->
    POST_bulk rid now body st =
      Some (apiError rid 400 "VALIDATION_ERROR" "Invalid body" (Some Flattened), st)).
  { intros Hb. now rewrite (POST_bulk_run rid now _ l st H), Hb. }
  split; [|split]; [|exact Hfail|].
  - intros m items it -> Hm Hin Hit. apply Hfail. unfold BulkCreateSchema. rewrite Hm.
    rewrite (all_items_fails _ _ _ Hin Hit). now destruct (_ && _).
  - intros texts Hb.
    rewrite (POST_bulk_run rid now _ l st H), Hb.
    unfold BulkCreateSchema in Hb.
    destruct body as [| | | | |m]; try discriminate.
    destruct (m !! "items") as [[| | | |items|]|] eqn:Hm; try discriminate.
    destruct (_ && _); [|discriminate].
    exists m, items, (new_todos now (nextId st) texts). eexists.
    split; [reflexivity|]. split; [exact Hm|].
    split; [now apply all_items_Forall2|].
    split; [reflexivity|]. split; [apply new_todos_text|].
    split; [apply new_todos_stamp|]. split; [apply new_todos_ids|].
    split; [|reflexivity]. eapply collection_with_store, H.
Qed.

Lemma C4_bulk_create_witness :
  (POST_bulk "req-1" Sample.t1 (Sample.bulk_body ["a"; " "]) Sample.started
   = Some (apiError "req-1" 400 "VALIDATION_ERROR" "Invalid body" (Some Flattened),
           Sample.started)) /\
  (exists m items created st',
     Sample.bulk_body ["a"; "b"] = JObj m /\ m !! "items" = Some (JArr items) /\
     Forall2 (fun it txt => TodoCreateSchema it = Some txt) items ["a"; "b"] /\
     POST_bulk "req-1" Sample.t1 (Sample.bulk_body ["a"; "b"]) Sample.started
       = Some (json_response 201 (ItemsBody created), st') /\
     List.map text created = ["a"; "b"] /\
     Forall (fun t => createdAt t = Sample.t1 /\ updatedAt t = Sample.t1 /\ done t = false)
            created /\
     List.map id created
       = List.map (fun k => (nextId Sample.started + Z.of_nat k)%Z) (seq 0 2) /\
     collection st' = Some (default [] (collection Sample.started) ++ created) /\
     nextId st' = (nextId Sample.started + Z.of_nat 2)%Z).
Proof.
  split.
  - refine (proj1 (C4_bulk_create "req-1" Sample.t1 (Sample.bulk_body ["a"; " "])
                     _ Sample.started _)
              _ [Sample.text_body "a"; Sample.text_body " "] (Sample.text_body " ")
              eq_refl _ _ _).
    + vm_compute. reflexivity.
    + vm_compute. reflexivity.
    + simpl. right. left. reflexivity.
    + vm_compute. reflexivity.
  - refine (proj2 (proj2 (C4_bulk_create "req-1" Sample.t1 (Sample.bulk_body ["a"; "b"])
                            _ Sample.started _))
              ["a"; "b"] _).
    + vm_compute. reflexivity.
    + vm_compute. reflexivity.
Defined.

(** ** Identifiers *)

Lemma step_ok_read st l resp extra :
  collection st = Some l -> created_ids resp = [] ->
  step_ok st l resp (extend st extra).
Proof.
  intros H Hc. exists l. rewrite Hc.
  split; [rewrite collection_extend; [exact H|now exists l]|].
  repeat split; try constructor; simpl; auto; lia.
Qed.

Lemma step_ok_same st l resp :
  collection st = Some l -> created_ids resp = [] -> step_ok st l resp st.
Proof. intros H Hc. rewrite <- (extend_nil st) at 2. now apply step_ok_read. Qed.

Lemma new_todos_sorted now texts : forall n,
  Sorted.StronglySorted Z.lt (List.map id (new_todos now n texts)) /\
  Forall (fun i => n <= i < n + Z.of_nat (List.length texts))%Z
         (List.map id (new_todos now n texts)).
Proof.
  induction texts as [|t r IH]; intros n; simpl; [split; constructor|].
  destruct (IH (n + 1)%Z) as [Hs Hb]. split.
  - constructor; [exact Hs|]. eapply Forall_impl; [exact Hb|]. simpl. intros; lia.
  - constructor; [lia|]. eapply Forall_impl; [exact Hb|]. simpl. intros; lia.
Qed.

Lemma new_todos_below now texts : forall n,
  Forall (fun t => id t < n + Z.of_nat (List.length texts))%Z (new_todos now n texts).
Proof.
  intros n. destruct (new_todos_sorted now texts n) as [_ Hb].
  rewrite Forall_map in Hb. eapply Forall_impl; [exact Hb|]. simpl. intros; lia.
Qed.

Lemma list_result_creates_nothing rid query l resp :
  list_result rid query l = Some resp -> created_ids resp = [].
Proof.
  assert (Hp : forall items, page_result query items = Some resp -> created_ids resp = []).
  { intros items. unfold page_result.
    destruct (orNumber (query_limit query) 20); [|discriminate].
    destruct (orNumber (query_offset query) 0); [|discriminate].
    now intros [= <-]. }
  unfold list_result. destruct (toString <$> query_done query) as [raw|]; [|apply Hp].
  destruct (parseBool raw); [apply Hp|]. now intros [= <-].
Qed.

Lemma handle_step r st l resp st' :
  collection st = Some l ->
  handle r st = Some (resp, st') ->
  step_ok st l resp st'.
Proof.
  intros H. unfold handle. destruct (req_route r) as [query| |i|b|b|i b|i b|i].
  - destruct (GET_todos_run (req_id r) query l st H) as [extra ->].
    destruct (list_result (req_id r) query l) as [x|] eqn:E; [|discriminate].
    intros [= <- <-]. eapply step_ok_read; [exact H|].
    eapply list_result_creates_nothing, E.
  - rewrite (GET_stats_run l st H). intros [= <- <-]. now apply step_ok_read.
  - destruct (JS.StringToNumber i) as [n|] eqn:Hn.
    + rewrite (GET_todo_run _ _ n l st H Hn). intros [= <- <-].
      apply step_ok_same; [exact H|]. now destruct (List.find (has_id n) l).
    + unfold GET_todo. rewrite Hn. discriminate.
  - rewrite (POST_todos_run _ _ b l st H).
    destruct (TodoCreateSchema b) as [txt|]; intros [= <- <-].
    + exists (l ++ [new_todo (req_now r) (nextId st) txt]).
      split; [eapply collection_with_store, H|]. unfold created_ids. simpl.
      split; [repeat constructor|]. split; [constructor; [lia|constructor]|].
      split; [lia|].
      intros Hl. apply Forall_app. split.
      * eapply Forall_impl; [exact Hl|]. simpl. intros; lia.
      * repeat constructor. simpl. lia.
    + now apply step_ok_same.
  - rewrite (POST_bulk_run _ _ b l st H).
    destruct (BulkCreateSchema b) as [texts|]; intros [= <- <-].
    + exists (l ++ new_todos (req_now r) (nextId st) texts).
      split; [eapply collection_with_store, H|].
      destruct (new_todos_sorted (req_now r) texts (nextId st)) as [Hs Hb].
      simpl. split; [exact Hs|]. split; [exact Hb|]. split; [lia|].
      intros Hl. apply Forall_app. split.
      * eapply Forall_impl; [exact Hl|]. simpl. intros; lia.
      * apply new_todos_below.
    + now apply step_ok_same.
  - destruct (JS.StringToNumber i) as [n|] eqn:Hn;
      [|unfold PUT_todo; rewrite Hn; discriminate].
    destruct (JS.findIndex (has_id n) l) as [idx|] eqn:Hf.
    + destruct (findIndex_Some _ _ _ Hf) as (old & Ho & _).
      destruct (TodoPutSchema b) as [[txt d]|] eqn:Hb.
      * rewrite (PUT_todo_ok _ _ _ _ _ _ _ _ _ _ _ H Hn Hf Ho Hb). intros [= <- <-].
        exists (<[idx := replaced (req_now r) old txt d]> l).
        split; [eapply collection_with_store, H|].
        simpl. split; [constructor|]. split; [constructor|]. split; [lia|].
        intros Hl. apply Forall_insert; [exact Hl|]. simpl.
        eapply (Forall_lookup_1 _ _ _ _ Hl Ho).
      * rewrite (PUT_todo_invalid _ _ _ _ _ _ _ _ H Hn Hf Hb). intros [= <- <-].
        now apply step_ok_same.
    + rewrite (PUT_todo_not_found _ _ _ _ _ _ _ H Hn Hf). intros [= <- <-].
      now apply step_ok_same.
  - destruct (JS.StringToNumber i) as [n|] eqn:Hn;
      [|unfold PATCH_todo; rewrite Hn; discriminate].
    destruct (JS.findIndex (has_id n) l) as [idx|] eqn:Hf.
    + destruct (findIndex_Some _ _ _ Hf) as (old & Ho & _).
      destruct (TodoPatchSchema b) as [[txt d]|] eqn:Hb.
      * rewrite (PATCH_todo_ok _ _ _ _ _ _ _ _ _ _ _ H Hn Hf Ho Hb). intros [= <- <-].
        exists (<[idx := patched (req_now r) old txt d]> l).
        split; [eapply collection_with_store, H|].
        simpl. split; [constructor|]. split; [constructor|]. split; [lia|].
        intros Hl. apply Forall_insert; [exact Hl|]. simpl.
        eapply (Forall_lookup_1 _ _ _ _ Hl Ho).
      * rewrite (PATCH_todo_invalid _ _ _ _ _ _ _ _ H Hn Hf Hb). intros [= <- <-].
        now apply step_ok_same.
    + rewrite (PATCH_todo_not_found _ _ _ _ _ _ _ H Hn Hf). intros [= <- <-].
      now apply step_ok_same.
  - destruct (JS.StringToNumber i) as [n|] eqn:Hn;
      [|unfold DELETE_todo; rewrite Hn; discriminate].
    rewrite (DELETE_todo_run _ _ n l st H Hn). intros [= <- <-].
    exists (List.filter (fun x => negb (has_id n x)) l).
    split; [apply collection_rebind|].
    assert (Hc : created_ids
      (if (List.length (List.filter (fun x => negb (has_id n x)) l) =? List.length l)%nat
       then apiError (req_id r) 404 "NOT_FOUND" "Todo not found" None
       else json_response 204 NoBody) = []) by now destruct (_ =? _)%nat.
    rewrite Hc. simpl. split; [constructor|]. split; [constructor|]. split; [lia|].
    intros Hl. rewrite Forall_forall in *. intros x Hx.
    apply Hl. apply list_elem_of_In. apply list_elem_of_In in Hx.
    now apply List.filter_In in Hx.
Qed.

(** The state the server starts in has its todo below the counter. *)
Lemma init_ids_below t1 t2 :
  exists l, collection (init t1 t2) = Some l /\
            Forall (fun t => id t < nextId (init t1 t2))%Z l.
Proof. eexists. split; [reflexivity|]. repeat constructor. Qed.

Lemma StronglySorted_append {A} (R : A -> A -> Prop) l1 l2 :
  Sorted.StronglySorted R l1 -> Sorted.StronglySorted R l2 ->
  (forall x y, In x l1 -> In y l2 -> R x y) ->
  Sorted.StronglySorted R (l1 ++ l2).
Proof.
  induction 1 as [|a l1 Hs IH Ha]; intros H2 Hx; simpl; [exact H2|].
  constructor.
  - apply IH; [exact H2|]. intros x y Hin. apply Hx. now right.
  - apply Forall_app. split; [exact Ha|].
    apply List.Forall_forall. intros y Hy. apply Hx; [now left|exact Hy].
Qed.

Lemma serve_cons r rest st resps st' :
  serve (r :: rest) st = Some (resps, st') ->
  exists resp st1 resps1,
    handle r st = Some (resp, st1) /\ serve rest st1 = Some (resps1, st') /\
    resps = resp :: resps1.
Proof.
  simpl. intros H.
  apply bind_inv in H as (resp & st1 & Hh & H).
  apply bind_inv in H as (resps1 & st2 & Hs & H).
  injection H as <- <-. now exists resp, st1, resps1.
Qed.

(** C5: over any sequence of requests, the ids given to the todos that are
    created, a batch counted item by item, increase strictly; each is at
    least the value of the counter at the start, hence above the id of
    every todo the store then holds or has held, whether it has been
    deleted since or not; and the todos in the store stay below the
    counter. *)
Theorem C5_ids_increase (rs : list request) :
  forall (st : state) (l : list Todo) (resps : list response) (st' : state),
  collection st = Some l ->
  Forall (fun t => id t < nextId st)%Z l ->
  serve rs st = Some (resps, st') ->
  Sorted.StronglySorted Z.lt (List.concat (List.map created_ids resps)) /\
  Forall (fun i => nextId st <= i < nextId st')%Z (List.concat (List.map created_ids resps)) /\
  (forall t i, In t l -> In i (List.concat (List.map created_ids resps)) -> (id t < i)%Z) /\
  (nextId st <= nextId st')%Z /\
  exists l', collection st' = Some l' /\ Forall (fun t => id t < nextId st')%Z l'.
Proof.
  induction rs as [|r rest IH]; intros st l resps st' H Hl Hrun.
  - injection Hrun as <- <-. simpl.
    split; [constructor|]. split; [constructor|]. split; [intros t i _ []|].
    split; [lia|]. now exists l.
  - apply serve_cons in Hrun as (resp & st1 & resps1 & Hh & Hs & ->).
    destruct (handle_step r st l resp st1 H Hh) as (l1 & H1 & Hsorted & Hb & Hle & Hinv).
    destruct (IH st1 l1 resps1 st' H1 (Hinv Hl) Hs) as (IHs & IHb & _ & IHle & IHl).
    simpl.
    assert (Hall : Forall (fun i => nextId st <= i < nextId st')%Z
                     (created_ids resp ++ List.concat (List.map created_ids resps1))).
    { apply Forall_app. split.
      - eapply Forall_impl; [exact Hb|]. simpl. intros; lia.
      - eapply Forall_impl; [exact IHb|]. simpl. intros; lia. }
    split; [|split; [exact Hall|split; [|split; [lia|exact IHl]]]].
    + apply StronglySorted_append; [exact Hsorted|exact IHs|].
      intros x y Hx Hy.
      rewrite List.Forall_forall in Hb, IHb.
      specialize (Hb x Hx). specialize (IHb y Hy). simpl in *. lia.
    + intros t i Ht Hi.
      rewrite List.Forall_forall in Hall, Hl.
      specialize (Hall i Hi). specialize (Hl t Ht). simpl in *. lia.
Qed.

Lemma C5_ids_increase_witness :
  List.concat (List.map created_ids (Sample.answers Sample.busy Sample.started))
    = [2; 3; 4; 5]%Z /\
  Sorted.StronglySorted Z.lt
    (List.concat (List.map created_ids (Sample.answers Sample.busy Sample.started))).
Proof.
  split; [vm_compute; reflexivity|].
  refine (proj1 (C5_ids_increase Sample.busy Sample.started
                   (default [] (collection Sample.started))
                   (Sample.answers Sample.busy Sample.started)
                   (Sample.after Sample.busy Sample.started) _ _ _)).
  - vm_compute. reflexivity.
  - vm_compute. repeat constructor.
  - vm_compute. reflexivity.
Defined.

(** ** Replace and patch *)

Lemma find_findIndex {A} (p : A -> bool) l x :
  List.find p l = Some x ->
  exists i, JS.findIndex p l = Some i /\ l !! i = Some x.
Proof.
  induction l as [|y r IH]; simpl; [discriminate|].
  destruct (p y).
  - intros [= ->]. now exists 0%nat.
  - intros H. destruct (IH H) as (i & -> & Hi). now exists (S i).
Qed.

(** C6: a replace that succeeds on an existing todo sets its [text] and
    [done] to those of the body and its [updatedAt] to [now], keeps its
    [id] and [createdAt], and changes no other todo nor the counter. *)
Theorem C6_replace (rid now param_id : string) (body : json) (n : JS.jsnum)
    (l : list Todo) (old : Todo) (txt : string) (d : bool) (st : state) :
  collection st = Some l ->
  JS.StringToNumber param_id = Some n ->
  List.find (has_id n) l = Some old ->
  TodoPutSchema body = Some (txt, d) ->
  exists idx t st',
    PUT_todo rid now param_id body st = Some (json_response 200 (TodoBody t), st') /\
    l !! idx = Some old /\
    collection st' = Some (<[idx := t]> l) /\
    nextId st' = nextId st /\
    text t = txt /\ done t = d /\ updatedAt t = now /\
    id t = id old /\ createdAt t = createdAt old /\
    (exists m s, body = JObj m /\ m !! "text" = Some (JStr s) /\ txt = JS.trim s /\
                 m !! "done" = Some (JBool d)).
Proof.
  intros H Hn Hfind Hb.
  destruct (find_findIndex _ _ _ Hfind) as (idx & Hf & Ho).
  exists idx, (replaced now old txt d). eexists.
  split; [apply (PUT_todo_ok _ _ _ _ _ _ _ _ _ _ _ H Hn Hf Ho Hb)|].
  split; [exact Ho|]. split; [eapply collection_with_store, H|].
  repeat (split; [reflexivity|]).
  unfold TodoPutSchema in Hb. destruct body as [| | | | |m]; try discriminate.
  unfold text_field, bool_field in Hb.
  destruct (m !! "text") as [[| | |s| |]|] eqn:Ht; try discriminate.
  destruct (_ && _); [|discriminate].
  destruct (m !! "done") as [[|b| | | |]|] eqn:Hd; try discriminate.
  injection Hb as <- <-. now exists m, s.
Qed.

Lemma C6_replace_witness :
  exists idx t st',
    PUT_todo "req-1" Sample.t2 "1"
        (JObj {[ "text" := JStr " walk the dog "; "done" := JBool true ]}) Sample.two_todos
      = Some (json_response 200 (TodoBody t), st') /\
    collection st' = Some (<[idx := t]> (default [] (collection Sample.two_todos))) /\
    t = {| id := 1; text := "walk the dog"; done := true;
           createdAt := Sample.t0; updatedAt := Sample.t2 |}.
Proof.
  destruct (C6_replace "req-1" Sample.t2 "1"
              (JObj {[ "text" := JStr " walk the dog "; "done" := JBool true ]})
              (JS.JInt 1) (default [] (collection Sample.two_todos))
              {| id := 1; text := "İlk todo"; done := false;
                 createdAt := Sample.t0; updatedAt := Sample.t0 |}
              "walk the dog" true Sample.two_todos)
    as (idx & t & st' & Hrun & _ & Hcol & _ & Ht & Hd & Hu & Hi & Hc & _).
  - vm_compute. reflexivity.
  - vm_compute. reflexivity.
  - vm_compute. reflexivity.
  - vm_compute. reflexivity.
  - exists idx, t, st'. split; [exact Hrun|]. split; [exact Hcol|].
    destruct t; simpl in *. now subst.
Defined.

(** C7: a patch that succeeds sets [text] to the trimmed text of the body
    if the body has one and keeps it otherwise, sets [done] to the one of
    the body if it has one and keeps it otherwise, always sets [updatedAt]
    to [now], and keeps [id] and [createdAt]; with the body [{done: true}]
    it sets [done] and [updatedAt] and leaves [text] and [createdAt] as
    they were.  No other todo changes, nor the counter. *)
Theorem C7_patch (rid now param_id : string) (body : json) (n : JS.jsnum)
    (l : list Todo) (old : Todo) (txt : option string) (d : option bool) (st : state) :
  collection st = Some l ->
  JS.StringToNumber param_id = Some n ->
  List.find (has_id n) l = Some old ->
  TodoPatchSchema body = Some (txt, d) ->
  exists idx t st',
    PATCH_todo rid now param_id body st = Some (json_response 200 (TodoBody t), st') /\
    l !! idx = Some old /\
    collection st' = Some (<[idx := t]> l) /\
    nextId st' = nextId st /\
    updatedAt t = now /\ id t = id old /\ createdAt t = createdAt old /\
    text t = default (text old) txt /\ done t = default (done old) d /\
    (forall m, body = JObj m ->
       (m !! "text" = None -> text t = text old) /\
       (m !! "done" = None -> done t = done old)) /\
    (body = JObj {[ "done" := JBool true ]} -> text t = text old /\ done t = true) /\
    (exists m,
       body = JObj m /\
       match m !! "text" with
       | Some j => exists s, j = JStr s /\ text t = JS.trim s
       | None => text t = text old
       end /\
       match m !! "done" with
       | Some j => exists b, j = JBool b /\ done t = b
       | None => done t = done old
       end).
Proof.
  intros H Hn Hfind Hb.
  destruct (find_findIndex _ _ _ Hfind) as (idx & Hf & Ho).
  exists idx, (patched now old txt d). eexists.
  split; [apply (PATCH_todo_ok _ _ _ _ _ _ _ _ _ _ _ H Hn Hf Ho Hb)|].
  split; [exact Ho|]. split; [eapply collection_with_store, H|].
  repeat (split; [reflexivity|]). split; [|split].
  - intros m ->. unfold TodoPatchSchema, optional in Hb. simpl. split; intros Hm.
    + rewrite Hm in Hb.
      destruct (m !! "done"); [destruct (bool_field _)|]; simpl in Hb;
        try discriminate; now injection Hb as <- <-.
    + rewrite Hm in Hb.
      destruct (m !! "text"); [destruct (text_field _)|]; simpl in Hb;
        try discriminate; now injection Hb as <- <-.
  - intros ->. vm_compute in Hb. now injection Hb as <- <-.
  - unfold TodoPatchSchema in Hb. destruct body as [| | | | |m]; try discriminate.
    exists m. split; [reflexivity|].
    assert (Ht : optional text_field (m !! "text") = Some txt /\
                 optional bool_field (m !! "done") = Some d).
    { destruct (optional text_field (m !! "text")) as [x|]; [|discriminate].
      destruct (optional bool_field (m !! "done")) as [y|]; [|discriminate].
      destruct (defined x || defined y); [|discriminate]. now injection Hb as <- <-. }
    destruct Ht as [Ht Hd]. unfold optional in Ht, Hd. simpl. split.
    + destruct (m !! "text") as [j|]; [|now injection Ht as <-].
      unfold text_field in Ht. destruct j as [| | |s| |]; try discriminate.
      destruct (_ && _); [|discriminate]. injection Ht as <-. now exists s.
    + destruct (m !! "done") as [j|]; [|now injection Hd as <-].
      unfold bool_field in Hd. destruct j as [|b'| | | |]; try discriminate.
      injection Hd as <-. now exists b'.
Qed.

Lemma C7_patch_witness :
  (exists idx t st',
     PATCH_todo "req-1" Sample.t2 "2" (JObj {[ "done" := JBool true ]}) Sample.two_todos
       = Some (json_response 200 (TodoBody t), st') /\
     collection st' = Some (<[idx := t]> (default [] (collection Sample.two_todos))) /\
     t = {| id := 2; text := "buy milk"; done := true;
            createdAt := Sample.t1; updatedAt := Sample.t2 |}) /\
  (exists idx t st',
     PATCH_todo "req-1" Sample.t2 "2" (JObj {[ "text" := JStr "  buy oat milk " ]})
         Sample.two_todos
       = Some (json_response 200 (TodoBody t), st') /\
     collection st' = Some (<[idx := t]> (default [] (collection Sample.two_todos))) /\
     t = {| id := 2; text := "buy oat milk"; done := false;
            createdAt := Sample.t1; updatedAt := Sample.t2 |}).
Proof.
  split.
  - destruct (C7_patch "req-1" Sample.t2 "2" (JObj {[ "done" := JBool true ]})
                (JS.JInt 2) (default [] (collection Sample.two_todos))
                {| id := 2; text := "buy milk"; done := false;
                   createdAt := Sample.t1; updatedAt := Sample.t1 |}
                None (Some true) Sample.two_todos)
      as (idx & t & st' & Hrun & _ & Hcol & _ & Hu & Hi & Hc & Ht & Hd & _).
    + vm_compute. reflexivity.
    + vm_compute. reflexivity.
    + vm_compute. reflexivity.
    + vm_compute. reflexivity.
    + exists idx, t, st'. split; [exact Hrun|]. split; [exact Hcol|].
      destruct t; simpl in *. now subst.
  - destruct (C7_patch "req-1" Sample.t2 "2" (JObj {[ "text" := JStr "  buy oat milk " ]})
                (JS.JInt 2) (default [] (collection Sample.two_todos))
                {| id := 2; text := "buy milk"; done := false;
                   createdAt := Sample.t1; updatedAt := Sample.t1 |}
                (Some "buy oat milk") None Sample.two_todos)
      as (idx & t & st' & Hrun & _ & Hcol & _ & Hu & Hi & Hc & Ht & Hd & _).
    + vm_compute. reflexivity.
    + vm_compute. reflexivity.
    + vm_compute. reflexivity.
    + vm_compute. reflexivity.
    + exists idx, t, st'. split; [exact Hrun|]. split; [exact Hcol|].
      destruct t; simpl in *. now subst.
Defined.

(** ** The [done] filter *)

Lemma In_slice {A} (l : list A) a b x : In x (JS.slice l a b) -> In x l.
Proof.
  unfold JS.slice. intros H.
  apply list_elem_of_In in H. apply list_elem_of_In.
  eapply elem_of_sublist; [exact H|].
  etransitivity; [apply sublist_take|apply sublist_drop].
Qed.

Lemma parseBool_None v :
  parseBool v = None <-> v <> "true" /\ v <> "false".
Proof.
  unfold parseBool.
  destruct (String.eqb_spec v "true"); [split; [discriminate|tauto]|].
  destruct (String.eqb_spec v "false"); [split; [discriminate|tauto]|].
  tauto.
Qed.

(** C8: a [done] parameter that is neither [true] nor [false] is answered
    with [VALIDATION_ERROR] and the store is left alone; with [true] the
    list is made of the todos that are done and with [false] of those
    that are not: the total counts exactly those, and the page is cut
    from them, sorted. *)
Theorem C8_done_filter (rid : string) (query : Query) (v : qval) (l : list Todo)
    (st : state) :
  collection st = Some l ->
  query_done query = Some v ->
  (toString v <> "true" /\ toString v <> "false" ->
     exists st',
       GET_todos rid query st =
         Some (apiError rid 400 "VALIDATION_ERROR" "done must be true or false" None, st') /\
       same_store st st') /\
  (forall b lim off,
     toString v = (if b : bool then "true" else "false") ->
     orNumber (query_limit query) 20 = Some lim ->
     orNumber (query_offset query) 0 = Some off ->
     exists page meta st' matching,
       GET_todos rid query st = Some (json_response 200 (ListBody page meta), st') /\
       Permutation matching (List.filter (fun t => Bool.eqb (done t) b) (filter_q query l)) /\
       total meta = Z.of_nat (List.length matching) /\
       page = JS.slice matching (offset meta) (JS.add (offset meta) (limit meta)) /\
       Forall (fun t => done t = b) page /\
       (query_q query = None ->
        total meta = Z.of_nat (List.length (List.filter (fun t => Bool.eqb (done t) b) l)))).
Proof.
  intros H Hv.
  destruct (GET_todos_run rid query l st H) as [extra ->].
  unfold list_result. rewrite Hv. simpl. split.
  - intros Hbad. apply parseBool_None in Hbad. rewrite Hbad. simpl.
    eexists. split; [reflexivity|]. split; [|reflexivity].
    symmetry. apply collection_extend. now exists l.
  - intros b lim off Hb Hlim Hoff.
    assert (Hparse : parseBool (toString v) = Some b)
      by (rewrite Hb; now destruct b).
    rewrite Hparse. unfold page_result.
    rewrite Hlim, Hoff. simpl.
    eexists _, _, _, (JS.sort (query_cmp query) (filter_done b (filter_q query l))).
    split; [reflexivity|]. split; [apply sort_perm|]. simpl.
    split; [reflexivity|]. split; [reflexivity|]. split.
    + apply List.Forall_forall. intros t Ht.
      apply In_slice in Ht.
      apply (Permutation_in _ (sort_perm _ _)) in Ht.
      apply List.filter_In in Ht as [_ Ht]. now apply Bool.eqb_prop in Ht.
    + intros Hq. rewrite sort_length. unfold filter_done, filter_q, query_needle.
      now rewrite Hq.
Qed.

Lemma C8_done_filter_witness :
  (exists st',
     GET_todos "req-1" (Sample.with_done "maybe") Sample.done_mixed =
       Some (apiError "req-1" 400 "VALIDATION_ERROR" "done must be true or false" None, st') /\
     same_store Sample.done_mixed st') /\
  (exists page meta st',
     GET_todos "req-1" (Sample.with_done "true") Sample.done_mixed
       = Some (json_response 200 (ListBody page meta), st') /\
     total meta = 2%Z /\
     Forall (fun t => done t = true) page) /\
  (exists page meta st',
     GET_todos "req-1" (Sample.with_done "false") Sample.done_mixed
       = Some (json_response 200 (ListBody page meta), st') /\
     total meta = 1%Z /\
     Forall (fun t => done t = false) page).
Proof.
  split; [|split].
  - refine (proj1 (C8_done_filter "req-1" (Sample.with_done "maybe") (QStr "maybe")
                     (default [] (collection Sample.done_mixed)) Sample.done_mixed _ _) _).
    + vm_compute. reflexivity.
    + reflexivity.
    + split; discriminate.
  - destruct (proj2 (C8_done_filter "req-1" (Sample.with_done "true") (QStr "true")
                       (default [] (collection Sample.done_mixed)) Sample.done_mixed
                       eq_refl eq_refl)
                true (JS.JInt 20) (JS.JInt 0) eq_refl eq_refl eq_refl)
      as (page & meta & st' & matching & Hrun & _ & _ & _ & Hall & Htotal).
    exists page, meta, st'. split; [exact Hrun|]. split; [|exact Hall].
    rewrite Htotal by reflexivity. vm_compute. reflexivity.
  - destruct (proj2 (C8_done_filter "req-1" (Sample.with_done "false") (QStr "false")
                       (default [] (collection Sample.done_mixed)) Sample.done_mixed
                       eq_refl eq_refl)
                false (JS.JInt 20) (JS.JInt 0) eq_refl eq_refl eq_refl)
      as (page & meta & st' & matching & Hrun & _ & _ & _ & Hall & Htotal).
    exists page, meta, st'. split; [exact Hrun|]. split; [|exact Hall].
    rewrite Htotal by reflexivity. vm_compute. reflexivity.
Defined.

(** The filtering example of the specification: todos whose [done] are
    true, false, true; [done=true] lists exactly the two that match. *)
Example done_filter_example :
  List.map done (default [] (collection Sample.done_mixed)) = [true; false; true] /\
  (List.map id ∘ listed ∘ fst <$>
     GET_todos "req-1" (Sample.with_done "true") Sample.done_mixed) = Some [1; 3]%Z /\
  (List.map id ∘ listed ∘ fst <$>
     GET_todos "req-1" (Sample.with_done "false") Sample.done_mixed) = Some [2]%Z /\
  (fst <$> GET_todos "req-1" (Sample.with_done "maybe") Sample.done_mixed)
    = Some (apiError "req-1" 400 "VALIDATION_ERROR" "done must be true or false" None).
Proof. vm_compute. repeat split; reflexivity. Qed.

(** ** Reads *)

(** C9: a read route leaves the store as it was: the array [todos] names
    is the same array, with the same elements in the same order, no array
    that existed has changed, and the counter has not moved; the same read
    served again gives the same response.  In particular [sortTodos] on
    the array of the collection itself sorts a copy. *)
Theorem C9_reads_keep_the_store (r : request) (st : state) (l : list Todo)
    (resp : response) (st' : state) :
  collection st = Some l ->
  is_read (req_route r) = true ->
  handle r st = Some (resp, st') ->
  collection st' = Some l /\
  nextId st' = nextId st /\
  todos st' = todos st /\
  (exists extra, heap st' = heap st ++ extra) /\
  (exists st'', handle r st' = Some (resp, st'') /\ same_store st st'') /\
  (forall sort order,
     exists copy st1,
       sortTodos (todos st) sort order st = Some (copy, st1) /\
       copy <> todos st /\
       collection st1 = Some l /\
       heap st1 !! copy = Some (JS.sort (compareTodos (sort_dir order) (sort_key sort)) l)).
Proof.
  intros H Hread Hrun.
  assert (Hwf : wf st) by now exists l.
  assert (Hext : exists extra, st' = extend st extra /\
            forall st1, collection st1 = Some l ->
              exists extra1, handle r st1 = Some (resp, extend st1 extra1)).
  { unfold handle in *. destruct (req_route r) as [query| |i| | | | |]; try discriminate.
    - destruct (GET_todos_run (req_id r) query l st H) as [extra E]. rewrite E in Hrun.
      destruct (list_result (req_id r) query l) as [x|] eqn:Hx; [|discriminate].
      injection Hrun as <- <-. exists extra. split; [reflexivity|].
      intros st1 H1. destruct (GET_todos_run (req_id r) query l st1 H1) as [extra1 ->].
      rewrite Hx. now exists extra1.
    - rewrite (GET_stats_run l st H) in Hrun. injection Hrun as <- <-.
      eexists. split; [reflexivity|].
      intros st1 H1. rewrite (GET_stats_run l st1 H1). now eexists.
    - destruct (JS.StringToNumber i) as [n|] eqn:Hn;
        [|unfold GET_todo in Hrun; rewrite Hn in Hrun; discriminate].
      rewrite (GET_todo_run _ _ n l st H Hn) in Hrun. injection Hrun as <- <-.
      exists []. split; [now rewrite extend_nil|].
      intros st1 H1. rewrite (GET_todo_run _ _ n l st1 H1 Hn).
      exists []. now rewrite extend_nil. }
  destruct Hext as (extra & -> & Hagain).
  assert (Hcol : collection (extend st extra) = Some l)
    by now rewrite collection_extend.
  split; [exact Hcol|]. split; [reflexivity|]. split; [reflexivity|].
  split; [now exists extra|]. split.
  - destruct (Hagain _ Hcol) as [extra1 E]. eexists. split; [exact E|].
    split; [|reflexivity].
    rewrite collection_extend; [now rewrite Hcol|now exists l].
  - intros sort order. eexists _, _.
    split; [apply sortTodos_run; exact H|].
    split; [|split].
    + apply lookup_lt_Some in H. unfold ref in *. lia.
    + now rewrite collection_extend.
    + apply heap_fresh.
Qed.

Lemma C9_reads_keep_the_store_witness :
  collection (Sample.after [Sample.req (GetTodos (Sample.by_id (Some (QStr "desc")))) Sample.t2]
                Sample.three_todos)
    = collection Sample.three_todos /\
  List.map id (default [] (collection Sample.three_todos)) = [1; 2; 3]%Z /\
  (List.map id ∘ listed <$>
     Sample.answers [Sample.req (GetTodos (Sample.by_id (Some (QStr "desc")))) Sample.t2]
       Sample.three_todos) = [[3; 2; 1]%Z].
Proof.
  split; [|split; vm_compute; reflexivity].
  pose (r := Sample.req (GetTodos (Sample.by_id (Some (QStr "desc")))) Sample.t2).
  refine (proj1 (C9_reads_keep_the_store r Sample.three_todos
                   (default [] (collection Sample.three_todos))
                   (default (json_response 0 NoBody) (fst <$> handle r Sample.three_todos))
                   (Sample.after [r] Sample.three_todos) _ _ _)).
  - vm_compute. reflexivity.
  - reflexivity.
  - vm_compute. reflexivity.
Defined.

(** ** Ids that match no todo *)

Lemma find_none_of {A} (p : A -> bool) l :
  (forall x, In x l -> p x = false) -> List.find p l = None.
Proof.
  induction l as [|y r IH]; simpl; [reflexivity|]. intros H.
  rewrite (H y) by now left. apply IH. intros x Hx. apply H. now right.
Qed.

(** [Number] reads every string as some number. *)
Lemma StringToNumber_total s : is_Some (JS.StringToNumber s).
Proof.
  unfold JS.StringToNumber, JS.radixLiteral, JS.signedDecimal, JS.unsignedDecimal.
  repeat case_match; simplify_eq; eauto.
Qed.

(** C10, as the specification states it, fails: [0x1] is not a decimal
    numeral, yet [Number] reads it as 1, and on a server that has just
    started the four routes find the seed todo; [stats] is not one either,
    and [GET /v1/todos/stats] is answered by the statistics route; and a
    segment that cannot be decoded is answered 500 [INTERNAL_ERROR]. *)
Lemma C10_hex_id_counterexample :
  decimal_numeral "0x1" = false /\
  JS.StringToNumber "0x1" = Some (JS.JInt 1) /\
  (status ∘ fst <$> GET_todo "req-1" "0x1" Sample.started) = Some 200%Z /\
  (status ∘ fst <$> PUT_todo "req-1" Sample.t1 "0x1"
                      (JObj {[ "text" := JStr "x"; "done" := JBool true ]})
                      Sample.started) = Some 200%Z /\
  (status ∘ fst <$> PATCH_todo "req-1" Sample.t1 "0x1" (JObj ∅) Sample.started)
    = Some 400%Z /\
  (status ∘ fst <$> DELETE_todo "req-1" "0x1" Sample.started) = Some 204%Z /\
  (collection ∘ snd <$> DELETE_todo "req-1" "0x1" Sample.started) = Some (Some []) /\
  App.answer (App.get "0x1") Sample.started
  = Some (Some "abc-1",
          App.Json (json_response 200
                      (TodoBody {| id := 1; text := "İlk todo"; done := false;
                                   createdAt := Sample.t0; updatedAt := Sample.t0 |}))) /\
  decimal_numeral "stats" = false /\
  App.answer (App.get "stats") Sample.started
  = Some (Some "abc-1", App.Json (json_response 200 (StatsBody 1 0 1))) /\
  decimal_numeral "%E0%A4%A" = false /\
  App.answer (App.get "%E0%A4%A") Sample.started
  = Some (Some "abc-1",
          App.Json (apiError "abc-1" 500 "INTERNAL_ERROR" "Internal server error" None)).
Proof. vm_compute. repeat split; reflexivity. Qed.

(** An id that reads as [NaN], or as a number that is the id of no todo,
    in the four handlers. *)
Lemma unknown_id_not_found (rid now param_id : string) (body : json) (n : JS.jsnum)
    (l : list Todo) (st : state) :
  collection st = Some l ->
  JS.StringToNumber param_id = Some n ->
  n = JS.JNaN \/ (forall t, In t l -> JS.JInt (id t) <> n) ->
  let not_found := apiError rid 404 "NOT_FOUND" "Todo not found" None in
  GET_todo rid param_id st = Some (not_found, st) /\
  PUT_todo rid now param_id body st = Some (not_found, st) /\
  PATCH_todo rid now param_id body st = Some (not_found, st) /\
  (exists st', DELETE_todo rid param_id st = Some (not_found, st') /\ same_store st st').
Proof.
  intros H Hn Hno not_found.
  assert (Hfind : List.find (has_id n) l = None).
  { apply find_none_of. intros t Ht. destruct Hno as [->|Hno]; [reflexivity|].
    specialize (Hno t Ht). unfold has_id, JS.strict_eq.
    destruct n as [| | |k|num k]; try reflexivity.
    apply Z.eqb_neq. congruence. }
  assert (Hidx : JS.findIndex (has_id n) l = None) by now apply findIndex_None.
  split; [|split; [|split]].
  - now rewrite (GET_todo_run _ _ n l st H Hn), Hfind.
  - apply (PUT_todo_not_found _ _ _ _ _ _ _ H Hn Hidx).
  - apply (PATCH_todo_not_found _ _ _ _ _ _ _ H Hn Hidx).
  - rewrite (DELETE_todo_run _ _ n l st H Hn).
    rewrite (find_filter_None _ _ Hfind), Nat.eqb_refl.
    eexists. split; [reflexivity|]. split; [|reflexivity].
    now rewrite collection_rebind.
Qed.

(** C10, amended: take a request on [/v1/todos/<segment>] with the method
    of one of the four routes on [/v1/todos/:id], whose body the JSON
    parser did not reject and, for [GET], whose segment is not [stats]
    (that path belongs to the statistics route).  If the segment decodes
    to an id that reads as [NaN], or as a number (a fraction too) that is
    the id of no todo in the store, the answer is 404 [NOT_FOUND] in the
    error envelope, with the id of the request, whatever the body, and the
    store holds the same todos and the same counter.  If the segment does
    not decode, the answer is 500 [INTERNAL_ERROR] in the same envelope,
    and the store is untouched. *)
Theorem C10_unknown_id (i : App.incoming) (b : json) (segment : string)
    (l : list Todo) (st : state) :
  collection st = Some l ->
  App.in_body i = Some b ->
  App.in_target i = App.Member segment ->
  App.id_route (App.in_verb i) segment = true ->
  let rid := App.request_id (App.in_x_request_id i) (App.in_uuid i) in
  let sent resp := {| App.out_x_request_id := Some rid; App.out_reply := App.Json resp |} in
  (forall param_id,
     App.decodeURIComponent segment = Some param_id ->
     exists n,
       JS.StringToNumber param_id = Some n /\
       (n = JS.JNaN \/ (forall t, In t l -> JS.JInt (id t) <> n) ->
        exists st',
          App.app i st
          = Some (sent (apiError rid 404 "NOT_FOUND" "Todo not found" None), st') /\
          same_store st st')) /\
  (App.decodeURIComponent segment = None ->
   App.app i st
   = Some (sent (apiError rid 500 "INTERNAL_ERROR" "Internal server error" None), st)) /\
  payload (apiError rid 404 "NOT_FOUND" "Todo not found" None)
  = ErrorBody "NOT_FOUND" "Todo not found" None rid.
Proof.
  intros H Hb Ht Hv rid sent. unfold App.app. rewrite Hb. fold rid.
  unfold App.router. rewrite Ht. split; [|split; [|reflexivity]].
  - intros param_id ->. destruct (StringToNumber_total param_id) as [n Hn].
    exists n. split; [exact Hn|]. intros Hno.
    destruct (unknown_id_not_found rid (App.in_now i) param_id b n l st H Hn Hno)
      as (Hget & Hput & Hpatch & st' & Hdel & Hsame).
    unfold App.id_route in Hv.
    destruct (App.in_verb i); try discriminate.
    + apply Bool.negb_true_iff in Hv. rewrite Hv.
      exists st. split; [|now split].
      unfold handle. simpl. now rewrite (bind_Some _ _ _ _ _ Hget).
    + apply Bool.negb_true_iff in Hv. rewrite Hv.
      exists st. split; [|now split].
      unfold handle. simpl. now rewrite (bind_Some _ _ _ _ _ Hget).
    + exists st. split; [|now split].
      unfold handle. simpl. now rewrite (bind_Some _ _ _ _ _ Hput).
    + exists st. split; [|now split].
      unfold handle. simpl. now rewrite (bind_Some _ _ _ _ _ Hpatch).
    + exists st'. split; [|exact Hsame].
      unfold handle. simpl. now rewrite (bind_Some _ _ _ _ _ Hdel).
  - now intros ->.
Qed.

Lemma C10_unknown_id_witness :
  App.answer (App.get "1.5") Sample.started
  = Some (Some "abc-1", App.Json (apiError "abc-1" 404 "NOT_FOUND" "Todo not found" None)) /\
  App.answer (App.with_verb App.DELETE (App.get "%61bc")) Sample.started
  = Some (Some "abc-1", App.Json (apiError "abc-1" 404 "NOT_FOUND" "Todo not found" None)) /\
  App.answer (App.with_verb App.PATCH (App.get "1e21")) Sample.started
  = Some (Some "abc-1", App.Json (apiError "abc-1" 404 "NOT_FOUND" "Todo not found" None)).
Proof.
  split; [|split].
  - destruct (proj1 (C10_unknown_id (App.get "1.5") (JObj ∅) "1.5"
                       (default [] (collection Sample.started)) Sample.started
                       eq_refl eq_refl eq_refl eq_refl) "1.5" eq_refl)
      as (n & Hn & Hrun).
    vm_compute in Hn. injection Hn as <-.
    destruct Hrun as (st' & Hrun & _); [right; intros t _; discriminate|].
    unfold App.answer. now rewrite Hrun.
  - destruct (proj1 (C10_unknown_id (App.with_verb App.DELETE (App.get "%61bc")) (JObj ∅)
                       "%61bc" (default [] (collection Sample.started)) Sample.started
                       eq_refl eq_refl eq_refl eq_refl) "abc" eq_refl)
      as (n & Hn & Hrun).
    vm_compute in Hn. injection Hn as <-.
    destruct Hrun as (st' & Hrun & _); [left; reflexivity|].
    unfold App.answer. now rewrite Hrun.
  - destruct (proj1 (C10_unknown_id (App.with_verb App.PATCH (App.get "1e21")) (JObj ∅)
                       "1e21" (default [] (collection Sample.started)) Sample.started
                       eq_refl eq_refl eq_refl eq_refl) "1e21" eq_refl)
      as (n & Hn & Hrun).
    vm_compute in Hn. injection Hn as <-.
    destruct Hrun as (st' & Hrun & _).
    + right. simpl. intros t [<-|[]]. discriminate.
    + unfold App.answer. now rewrite Hrun.
Defined.

(** Ids that are no decimal numerals, on the seed todo: found by a
    numeral in another form or with an escape, and not found. *)
Example id_segment_examples :
  App.status_of (App.get "%31") Sample.started = 200%Z /\
  App.status_of (App.get "1e0") Sample.started = 200%Z /\
  App.status_of (App.get "1.0") Sample.started = 200%Z /\
  App.status_of (App.get "%20%09") Sample.started = 404%Z /\
  App.status_of (App.get "1.5") Sample.started = 404%Z /\
  App.status_of (App.get "STATS") Sample.started = 200%Z /\
  App.status_of (App.get "%73tats") Sample.started = 404%Z /\
  App.status_of (App.with_verb App.DELETE (App.get "stats")) Sample.started = 404%Z /\
  App.status_of (App.with_verb App.DELETE (App.get "%zz")) Sample.started = 500%Z /\
  App.status_of (App.with_verb App.DELETE (App.get "%C3%28")) Sample.started = 500%Z.
Proof. vm_compute. repeat split; reflexivity. Qed.

(** ** Every request of the model is answered *)

Lemma list_result_total rid query l :
  numbers_modelled query = true -> is_Some (list_result rid query l).
Proof.
  unfold numbers_modelled, list_result, page_result.
  destruct (toString <$> query_done query) as [raw|];
    [destruct (parseBool raw); [|now eexists]|];
    destruct (orNumber (query_limit query) 20), (orNumber (query_offset query) 0);
    try discriminate; intros _; now eexists.
Qed.

Lemma handle_total (r : request) (st : state) :
  wf st -> modelled (req_route r) = true ->
  exists resp st', handle r st = Some (resp, st') /\ wf st'.
Proof.
  intros [l H] Hm.
  assert (Hwf : forall resp st', handle r st = Some (resp, st') -> wf st').
  { intros resp st' Hrun.
    destruct (handle_step r st l resp st' H Hrun) as (l' & Hl' & _). now exists l'. }
  assert (is_Some (handle r st)) as [[resp st'] Hrun]; [|now exists resp, st'; eauto].
  unfold handle. unfold modelled in Hm.
  destruct (req_route r) as [query| |i|b|b|i b|i b|i]; simpl in Hm.
  - destruct (GET_todos_run (req_id r) query l st H) as [extra ->].
    destruct (list_result_total (req_id r) query l Hm) as [x ->]. now eexists.
  - rewrite (GET_stats_run l st H). now eexists.
  - destruct (JS.StringToNumber i) as [n|] eqn:Hn; [|discriminate].
    rewrite (GET_todo_run _ _ n l st H Hn). now eexists.
  - rewrite (POST_todos_run _ _ b l st H). now eexists.
  - rewrite (POST_bulk_run _ _ b l st H). now eexists.
  - destruct (JS.StringToNumber i) as [n|] eqn:Hn; [|discriminate].
    destruct (JS.findIndex (has_id n) l) as [idx|] eqn:Hf.
    + destruct (findIndex_Some _ _ _ Hf) as (old & Ho & _).
      destruct (TodoPutSchema b) as [[txt d]|] eqn:Hb.
      * rewrite (PUT_todo_ok _ _ _ _ _ _ _ _ _ _ _ H Hn Hf Ho Hb). now eexists.
      * rewrite (PUT_todo_invalid _ _ _ _ _ _ _ _ H Hn Hf Hb). now eexists.
    + rewrite (PUT_todo_not_found _ _ _ _ _ _ _ H Hn Hf). now eexists.
  - destruct (JS.StringToNumber i) as [n|] eqn:Hn; [|discriminate].
    destruct (JS.findIndex (has_id n) l) as [idx|] eqn:Hf.
    + destruct (findIndex_Some _ _ _ Hf) as (old & Ho & _).
      destruct (TodoPatchSchema b) as [[txt d]|] eqn:Hb.
      * rewrite (PATCH_todo_ok _ _ _ _ _ _ _ _ _ _ _ H Hn Hf Ho Hb). now eexists.
      * rewrite (PATCH_todo_invalid _ _ _ _ _ _ _ _ H Hn Hf Hb). now eexists.
    + rewrite (PATCH_todo_not_found _ _ _ _ _ _ _ H Hn Hf). now eexists.
  - destruct (JS.StringToNumber i) as [n|] eqn:Hn; [|discriminate].
    rewrite (DELETE_todo_run _ _ n l st H Hn). now eexists.
Qed.

Lemma serve_total (rs : list request) : forall st,
  wf st -> forallb (modelled ∘ req_route) rs = true ->
  exists resps st', serve rs st = Some (resps, st') /\ wf st'.
Proof.
  induction rs as [|r rest IH]; intros st Hwf Hm; simpl.
  - now exists [], st.
  - simpl in Hm. apply andb_prop in Hm as [Hr Hrest].
    destruct (handle_total r st Hwf Hr) as (resp & st1 & Hrun & Hwf1).
    destruct (IH st1 Hwf1 Hrest) as (resps & st' & Hs & Hwf').
    exists (resp :: resps), st'. split; [|exact Hwf'].
    rewrite (bind_Some _ _ _ _ _ Hrun), (bind_Some _ _ _ _ _ Hs). reflexivity.
Qed.

(** [Number] on some numerals: inside and outside the grammar, rounded,
    beyond the doubles; and the numbers of a list request, of which the
    model leaves the integers beyond 2^53 out. *)
Example Number_examples :
  JS.StringToNumber "42" = Some (JS.JInt 42) /\
  JS.StringToNumber " 42 " = Some (JS.JInt 42) /\
  JS.StringToNumber "-7" = Some (JS.JInt (-7)) /\
  JS.StringToNumber "0x1F" = Some (JS.JInt 31) /\
  JS.StringToNumber "1e2" = Some (JS.JInt 100) /\
  JS.StringToNumber "" = Some (JS.JInt 0) /\
  JS.StringToNumber "abc" = Some JS.JNaN /\
  JS.StringToNumber "12px" = Some JS.JNaN /\
  JS.StringToNumber "١٢" = Some JS.JNaN /\
  JS.StringToNumber "-Infinity" = Some JS.JNegInf /\
  JS.StringToNumber "1e400" = Some JS.JPosInf /\
  JS.StringToNumber "1.5" = Some (JS.JFrac 3 1) /\
  JS.StringToNumber "-2.75" = Some (JS.JFrac (-11) 2) /\
  JS.StringToNumber "0.1" = Some (JS.JFrac 3602879701896397 55) /\
  JS.StringToNumber "5e-324" = Some (JS.JFrac 1 1074) /\
  JS.StringToNumber "2e-324" = Some (JS.JInt 0) /\
  JS.StringToNumber "1.0000000000000000000001" = Some (JS.JInt 1) /\
  JS.StringToNumber "9007199254740993" = Some (JS.JInt 9007199254740992) /\
  JS.StringToNumber "1e21" = Some (JS.JInt 1000000000000000000000) /\
  JS.StringToNumber "123456789012345678901234567890"
  = Some (JS.JInt 123456789012345677877719597056) /\
  orNumber (Some (QStr "1e21")) 20 = None /\
  orNumber (Some (QStr "1.5")) 20 = Some (JS.JFrac 3 1) /\
  orNumber (Some (QArr [QStr "7"])) 20 = Some (JS.JInt 7) /\
  orNumber (Some (QArr [QStr "7"; QStr "8"])) 20 = Some JS.JNaN /\
  orNumber (Some (QStr "")) 20 = Some (JS.JInt 20).
Proof. vm_compute. repeat split; reflexivity. Qed.

(** Arithmetic with fractions: a sum is rounded to the nearest double,
    and [slice] drops the fraction of an index. *)
Example fraction_examples :
  JS.add (JS.JFrac 1 1) (JS.JFrac 3 1) = JS.JInt 2 /\
  JS.add (JS.JInt 1) (JS.JFrac 1 2) = JS.JFrac 5 2 /\
  JS.add (JS.JInt 9007199254740992) (JS.JFrac 1 1) = JS.JInt 9007199254740992 /\
  JS.add (JS.JFrac 3602879701896397 55) (JS.JFrac 3602879701896397 54)
    = JS.JFrac 1351079888211149 52 /\
  JS.Math_min (JS.JFrac 3 1) (JS.JInt 100) = JS.JFrac 3 1 /\
  JS.Math_max (JS.JFrac (-3) 1) (JS.JInt 0) = JS.JInt 0 /\
  JS.lt (JS.JFrac 3 1) (JS.JInt 2) = true /\
  JS.slice [1; 2; 3; 4; 5]%Z (JS.JFrac 3 1) (JS.JFrac 7 1) = [2; 3]%Z /\
  JS.slice [1; 2; 3; 4; 5]%Z (JS.JInt 0) (JS.JFrac (-3) 1) = [1; 2; 3; 4]%Z.
Proof. vm_compute. repeat split; reflexivity. Qed.

(** ** The scenarios of the specification *)

(** Create with padded text, patch [done], delete, then look the id up. *)
Example scenario_buy_milk :
  Sample.answers
    [Sample.req (PostTodos (Sample.text_body "  buy milk ")) Sample.t1;
     Sample.req (PatchTodo "2" (JObj {[ "done" := JBool true ]})) Sample.t2;
     Sample.req (DeleteTodo "2") Sample.t2;
     Sample.req (GetTodo "2") Sample.t2] Sample.started
  = [json_response 201
       (TodoBody {| id := 2; text := "buy milk"; done := false;
                    createdAt := Sample.t1; updatedAt := Sample.t1 |});
     json_response 200
       (TodoBody {| id := 2; text := "buy milk"; done := true;
                    createdAt := Sample.t1; updatedAt := Sample.t2 |});
     json_response 204 NoBody;
     apiError "req-1" 404 "NOT_FOUND" "Todo not found" None].
Proof. vm_compute. reflexivity. Qed.

(** A batch of two: consecutive ids, one timestamp. *)
Example scenario_bulk :
  Sample.answers [Sample.req (PostBulk (Sample.bulk_body ["a"; "b"])) Sample.t1]
    Sample.started
  = [json_response 201
       (ItemsBody [ {| id := 2; text := "a"; done := false;
                       createdAt := Sample.t1; updatedAt := Sample.t1 |};
                    {| id := 3; text := "b"; done := false;
                       createdAt := Sample.t1; updatedAt := Sample.t1 |} ])].
Proof. vm_compute. reflexivity. Qed.

(** ** The routes as one function of the collection and the counter *)

Import Outcome.

Lemma outcome_run (r : request) (st : state) (l : list Todo) :
  collection st = Some l ->
  match outcome r l (nextId st) with
  | Some (resp, l', n') =>
      exists st', handle r st = Some (resp, st') /\
                  collection st' = Some l' /\ nextId st' = n'
  | None => handle r st = None
  end.
Proof.
  intros H. assert (Hwf : wf st) by now exists l.
  unfold outcome, handle. destruct (req_route r) as [query| |i|b|b|i b|i b|i].
  - destruct (GET_todos_run (req_id r) query l st H) as [extra ->].
    destruct (list_result (req_id r) query l) as [x|]; simpl; [|reflexivity].
    eexists. split; [reflexivity|]. split; [now rewrite collection_extend|reflexivity].
  - rewrite (GET_stats_run l st H). eexists. split; [reflexivity|].
    split; [now rewrite collection_extend|reflexivity].
  - destruct (JS.StringToNumber i) as [k|] eqn:Hk; simpl.
    + rewrite (GET_todo_run _ _ k l st H Hk). now eexists.
    + unfold GET_todo. now rewrite Hk.
  - rewrite (POST_todos_run _ _ b l st H).
    destruct (TodoCreateSchema b) as [txt|]; eexists; (split; [reflexivity|]).
    + split; [eapply collection_with_store, H|reflexivity].
    + now split.
  - rewrite (POST_bulk_run _ _ b l st H).
    destruct (BulkCreateSchema b) as [texts|]; eexists; (split; [reflexivity|]).
    + split; [eapply collection_with_store, H|reflexivity].
    + now split.
  - destruct (JS.StringToNumber i) as [k|] eqn:Hk; simpl;
      [|unfold PUT_todo; now rewrite Hk].
    destruct (JS.findIndex (has_id k) l) as [idx|] eqn:Hf.
    + destruct (findIndex_Some _ _ _ Hf) as (old & Ho & _).
      destruct (TodoPutSchema b) as [[txt d]|] eqn:Hb.
      * rewrite Ho. simpl.
        rewrite (PUT_todo_ok _ _ _ _ _ _ _ _ _ _ _ H Hk Hf Ho Hb).
        eexists. split; [reflexivity|].
        split; [eapply collection_with_store, H|reflexivity].
      * rewrite (PUT_todo_invalid _ _ _ _ _ _ _ _ H Hk Hf Hb). now eexists.
    + rewrite (PUT_todo_not_found _ _ _ _ _ _ _ H Hk Hf). now eexists.
  - destruct (JS.StringToNumber i) as [k|] eqn:Hk; simpl;
      [|unfold PATCH_todo; now rewrite Hk].
    destruct (JS.findIndex (has_id k) l) as [idx|] eqn:Hf.
    + destruct (findIndex_Some _ _ _ Hf) as (old & Ho & _).
      destruct (TodoPatchSchema b) as [[txt d]|] eqn:Hb.
      * rewrite Ho. simpl.
        rewrite (PATCH_todo_ok _ _ _ _ _ _ _ _ _ _ _ H Hk Hf Ho Hb).
        eexists. split; [reflexivity|].
        split; [eapply collection_with_store, H|reflexivity].
      * rewrite (PATCH_todo_invalid _ _ _ _ _ _ _ _ H Hk Hf Hb). now eexists.
    + rewrite (PATCH_todo_not_found _ _ _ _ _ _ _ H Hk Hf). now eexists.
  - destruct (JS.StringToNumber i) as [k|] eqn:Hk; simpl;
      [|unfold DELETE_todo; now rewrite Hk].
    rewrite (DELETE_todo_run _ _ k l st H Hk). eexists. split; [reflexivity|].
    split; [apply collection_rebind|reflexivity].
Qed.

(** What [handle] answered is what [outcome] gives. *)
Lemma handle_outcome (r : request) (st : state) (l : list Todo) resp st' :
  collection st = Some l ->
  handle r st = Some (resp, st') ->
  exists l', outcome r l (nextId st) = Some (resp, l', nextId st') /\
             collection st' = Some l'.
Proof.
  intros H Hrun. pose proof (outcome_run r st l H) as Ho.
  destruct (outcome r l (nextId st)) as [[[resp1 l1] n1]|].
  - destruct Ho as (st1 & Hrun1 & Hc & Hn). rewrite Hrun in Hrun1.
    injection Hrun1 as <- <-. subst n1. now exists l1.
  - congruence.
Qed.

(** An invariant of the collection and the counter that every request
    keeps is kept by every sequence of requests. *)
Lemma serve_invariant (I : list Todo -> Z -> Prop) :
  (forall r l n resp l' n',
     I l n -> outcome r l n = Some (resp, l', n') -> I l' n') ->
  forall rs st l resps st',
    collection st = Some l -> I l (nextId st) ->
    serve rs st = Some (resps, st') ->
    exists l', collection st' = Some l' /\ I l' (nextId st').
Proof.
  intros Hstep. induction rs as [|r rest IH]; intros st l resps st' H HI Hrun.
  - injection Hrun as <- <-. now exists l.
  - apply serve_cons in Hrun as (resp & st1 & resps1 & Hh & Hs & ->).
    destruct (handle_outcome r st l resp st1 H Hh) as (l1 & Ho & H1).
    eapply IH; [exact H1| |exact Hs]. eapply Hstep; [exact HI|exact Ho].
Qed.

(** ** Statistics *)

Lemma filter_split_length {A} (p : A -> bool) (l : list A) :
  (List.length (List.filter p l) + List.length (List.filter (fun x => negb (p x)) l)
   = List.length l)%nat.
Proof.
  induction l as [|x r IH]; simpl; [reflexivity|].
  destruct (p x); simpl; lia.
Qed.

(** X1: [GET /v1/todos/stats] counts the todos of the collection: [total]
    is their number, [done] the number of those that are done, [pending]
    the number of those that are not, so [total = done + pending] and none
    is negative; the store is left as it was. *)
Theorem X1_stats_counts (l : list Todo) (st : state) :
  collection st = Some l ->
  exists total finished pending st',
    GET_stats st = Some (json_response 200 (StatsBody total finished pending), st') /\
    total = Z.of_nat (List.length l) /\
    finished = Z.of_nat (List.length (List.filter (fun t => done t) l)) /\
    pending = Z.of_nat (List.length (List.filter (fun t => negb (done t)) l)) /\
    total = (finished + pending)%Z /\
    (0 <= finished <= total)%Z /\ (0 <= pending <= total)%Z /\
    same_store st st'.
Proof.
  intros H. rewrite (GET_stats_run l st H).
  pose proof (filter_split_length (fun t => done t) l) as Hsplit.
  cbv beta in Hsplit.
  eexists _, _, _, _. split; [reflexivity|].
  split; [reflexivity|]. split; [reflexivity|].
  split; [lia|]. split; [lia|]. split; [lia|]. split; [lia|].
  split; [|reflexivity]. symmetry. apply collection_extend. now exists l.
Qed.

Lemma X1_stats_counts_witness :
  exists st',
    GET_stats Sample.done_mixed = Some (json_response 200 (StatsBody 3 2 1), st') /\
    same_store Sample.done_mixed st'.
Proof.
  destruct (X1_stats_counts (default [] (collection Sample.done_mixed)) Sample.done_mixed)
    as (total & finished & pending & st' & Hrun & -> & -> & -> & _ & _ & _ & Hsame).
  - vm_compute. reflexivity.
  - exists st'. split; [exact Hrun|exact Hsame].
Defined.

(** ** Pages *)

Lemma GET_todos_paged rid query l st ln on :
  collection st = Some l ->
  done_ok query ->
  orNumber (query_limit query) 20 = Some ln ->
  orNumber (query_offset query) 0 = Some on ->
  exists st',
    GET_todos rid query st =
      Some (paged (JS.sort (query_cmp query) (filtered query l)) ln on, st') /\
    same_store st st'.
Proof.
  intros H Hdone Hlim Hoff. unfold done_ok in Hdone.
  destruct (GET_todos_run rid query l st H) as [extra ->].
  assert (E : list_result rid query l = page_result query (filtered query l)).
  { unfold list_result, filtered.
    destruct (toString <$> query_done query) as [raw|]; [|reflexivity].
    destruct (Hdone raw eq_refl) as [b ->]. reflexivity. }
  rewrite E. unfold page_result. rewrite Hlim, Hoff. simpl.
  eexists. split; [reflexivity|]. split; [|reflexivity].
  symmetry. apply collection_extend. now exists l.
Qed.

Lemma firstn_app_skipn {A} (a b : nat) : forall m : list A,
  firstn a m ++ firstn b (skipn a m) = firstn (a + b) m.
Proof.
  induction a as [|a IH]; intros m; [reflexivity|].
  destruct m as [|x r]; simpl; [now rewrite firstn_nil|]. now rewrite IH.
Qed.

Lemma slice_length_nonneg {A} (l : list A) (o n : Z) :
  (0 <= o)%Z -> (0 <= n)%Z ->
  Z.of_nat (List.length (JS.slice l (JS.JInt o) (JS.JInt (o + n))))
  = Z.min n (Z.max (Z.of_nat (List.length l) - o) 0).
Proof.
  intros Ho Hn. rewrite slice_firstn_skipn by assumption.
  rewrite length_firstn, length_skipn. lia.
Qed.

(** A negative end counts from the end of the array. *)
Lemma slice_negative_end {A} (l : list A) (o e : Z) :
  (0 <= o)%Z -> (e < 0)%Z ->
  JS.slice l (JS.JInt o) (JS.JInt e)
  = firstn (Z.to_nat (Z.of_nat (List.length l) + e - o)) (skipn (Z.to_nat o) l).
Proof.
  intros Ho He. unfold JS.slice, JS.relativeIndex.
  destruct (Z.ltb_spec o 0); [lia|]. destruct (Z.ltb_spec e 0); [|lia].
  set (len := Z.of_nat (List.length l)).
  destruct (Z.le_gt_cases len o) as [Hge|Hlt].
  - rewrite !skipn_all2 by lia. now rewrite !firstn_nil.
  - rewrite (Z.min_l o len) by lia. f_equal. lia.
Qed.

Lemma relativeIndex_range (len : Z) (y : JS.jsnum) :
  (0 <= len)%Z -> (0 <= JS.relativeIndex len y <= len)%Z.
Proof.
  intros Hlen. destruct y as [| | |n|num k]; unfold JS.relativeIndex; try lia.
  - destruct (Z.ltb_spec n 0); lia.
  - set (n := Z.quot num _). destruct (Z.ltb_spec n 0); lia.
Qed.

Lemma slice_NaN {A} (l : list A) (a b : JS.jsnum) :
  a = JS.JNaN \/ b = JS.JNaN ->
  JS.slice l (JS.Math_max a (JS.JInt 0))
    (JS.add (JS.Math_max a (JS.JInt 0)) (JS.Math_min b (JS.JInt 100))) = [].
Proof.
  intros [-> | ->]; [reflexivity|].
  assert (E : JS.add (JS.Math_max a (JS.JInt 0)) (JS.Math_min JS.JNaN (JS.JInt 100))
              = JS.JNaN).
  { destruct a; simpl; try reflexivity. now destruct (JS.ltFinite _ _). }
  rewrite E. unfold JS.slice.
  pose proof (relativeIndex_range (Z.of_nat (List.length l))
                (JS.Math_max a (JS.JInt 0)) ltac:(lia)) as Hk.
  simpl JS.relativeIndex at 1.
  replace (Z.to_nat _) with 0%nat by lia. reflexivity.
Qed.

(** X2: the statistics agree with the list: for a list request without
    [q], the [total] of its meta is the [total] of the statistics when
    [done] is absent, their [done] for [done=true] and their [pending] for
    [done=false], whatever the page asked for. *)
Theorem X2_stats_agree_with_list (rid : string) (query : Query) (b : option bool)
    (l : list Todo) (st : state) (ln on : JS.jsnum) :
  collection st = Some l ->
  query_q query = None ->
  query_done query = done_param b ->
  orNumber (query_limit query) 20 = Some ln ->
  orNumber (query_offset query) 0 = Some on ->
  exists total finished pending page meta s1 s2,
    GET_stats st = Some (json_response 200 (StatsBody total finished pending), s1) /\
    GET_todos rid query st = Some (json_response 200 (ListBody page meta), s2) /\
    Server.total meta = match b with
                        | None => total
                        | Some true => finished
                        | Some false => pending
                        end.
Proof.
  intros H Hq Hd Hlim Hoff.
  assert (Hok : done_ok query).
  { unfold done_ok. rewrite Hd. intros raw.
    destruct b as [[|]|]; simpl; intros [= <-]; now eexists. }
  destruct (GET_todos_paged rid query l st ln on H Hok Hlim Hoff) as (s2 & -> & _).
  rewrite (GET_stats_run l st H).
  eexists _, _, _, _, _, _, _. split; [reflexivity|]. split; [reflexivity|].
  simpl. rewrite sort_length. unfold filtered, filter_q, query_needle.
  rewrite Hd, Hq. simpl.
  pose proof (filter_split_length (fun t => done t) l) as Hsplit. cbv beta in Hsplit.
  assert (Et : List.filter (fun t => Bool.eqb (done t) true) l
               = List.filter (fun t => done t) l).
  { apply List.filter_ext. intros t. now destruct (done t). }
  assert (Ef : List.filter (fun t => Bool.eqb (done t) false) l
               = List.filter (fun t => negb (done t)) l).
  { apply List.filter_ext. intros t. now destruct (done t). }
  destruct b as [[|]|]; simpl; unfold filter_done.
  - now rewrite Et.
  - rewrite Ef. lia.
  - reflexivity.
Qed.

Lemma X2_stats_agree_with_list_witness :
  exists total finished pending page meta s1 s2,
    GET_stats Sample.done_mixed
      = Some (json_response 200 (StatsBody total finished pending), s1) /\
    GET_todos "req-1" (Sample.with_done "false") Sample.done_mixed
      = Some (json_response 200 (ListBody page meta), s2) /\
    Server.total meta = pending.
Proof.
  refine (X2_stats_agree_with_list "req-1" (Sample.with_done "false") (Some false)
            (default [] (collection Sample.done_mixed)) Sample.done_mixed
            (JS.JInt 20) (JS.JInt 0) _ _ _ _ _).
  - vm_compute. reflexivity.
  - reflexivity.
  - reflexivity.
  - reflexivity.
  - reflexivity.
Defined.

(** X3: for a [limit] that reads as an integer that is not negative, and an
    [offset] that reads as an integer, the page holds as many todos as the
    limit (capped at 100) allows and the collection still has from the
    offset on, so never more than 100 nor more than [limit]; [hasNext]
    says that todos remain after the page, [hasPrev] that the offset is
    positive. *)
Theorem X3_page_size (rid : string) (query : Query) (l : list Todo) (st : state)
    (lim off : Z) :
  collection st = Some l ->
  done_ok query ->
  orNumber (query_limit query) 20 = Some (JS.JInt lim) ->
  orNumber (query_offset query) 0 = Some (JS.JInt off) ->
  (0 <= lim)%Z ->
  exists page meta st',
    GET_todos rid query st = Some (json_response 200 (ListBody page meta), st') /\
    Z.of_nat (List.length page)
      = Z.min (Z.min lim 100) (Z.max (total meta - Z.max off 0) 0) /\
    (List.length page <= 100)%nat /\
    (Z.of_nat (List.length page) <= lim)%Z /\
    (hasNext meta = true <-> (Z.max off 0 + Z.of_nat (List.length page) < total meta)%Z) /\
    (hasPrev meta = true <-> (0 < off)%Z).
Proof.
  intros H Hok Hlim Hoff Hpos.
  destruct (GET_todos_paged rid query l st _ _ H Hok Hlim Hoff) as (st' & -> & _).
  unfold paged. simpl.
  set (sorted := JS.sort (query_cmp query) (filtered query l)).
  pose proof (slice_length_nonneg sorted (Z.max off 0) (Z.min lim 100)
                ltac:(lia) ltac:(lia)) as Hlen.
  eexists _, _, _. split; [reflexivity|]. simpl.
  split; [exact Hlen|]. split; [lia|]. split; [lia|]. split.
  - rewrite Z.ltb_lt. lia.
  - rewrite Z.ltb_lt. lia.
Qed.

Lemma X3_page_size_witness :
  exists page meta st',
    GET_todos "req-1" (Sample.paged (Some (QStr "2")) (Some (QStr "4"))) Sample.five_todos
      = Some (json_response 200 (ListBody page meta), st') /\
    Z.of_nat (List.length page) = Z.min (Z.min 2 100) (Z.max (total meta - Z.max 4 0) 0) /\
    (hasNext meta = true <-> (Z.max 4 0 + Z.of_nat (List.length page) < total meta)%Z).
Proof.
  destruct (X3_page_size "req-1" (Sample.paged (Some (QStr "2")) (Some (QStr "4")))
              (default [] (collection Sample.five_todos)) Sample.five_todos 2 4)
    as (page & meta & st' & Hrun & Hlen & _ & _ & Hnext & _).
  - vm_compute. reflexivity.
  - intros raw Hraw. discriminate Hraw.
  - vm_compute. reflexivity.
  - vm_compute. reflexivity.
  - lia.
  - exists page, meta, st'. split; [exact Hrun|]. split; [exact Hlen|exact Hnext].
Defined.

(** X4: pages tile the list.  On the same store and with the same filters
    and order, the page of [a] todos from an offset followed by the page
    of [b] todos from that offset plus [a] is the page of [a + b] todos
    from the offset, as long as [a + b] is at most 100. *)
Theorem X4_pages_tile (rid : string) (query : Query) (l : list Todo) (st : state)
    (la lb lab oa ob : option qval) (a b off : Z) :
  collection st = Some l ->
  done_ok query ->
  orNumber la 20 = Some (JS.JInt a) ->
  orNumber lb 20 = Some (JS.JInt b) ->
  orNumber lab 20 = Some (JS.JInt (a + b)) ->
  orNumber oa 0 = Some (JS.JInt off) ->
  orNumber ob 0 = Some (JS.JInt (off + a)) ->
  (0 <= a)%Z -> (0 <= b)%Z -> (a + b <= 100)%Z -> (0 <= off)%Z ->
  exists r1 r2 r3 s1 s2 s3,
    GET_todos rid (with_page la oa query) st = Some (r1, s1) /\
    GET_todos rid (with_page lb ob query) st = Some (r2, s2) /\
    GET_todos rid (with_page lab oa query) st = Some (r3, s3) /\
    listed r3 = listed r1 ++ listed r2.
Proof.
  intros H Hok Ha Hb Hab Hoa Hob Hpa Hpb Hcap Hoff.
  destruct (GET_todos_paged rid (with_page la oa query) l st _ _ H Hok Ha Hoa)
    as (s1 & E1 & _).
  destruct (GET_todos_paged rid (with_page lb ob query) l st _ _ H Hok Hb Hob)
    as (s2 & E2 & _).
  destruct (GET_todos_paged rid (with_page lab oa query) l st _ _ H Hok Hab Hoa)
    as (s3 & E3 & _).
  eexists _, _, _, s1, s2, s3.
  split; [exact E1|]. split; [exact E2|]. split; [exact E3|].
  unfold paged, listed. simpl.
  change (query_cmp (with_page la oa query)) with (query_cmp query).
  change (query_cmp (with_page lb ob query)) with (query_cmp query).
  change (query_cmp (with_page lab oa query)) with (query_cmp query).
  change (filtered (with_page la oa query) l) with (filtered query l).
  change (filtered (with_page lb ob query) l) with (filtered query l).
  change (filtered (with_page lab oa query) l) with (filtered query l).
  set (sorted := JS.sort (query_cmp query) (filtered query l)).
  rewrite !Z.max_l by lia. rewrite !Z.min_l by lia.
  rewrite !slice_firstn_skipn by lia.
  replace (Z.to_nat (off + a)) with (Z.to_nat a + Z.to_nat off)%nat by lia.
  rewrite <- skipn_skipn.
  replace (Z.to_nat (a + b)) with (Z.to_nat a + Z.to_nat b)%nat by lia.
  symmetry. apply firstn_app_skipn.
Qed.

Lemma X4_pages_tile_witness :
  exists r1 r2 r3 s1 s2 s3,
    GET_todos "req-1" (with_page (Some (QStr "2")) (Some (QStr "1")) Sample.no_query)
        Sample.five_todos = Some (r1, s1) /\
    GET_todos "req-1" (with_page (Some (QStr "1")) (Some (QStr "3")) Sample.no_query)
        Sample.five_todos = Some (r2, s2) /\
    GET_todos "req-1" (with_page (Some (QStr "3")) (Some (QStr "1")) Sample.no_query)
        Sample.five_todos = Some (r3, s3) /\
    listed r3 = listed r1 ++ listed r2.
Proof.
  refine (X4_pages_tile "req-1" Sample.no_query
            (default [] (collection Sample.five_todos)) Sample.five_todos
            _ _ _ _ _ 2 1 1 _ _ _ _ _ _ _ _ _ _ _).
  - vm_compute. reflexivity.
  - intros raw Hraw. discriminate Hraw.
  - vm_compute. reflexivity.
  - vm_compute. reflexivity.
  - vm_compute. reflexivity.
  - vm_compute. reflexivity.
  - vm_compute. reflexivity.
  - lia.
  - lia.
  - lia.
  - lia.
Defined.

(** X5: a negative [limit] is not a page size.  When [limit] reads as a
    negative integer and [offset] as an integer from 0 up with
    [offset + limit] still negative, the page runs from the offset to
    [-(offset + limit)] todos before the end; from offset 0 it is all but
    the last [-limit] todos, however many that is: the cap of 100 does not
    apply. *)
Theorem X5_negative_limit (rid : string) (query : Query) (l : list Todo) (st : state)
    (lim off : Z) :
  collection st = Some l ->
  done_ok query ->
  orNumber (query_limit query) 20 = Some (JS.JInt lim) ->
  orNumber (query_offset query) 0 = Some (JS.JInt off) ->
  (0 <= off)%Z -> (off + lim < 0)%Z ->
  exists page meta st',
    GET_todos rid query st = Some (json_response 200 (ListBody page meta), st') /\
    limit meta = JS.JInt lim /\
    page = firstn (Z.to_nat (total meta + lim))
             (skipn (Z.to_nat off) (JS.sort (query_cmp query) (filtered query l))) /\
    total meta = Z.of_nat (List.length (filtered query l)) /\
    Z.of_nat (List.length page) = Z.max (total meta + lim) 0.
Proof.
  intros H Hok Hlim Hoff Hpo Hneg.
  destruct (GET_todos_paged rid query l st _ _ H Hok Hlim Hoff) as (st' & -> & _).
  unfold paged. simpl.
  set (sorted := JS.sort (query_cmp query) (filtered query l)).
  eexists _, _, _. split; [reflexivity|]. simpl.
  rewrite Z.max_l by lia. rewrite Z.min_l by lia.
  rewrite slice_negative_end by lia.
  replace (Z.of_nat (List.length sorted) + (off + lim) - off)%Z
    with (Z.of_nat (List.length sorted) + lim)%Z by lia.
  split; [reflexivity|]. split; [reflexivity|].
  split; [unfold sorted; now rewrite sort_length|].
  rewrite length_firstn, length_skipn. lia.
Qed.

Lemma X5_negative_limit_witness :
  exists page meta st',
    GET_todos "req-1" (Sample.paged (Some (QStr "-1")) None) Sample.five_todos
      = Some (json_response 200 (ListBody page meta), st') /\
    limit meta = JS.JInt (-1) /\
    Z.of_nat (List.length page) = Z.max (total meta + -1) 0.
Proof.
  destruct (X5_negative_limit "req-1" (Sample.paged (Some (QStr "-1")) None)
              (default [] (collection Sample.five_todos)) Sample.five_todos (-1) 0)
    as (page & meta & st' & Hrun & Hlim & _ & _ & Hlen).
  - vm_compute. reflexivity.
  - intros raw Hraw. discriminate Hraw.
  - vm_compute. reflexivity.
  - vm_compute. reflexivity.
  - lia.
  - lia.
  - exists page, meta, st'. split; [exact Hrun|]. split; [exact Hlim|exact Hlen].
Defined.

(** All but the last of five todos, for [limit=-1]. *)
Example negative_limit_example :
  (List.map id ∘ listed ∘ fst <$>
     GET_todos "req-1" (Sample.paged (Some (QStr "-1")) None) Sample.five_todos)
  = Some [1; 2; 3; 4]%Z.
Proof. vm_compute. reflexivity. Qed.

(** X6: a [limit] or an [offset] that is not a number is no error: the
    response is 200 with an empty page, [hasNext] false, and the total
    still counts the todos that pass the filters. *)
Theorem X6_not_a_number (rid : string) (query : Query) (l : list Todo) (st : state)
    (ln on : JS.jsnum) :
  collection st = Some l ->
  done_ok query ->
  orNumber (query_limit query) 20 = Some ln ->
  orNumber (query_offset query) 0 = Some on ->
  ln = JS.JNaN \/ on = JS.JNaN ->
  exists meta st',
    GET_todos rid query st = Some (json_response 200 (ListBody [] meta), st') /\
    hasNext meta = false /\
    total meta = Z.of_nat (List.length (filtered query l)) /\
    (ln = JS.JNaN -> limit meta = JS.JNaN) /\
    (on = JS.JNaN -> offset meta = JS.JNaN /\ hasPrev meta = false).
Proof.
  intros H Hok Hlim Hoff Hnan.
  destruct (GET_todos_paged rid query l st _ _ H Hok Hlim Hoff) as (st' & -> & _).
  unfold paged. rewrite (slice_NaN _ on ln) by tauto.
  eexists _, _. split; [reflexivity|]. simpl.
  split; [|split; [now rewrite sort_length|split]].
  - destruct Hnan as [-> | ->]; [|reflexivity].
    destruct on; simpl; try reflexivity. now destruct (JS.ltFinite _ _).
  - now intros ->.
  - now intros ->.
Qed.

Lemma X6_not_a_number_witness :
  exists meta st',
    GET_todos "req-1" (Sample.paged (Some (QStr "abc")) None) Sample.five_todos
      = Some (json_response 200 (ListBody [] meta), st') /\
    hasNext meta = false /\
    total meta = 5%Z.
Proof.
  destruct (X6_not_a_number "req-1" (Sample.paged (Some (QStr "abc")) None)
              (default [] (collection Sample.five_todos)) Sample.five_todos
              JS.JNaN (JS.JInt 0))
    as (meta & st' & Hrun & Hnext & Htotal & _).
  - vm_compute. reflexivity.
  - intros raw Hraw. discriminate Hraw.
  - vm_compute. reflexivity.
  - vm_compute. reflexivity.
  - left. reflexivity.
  - exists meta, st'. split; [exact Hrun|]. split; [exact Hnext|exact Htotal].
Defined.

(** ** The whole list, and ties *)

Lemma slice_whole {A} (l : list A) (n : Z) :
  (Z.of_nat (List.length l) <= n)%Z ->
  JS.slice l (JS.JInt 0) (JS.JInt (0 + n)) = l.
Proof.
  intros Hn. rewrite slice_firstn_skipn by lia. simpl.
  apply firstn_all2. lia.
Qed.

(** X7: when the offset is 0 (absent, or an integer that is not positive)
    and the limit, capped at 100, is at least the number of todos that
    pass the filters, the page is the whole sorted list: each of those
    todos exactly once, with [hasNext] and [hasPrev] false.  So the
    request without parameters lists every todo of a store of at most 20. *)
Theorem X7_whole_list (rid : string) (query : Query) (l : list Todo) (st : state)
    (lim off : Z) :
  collection st = Some l ->
  done_ok query ->
  orNumber (query_limit query) 20 = Some (JS.JInt lim) ->
  orNumber (query_offset query) 0 = Some (JS.JInt off) ->
  (off <= 0)%Z ->
  (Z.of_nat (List.length (filtered query l)) <= Z.min lim 100)%Z ->
  exists page meta st',
    GET_todos rid query st = Some (json_response 200 (ListBody page meta), st') /\
    page = JS.sort (query_cmp query) (filtered query l) /\
    Permutation page (filtered query l) /\
    hasNext meta = false /\ hasPrev meta = false.
Proof.
  intros H Hok Hlim Hoff Hzero Hfits.
  destruct (GET_todos_paged rid query l st _ _ H Hok Hlim Hoff) as (st' & -> & _).
  unfold paged. simpl. rewrite Z.max_r by lia.
  rewrite slice_whole by (rewrite sort_length; lia).
  eexists _, _, _. split; [reflexivity|]. simpl.
  split; [reflexivity|]. split; [apply sort_perm|]. rewrite sort_length.
  split; apply Z.ltb_ge; lia.
Qed.

Lemma X7_whole_list_witness :
  exists page meta st',
    GET_todos "req-1" Sample.no_query Sample.five_todos
      = Some (json_response 200 (ListBody page meta), st') /\
    Permutation page (filtered Sample.no_query (default [] (collection Sample.five_todos))) /\
    hasNext meta = false.
Proof.
  destruct (X7_whole_list "req-1" Sample.no_query
              (default [] (collection Sample.five_todos)) Sample.five_todos 20 0)
    as (page & meta & st' & Hrun & _ & Hperm & Hnext & _).
  - vm_compute. reflexivity.
  - intros raw Hraw. discriminate Hraw.
  - reflexivity.
  - reflexivity.
  - lia.
  - vm_compute. discriminate.
  - exists page, meta, st'. split; [exact Hrun|]. split; [exact Hperm|exact Hnext].
Defined.

Lemma str_lt_neither a b :
  JS.str_lt b a = false -> JS.str_lt a b = false -> a = b.
Proof.
  unfold JS.str_lt, String.ltb. rewrite (String.compare_antisym b a).
  destruct (String.compare a b) eqn:E; simpl; try discriminate.
  intros _ _. now apply String.compare_eq_iff.
Qed.

Lemma same_key_gt key a b :
  same_key key a b = true ->
  forall c, key_gt key a c = key_gt key b c /\ key_gt key c a = key_gt key c b.
Proof.
  unfold same_key, key_lt. intros H.
  apply andb_prop in H as [H1 H2].
  apply Bool.negb_true_iff in H1, H2.
  destruct key; simpl in *.
  - apply Z.ltb_ge in H1, H2. assert (E : id a = id b) by lia. now rewrite E.
  - now rewrite (str_lt_neither _ _ H1 H2).
  - now rewrite (str_lt_neither _ _ H1 H2).
Qed.

Section Stable.
Context {A : Type} (cmp : A -> A -> Z) (E : A -> bool).
Hypothesis class_ties : forall y z, E y = true -> E z = true -> (cmp y z <= 0)%Z.

Lemma insertSorted_filter y s :
  List.filter E (JS.insertSorted cmp y s) = List.filter E (y :: s).
Proof.
  induction s as [|z r IH]; [reflexivity|]. simpl JS.insertSorted.
  destruct (Z.leb_spec (cmp y z) 0) as [Hle|Hgt]; [reflexivity|].
  change (List.filter E (z :: JS.insertSorted cmp y r))
    with (if E z then z :: List.filter E (JS.insertSorted cmp y r)
          else List.filter E (JS.insertSorted cmp y r)).
  rewrite IH. simpl.
  destruct (E y) eqn:Hy, (E z) eqn:Hz; try reflexivity.
  specialize (class_ties y z Hy Hz). lia.
Qed.

Lemma sort_filter l : List.filter E (JS.sort cmp l) = List.filter E l.
Proof.
  induction l as [|x r IH]; [reflexivity|]. simpl JS.sort.
  rewrite insertSorted_filter. simpl. now rewrite IH.
Qed.
End Stable.

Lemma sortTodos_stable dir key x l :
  List.filter (same_key key x) (JS.sort (compareTodos dir key) l)
  = List.filter (same_key key x) l.
Proof.
  apply sort_filter. intros y z Hy Hz.
  destruct (same_key_gt key x y Hy z) as [E1 _].
  destruct (same_key_gt key x y Hy z) as [_ E2].
  unfold same_key, key_lt in Hz. apply andb_prop in Hz as [H1 H2].
  apply Bool.negb_true_iff in H1, H2.
  unfold compareTodos, key_lt. rewrite <- E1, <- E2, H1, H2. lia.
Qed.

(** X8: ties keep the order of the collection.  In the whole list (as in
    X7), the todos that share a sort key with any given todo come in the
    order they have in the collection, for [asc] and for [desc] alike: a
    batch created with one timestamp is never listed in reverse. *)
Theorem X8_ties_keep_order (rid : string) (query : Query) (l : list Todo) (st : state)
    (lim off : Z) (x : Todo) :
  collection st = Some l ->
  done_ok query ->
  orNumber (query_limit query) 20 = Some (JS.JInt lim) ->
  orNumber (query_offset query) 0 = Some (JS.JInt off) ->
  (off <= 0)%Z ->
  (Z.of_nat (List.length (filtered query l)) <= Z.min lim 100)%Z ->
  exists page meta st',
    GET_todos rid query st = Some (json_response 200 (ListBody page meta), st') /\
    let key := sort_key (orString (query_sort query) "createdAt") in
    List.filter (same_key key x) page = List.filter (same_key key x) (filtered query l).
Proof.
  intros H Hok Hlim Hoff Hzero Hfits.
  destruct (GET_todos_paged rid query l st _ _ H Hok Hlim Hoff) as (st' & -> & _).
  unfold paged. simpl. rewrite Z.max_r by lia.
  rewrite slice_whole by (rewrite sort_length; lia).
  eexists _, _, _. split; [reflexivity|]. apply sortTodos_stable.
Qed.

Lemma X8_ties_keep_order_witness :
  exists page meta st',
    GET_todos "req-1" Sample.no_query Sample.five_todos
      = Some (json_response 200 (ListBody page meta), st') /\
    List.filter (same_key KeyCreatedAt (new_todo Sample.t1 0 "")) page
    = List.filter (same_key KeyCreatedAt (new_todo Sample.t1 0 ""))
        (filtered Sample.no_query (default [] (collection Sample.five_todos))).
Proof.
  refine (X8_ties_keep_order "req-1" Sample.no_query
            (default [] (collection Sample.five_todos)) Sample.five_todos 20 0
            (new_todo Sample.t1 0 "") _ _ _ _ _ _).
  - vm_compute. reflexivity.
  - intros raw Hraw. discriminate Hraw.
  - reflexivity.
  - reflexivity.
  - lia.
  - vm_compute. discriminate.
Defined.

(** Four todos of one batch, newest first: the batch stays in id order. *)
Example ties_example :
  (List.map id ∘ listed ∘ fst <$> GET_todos "req-1" Sample.no_query Sample.five_todos)
  = Some [2; 3; 4; 5; 1]%Z.
Proof. vm_compute. reflexivity. Qed.

(** ** The text filter and the sort key *)

Lemma listed_in_filtered rid query l resp t :
  list_result rid query l = Some resp ->
  In t (listed resp) -> In t (filter_q query l).
Proof.
  assert (Hp : forall items, page_result query items = Some resp ->
            In t (listed resp) -> In t items).
  { intros items. unfold page_result.
    destruct (orNumber (query_limit query) 20); [|discriminate].
    destruct (orNumber (query_offset query) 0); [|discriminate].
    intros [= <-]. simpl. intros Ht. apply In_slice in Ht.
    now apply (Permutation_in _ (sort_perm _ _)) in Ht. }
  unfold list_result. destruct (toString <$> query_done query) as [raw|]; [|apply Hp].
  destruct (parseBool raw) as [b|].
  - intros Hr Ht. apply (Hp _ Hr) in Ht. unfold filter_done in Ht.
    now apply List.filter_In in Ht.
  - now intros [= <-] [].
Qed.

(** X9: the text filter looks at [q] trimmed and in lower case: two values
    of [q] with the same trimmed lower-case form are answered alike, so a
    [q] of white space only is answered as no [q]; and when that form is
    not empty, the text of every listed todo contains it, whatever the
    case of the text. *)
Theorem X9_text_filter (rid : string) (query : Query) (st : state) :
  (forall v1 v2,
     JS.toLowerCase (JS.trim (orString v1 "")) = JS.toLowerCase (JS.trim (orString v2 "")) ->
     GET_todos rid (with_q v1 query) st = GET_todos rid (with_q v2 query) st) /\
  (forall v, JS.trim (orString v "") = "" ->
     GET_todos rid (with_q v query) st = GET_todos rid (with_q None query) st) /\
  (forall l resp st',
     collection st = Some l ->
     GET_todos rid query st = Some (resp, st') ->
     query_needle query <> "" ->
     Forall (fun t => JS.includes (JS.toLowerCase (text t)) (query_needle query) = true)
            (listed resp)).
Proof.
  assert (Hsame : forall v1 v2,
     JS.toLowerCase (JS.trim (orString v1 "")) = JS.toLowerCase (JS.trim (orString v2 "")) ->
     GET_todos rid (with_q v1 query) st = GET_todos rid (with_q v2 query) st).
  { intros v1 v2 E. unfold GET_todos.
    cbn [with_q query_q query_done query_sort query_order query_limit query_offset].
    now rewrite E. }
  split; [exact Hsame|]. split.
  - intros v Hv. apply Hsame. now rewrite Hv.
  - intros l resp st' H Hrun Hne.
    destruct (GET_todos_run rid query l st H) as [extra E]. rewrite E in Hrun.
    destruct (list_result rid query l) as [x|] eqn:Hx; [|discriminate].
    injection Hrun as <- <-. apply List.Forall_forall. intros t Ht.
    apply (listed_in_filtered _ _ _ _ _ Hx) in Ht. unfold filter_q in Ht.
    destruct (JS.truthy_str (query_needle query)) eqn:Htr.
    + now apply List.filter_In in Ht.
    + destruct (query_needle query); [congruence|discriminate].
Qed.

Lemma X9_text_filter_witness :
  GET_todos "req-1" (with_q (Some (QStr "  MILK ")) Sample.no_query) Sample.two_todos
    = GET_todos "req-1" (with_q (Some (QStr "milk")) Sample.no_query) Sample.two_todos /\
  GET_todos "req-1" (with_q (Some (QStr (Sample.nbsp ++ "İLK" ++ Sample.nbsp)))
                       Sample.no_query) Sample.two_todos
    = GET_todos "req-1" (with_q (Some (QStr "i̇lk")) Sample.no_query) Sample.two_todos /\
  GET_todos "req-1" (with_q (Some (QStr (" " ++ Sample.nbsp))) Sample.no_query)
      Sample.two_todos
    = GET_todos "req-1" (with_q None Sample.no_query) Sample.two_todos /\
  Forall (fun t => JS.includes (JS.toLowerCase (text t)) "i̇" = true)
    (listed (default (json_response 0 NoBody)
               (fst <$> GET_todos "req-1" (with_q (Some (QStr "İ")) Sample.no_query)
                          Sample.two_todos))) /\
  List.length
    (listed (default (json_response 0 NoBody)
               (fst <$> GET_todos "req-1" (with_q (Some (QStr "İ")) Sample.no_query)
                          Sample.two_todos))) = 1%nat.
Proof.
  split; [|split; [|split; [|split]]].
  - apply (proj1 (X9_text_filter "req-1" Sample.no_query Sample.two_todos)).
    vm_compute. reflexivity.
  - apply (proj1 (X9_text_filter "req-1" Sample.no_query Sample.two_todos)).
    vm_compute. reflexivity.
  - apply (proj1 (proj2 (X9_text_filter "req-1" Sample.no_query Sample.two_todos))).
    vm_compute. reflexivity.
  - refine (proj2 (proj2 (X9_text_filter "req-1"
                            (with_q (Some (QStr "İ")) Sample.no_query) Sample.two_todos))
              (default [] (collection Sample.two_todos)) _
              (Sample.after [Sample.req (GetTodos (with_q (Some (QStr "İ"))
                                                     Sample.no_query)) Sample.t2]
                 Sample.two_todos) _ _ _).
    + vm_compute. reflexivity.
    + vm_compute. reflexivity.
    + vm_compute. discriminate.
  - vm_compute. reflexivity.
Defined.

(** The todo whose text contains [milk], found from [q=Milk].  The seed
    text [İlk todo] in lower case is [i], U+0307, [lk todo]: it is found
    from [q=i] and from [q=İ], not from [q=ilk]; and a [q] of no-break
    spaces is no [q]. *)
Example text_filter_example :
  (List.map text ∘ listed ∘ fst <$>
     GET_todos "req-1" (with_q (Some (QStr "Milk")) Sample.no_query) Sample.two_todos)
  = Some ["buy milk"] /\
  JS.toLowerCase "İlk todo" = "i̇lk todo" /\
  (List.map text ∘ listed ∘ fst <$>
     GET_todos "req-1" (with_q (Some (QStr "i")) Sample.no_query) Sample.started)
  = Some ["İlk todo"] /\
  (List.map text ∘ listed ∘ fst <$>
     GET_todos "req-1" (with_q (Some (QStr "İ")) Sample.no_query) Sample.started)
  = Some ["İlk todo"] /\
  (List.map text ∘ listed ∘ fst <$>
     GET_todos "req-1" (with_q (Some (QStr "ilk")) Sample.no_query) Sample.started)
  = Some [] /\
  (List.map text ∘ listed ∘ fst <$>
     GET_todos "req-1" (with_q (Some (QStr "ÉCOLE")) Sample.no_query)
       (Sample.after [Sample.req (PostTodos (Sample.text_body "à l'école")) Sample.t1]
          Sample.started))
  = Some ["à l'école"] /\
  GET_todos "req-1" (with_q (Some (QStr (Sample.nbsp ++ Sample.nbsp))) Sample.no_query)
    Sample.two_todos
  = GET_todos "req-1" Sample.no_query Sample.two_todos.
Proof. vm_compute. repeat split; reflexivity. Qed.

(** Lower case where the context counts: a capital sigma at the end of a
    word and inside one. *)
Example toLowerCase_examples :
  JS.toLowerCase "ΟΔΟΣ ΣΟΦΟΣ." = "οδος σοφος." /\
  JS.toLowerCase "Σ" = "σ" /\
  JS.toLowerCase "STRASSE ǅ Ⅷ" = "strasse ǆ ⅷ" /\
  JS.toLowerCase "nothing to do: 123 ß ñ 日本" = "nothing to do: 123 ß ñ 日本".
Proof. vm_compute. repeat split; reflexivity. Qed.

(** X10: the sort key of a list request.  Without [sort], or with an empty
    one, the list is sorted as for [sort=createdAt]; a value other than
    [updatedAt] and [createdAt] is answered as [sort=id], not refused. *)
Theorem X10_sort_key_of_list (rid : string) (query : Query) (st : state) :
  (forall o, o = None \/ (exists v, o = Some v /\ truthy v = false) ->
     GET_todos rid (with_sort o query) st =
     GET_todos rid (with_sort (Some (QStr "createdAt")) query) st) /\
  (forall v, truthy v = true ->
     toString v <> "updatedAt" -> toString v <> "createdAt" ->
     GET_todos rid (with_sort (Some v) query) st =
     GET_todos rid (with_sort (Some (QStr "id")) query) st).
Proof.
  split.
  - intros o [->|(v & -> & Hv)]; unfold GET_todos, list_page, orString; simpl.
    + reflexivity.
    + now rewrite Hv.
  - intros v Hv Hu Hc.
    assert (E : sort_key (orString (Some v) "createdAt")
                = sort_key (orString (Some (QStr "id")) "createdAt")).
    { unfold orString, sort_key. rewrite Hv. simpl.
      destruct (String.eqb_spec (toString v) "updatedAt"); [contradiction|].
      now destruct (String.eqb_spec (toString v) "createdAt"). }
    unfold GET_todos, list_page, sortTodos.
    cbn [with_sort query_q query_done query_sort query_order query_limit query_offset].
    now rewrite E.
Qed.

Lemma X10_sort_key_of_list_witness :
  GET_todos "req-1" (with_sort None Sample.no_query) Sample.two_todos =
    GET_todos "req-1" (with_sort (Some (QStr "createdAt")) Sample.no_query)
      Sample.two_todos /\
  GET_todos "req-1" (with_sort (Some (QStr "text")) Sample.no_query) Sample.two_todos =
    GET_todos "req-1" (with_sort (Some (QStr "id")) Sample.no_query) Sample.two_todos.
Proof.
  destruct (X10_sort_key_of_list "req-1" Sample.no_query Sample.two_todos) as (Ha & Hb).
  split.
  - apply Ha. left. reflexivity.
  - apply (Hb (QStr "text")); [reflexivity|discriminate|discriminate].
Defined.

(** ** What a request can do to the collection *)

(** A character takes at least one of the bytes of the string. *)
Lemma charAt_bytes s cp n :
  JS.charAt s = Some (cp, n) -> (1 <= n <= String.length s)%nat.
Proof.
  unfold JS.charAt. destruct s as [|a [|b [|c [|d r]]]]; intros H;
    repeat case_match; simplify_eq; simpl; lia.
Qed.

(** It is read from those bytes alone. *)
Lemma charAt_app s w x : JS.charAt s = Some x -> JS.charAt (s ++ w) = Some x.
Proof.
  unfold JS.charAt. destruct s as [|a [|b [|c [|d r]]]]; simpl; intros H;
    repeat case_match; simplify_eq; reflexivity.
Qed.

Lemma skipBytes_length n s : String.length (skipBytes n s) = (String.length s - n)%nat.
Proof.
  revert s. induction n as [|n IH]; intros [|a r]; simpl; try reflexivity. apply IH.
Qed.

Lemma skipBytes_app n s w :
  (n <= String.length s)%nat -> skipBytes n (s ++ w) = (skipBytes n s ++ w)%string.
Proof.
  revert s. induction n as [|n IH]; intros [|a r]; simpl; intros Hn;
    try reflexivity; try lia.
  apply IH. lia.
Qed.

Lemma trimStartFrom_skip k s : JS.trimStartFrom k s = JS.trimStart (skipBytes k s).
Proof.
  revert s. induction k as [|k IH]; intros [|a r]; try reflexivity. apply IH.
Qed.

Lemma trimStart_step s :
  JS.trimStart s = match afterWhiteSpace s with
                   | Some r => JS.trimStart r
                   | None => s
                   end.
Proof.
  destruct s as [|a r]; [reflexivity|].
  unfold afterWhiteSpace, JS.trimStart. cbn [JS.trimStartFrom].
  destruct (JS.charAt (String a r)) as [[cp n]|] eqn:E; [|reflexivity].
  destruct (JS.isWhiteSpace cp); [|reflexivity].
  apply charAt_bytes in E. destruct n as [|n]; [lia|].
  change (JS.trimStartFrom n r = JS.trimStart (skipBytes n r)). apply trimStartFrom_skip.
Qed.

Lemma afterWhiteSpace_shorter s r :
  afterWhiteSpace s = Some r -> (String.length r < String.length s)%nat.
Proof.
  unfold afterWhiteSpace. destruct (JS.charAt s) as [[cp n]|] eqn:E; [|discriminate].
  destruct (JS.isWhiteSpace cp); [|discriminate]. intros [= <-].
  apply charAt_bytes in E. rewrite skipBytes_length. lia.
Qed.

Lemma afterWhiteSpace_app s r w :
  afterWhiteSpace s = Some r -> afterWhiteSpace (s ++ w) = Some (r ++ w)%string.
Proof.
  unfold afterWhiteSpace. destruct (JS.charAt s) as [[cp n]|] eqn:E; [|discriminate].
  rewrite (charAt_app _ w _ E).
  destruct (JS.isWhiteSpace cp); [|discriminate]. intros [= <-].
  apply charAt_bytes in E. rewrite skipBytes_app by lia. reflexivity.
Qed.

(** What [trimStart] returns starts with no white space. *)
Lemma trimStart_done s : afterWhiteSpace (JS.trimStart s) = None.
Proof.
  remember (String.length s) as n eqn:Hn. revert s Hn.
  induction n as [n IH] using lt_wf_ind. intros s ->.
  rewrite trimStart_step. destruct (afterWhiteSpace s) as [r|] eqn:E; [|exact E].
  apply (IH (String.length r)); [now apply afterWhiteSpace_shorter|reflexivity].
Qed.

Lemma trimStart_id s : afterWhiteSpace s = None -> JS.trimStart s = s.
Proof. intros H. rewrite trimStart_step. now rewrite H. Qed.

Lemma allWhiteSpace_spec s : JS.allWhiteSpace s = true <-> JS.trimStart s = "".
Proof.
  unfold JS.allWhiteSpace. destruct (JS.trimStart s); split; congruence.
Qed.

(** White space followed by white space is white space. *)
Lemma trimStart_app_empty s w :
  JS.trimStart s = "" -> JS.trimStart w = "" -> JS.trimStart (s ++ w) = "".
Proof.
  remember (String.length s) as n eqn:Hn. revert s Hn.
  induction n as [n IH] using lt_wf_ind. intros s -> Hs Hw.
  rewrite trimStart_step in Hs. rewrite trimStart_step.
  destruct (afterWhiteSpace s) as [r|] eqn:E.
  - rewrite (afterWhiteSpace_app _ _ w E).
    apply (IH (String.length r)); [now apply afterWhiteSpace_shorter|reflexivity| |];
      assumption.
  - subst s. simpl. now rewrite <- trimStart_step.
Qed.

Lemma trimEnd_cons c r :
  JS.trimEnd (String c r)
  = if JS.allWhiteSpace (String c r) then "" else String c (JS.trimEnd r).
Proof. reflexivity. Qed.

(** [trimEnd] removes white space, from the end. *)
Lemma trimEnd_split s :
  exists w, s = (JS.trimEnd s ++ w)%string /\ JS.trimStart w = "".
Proof.
  induction s as [|c r (w & Hr & Hw)]; [now exists ""|].
  rewrite trimEnd_cons. destruct (JS.allWhiteSpace (String c r)) eqn:E.
  - exists (String c r). split; [reflexivity|]. now apply allWhiteSpace_spec.
  - exists w. split; [|exact Hw].
    change (String c r = String c (JS.trimEnd r ++ w)). now f_equal.
Qed.

Lemma trimEnd_idem s : JS.trimEnd (JS.trimEnd s) = JS.trimEnd s.
Proof.
  induction s as [|c r IH]; [reflexivity|].
  rewrite trimEnd_cons. destruct (JS.allWhiteSpace (String c r)) eqn:E; [reflexivity|].
  rewrite trimEnd_cons, IH.
  destruct (JS.allWhiteSpace (String c (JS.trimEnd r))) eqn:E'; [|reflexivity].
  exfalso. destruct (trimEnd_split r) as (w & Hr & Hw).
  apply allWhiteSpace_spec in E'.
  pose proof (trimStart_app_empty _ _ E' Hw) as Hall.
  change (JS.trimStart (String c (JS.trimEnd r ++ w)) = "") in Hall.
  rewrite <- Hr in Hall. apply allWhiteSpace_spec in Hall. congruence.
Qed.

(** A text that starts with no white space still does after [trimEnd]. *)
Lemma trimEnd_done s : afterWhiteSpace s = None -> afterWhiteSpace (JS.trimEnd s) = None.
Proof.
  intros H. destruct (trimEnd_split s) as (w & Hs & _).
  destruct (afterWhiteSpace (JS.trimEnd s)) as [r|] eqn:E; [|reflexivity].
  apply (afterWhiteSpace_app _ _ w) in E. rewrite <- Hs in E. congruence.
Qed.

Lemma trim_idem s : JS.trim (JS.trim s) = JS.trim s.
Proof.
  unfold JS.trim.
  rewrite (trimStart_id (JS.trimEnd (JS.trimStart s)))
    by apply trimEnd_done, trimStart_done.
  apply trimEnd_idem.
Qed.

Lemma text_field_valid v t : text_field v = Some t -> valid_text t.
Proof.
  unfold text_field. destruct v as [[| | |s| |]|]; try discriminate.
  destruct (1 <=? JS.length (JS.trim s))%nat eqn:H1; [|discriminate].
  destruct (JS.length (JS.trim s) <=? 200)%nat eqn:H2; [|discriminate].
  intros [= <-]. split; [apply trim_idem|].
  apply Nat.leb_le in H1, H2. lia.
Qed.

Lemma TodoCreateSchema_valid b t : TodoCreateSchema b = Some t -> valid_text t.
Proof.
  unfold TodoCreateSchema. destruct b; try discriminate. apply text_field_valid.
Qed.

Lemma BulkCreateSchema_valid b texts :
  BulkCreateSchema b = Some texts ->
  Forall valid_text texts /\ (1 <= List.length texts <= 100)%nat.
Proof.
  unfold BulkCreateSchema. destruct b as [| | | | |m]; try discriminate.
  destruct (m !! "items") as [[| | | |items|]|]; try discriminate.
  destruct (1 <=? List.length items)%nat eqn:H1; [|discriminate].
  destruct (List.length items <=? 100)%nat eqn:H2; [|discriminate].
  simpl. intros Hall. apply all_items_Forall2 in Hall.
  apply Nat.leb_le in H1, H2. split.
  - clear H1 H2. induction Hall as [|it t its ts Hit _ IH]; constructor; [|exact IH].
    eapply TodoCreateSchema_valid, Hit.
  - apply Forall2_length in Hall. lia.
Qed.

Lemma TodoPutSchema_valid b t d : TodoPutSchema b = Some (t, d) -> valid_text t.
Proof.
  unfold TodoPutSchema. destruct b as [| | | | |m]; try discriminate.
  destruct (text_field (m !! "text")) as [t'|] eqn:Ht; [|discriminate].
  destruct (bool_field (m !! "done")); [|discriminate].
  intros [= <- <-]. eapply text_field_valid, Ht.
Qed.

Lemma TodoPatchSchema_valid b t d : TodoPatchSchema b = Some (Some t, d) -> valid_text t.
Proof.
  unfold TodoPatchSchema, optional. destruct b as [| | | | |m]; try discriminate.
  destruct (m !! "text") as [j|] eqn:Hm.
  - destruct (text_field (Some j)) as [t'|] eqn:Ht; simpl; [|discriminate].
    destruct (m !! "done") as [j'|]; [destruct (bool_field (Some j'))|]; simpl;
      try discriminate; intros [= <- <-]; eapply text_field_valid, Ht.
  - destruct (m !! "done") as [j'|]; [destruct (bool_field (Some j'))|]; simpl;
      discriminate.
Qed.

Lemma filter_same_length {A} (p : A -> bool) (l : list A) :
  List.length (List.filter p l) = List.length l -> List.filter p l = l.
Proof.
  induction l as [|x r IH]; simpl; [reflexivity|].
  destruct (p x); simpl; intros H.
  - f_equal. apply IH. lia.
  - pose proof (List.filter_length_le p r). lia.
Qed.

(** One request leaves the collection and the counter alone, or appends
    new todos with the next ids, or puts one todo in the place of another
    with the same id and [createdAt], or removes the todos with one id. *)
Lemma outcome_cases r l n resp l' n' :
  outcome r l n = Some (resp, l', n') ->
  (l' = l /\ n' = n /\ created_ids resp = []) \/
  (exists texts,
     l' = l ++ new_todos (req_now r) n texts /\
     n' = (n + Z.of_nat (List.length texts))%Z /\
     Forall valid_text texts /\
     status resp = 201%Z /\
     created_ids resp = List.map id (new_todos (req_now r) n texts)) \/
  (exists idx old t,
     l !! idx = Some old /\ l' = <[idx := t]> l /\ n' = n /\
     id t = id old /\ createdAt t = createdAt old /\
     (text t = text old \/ valid_text (text t)) /\
     resp = json_response 200 (TodoBody t)) \/
  (exists k,
     l' = without k l /\ n' = n /\ resp = json_response 204 NoBody /\
     exists t, In t l /\ has_id k t = true).
Proof.
  unfold outcome. destruct (req_route r) as [query| |i|b|b|i b|i b|i].
  - destruct (list_result (req_id r) query l) as [x|] eqn:E; [|discriminate].
    intros [= <- <- <-]. left. repeat split.
    eapply list_result_creates_nothing, E.
  - intros [= <- <- <-]. left. now repeat split.
  - destruct (JS.StringToNumber i) as [k|]; [|discriminate]. simpl.
    intros [= <- <- <-]. left. repeat split. now destruct (List.find (has_id k) l).
  - destruct (TodoCreateSchema b) as [txt|] eqn:Hb; intros [= <- <- <-].
    + right. left. exists [txt]. repeat split.
      constructor; [eapply TodoCreateSchema_valid, Hb|constructor].
    + left. now repeat split.
  - destruct (BulkCreateSchema b) as [texts|] eqn:Hb; intros [= <- <- <-].
    + right. left. exists texts. repeat split.
      eapply BulkCreateSchema_valid, Hb.
    + left. now repeat split.
  - destruct (JS.StringToNumber i) as [k|]; [|discriminate]. simpl.
    destruct (JS.findIndex (has_id k) l) as [idx|];
      [|intros [= <- <- <-]; left; now repeat split].
    destruct (TodoPutSchema b) as [[txt d]|] eqn:Hb;
      [|intros [= <- <- <-]; left; now repeat split].
    destruct (l !! idx) as [old|] eqn:Ho; [|discriminate]. simpl.
    intros [= <- <- <-]. right. right. left.
    exists idx, old, (replaced (req_now r) old txt d).
    split; [exact Ho|]. repeat (split; [reflexivity|]). split; [|reflexivity].
    right. eapply TodoPutSchema_valid, Hb.
  - destruct (JS.StringToNumber i) as [k|]; [|discriminate]. simpl.
    destruct (JS.findIndex (has_id k) l) as [idx|];
      [|intros [= <- <- <-]; left; now repeat split].
    destruct (TodoPatchSchema b) as [[txt d]|] eqn:Hb;
      [|intros [= <- <- <-]; left; now repeat split].
    destruct (l !! idx) as [old|] eqn:Ho; [|discriminate]. simpl.
    intros [= <- <- <-]. right. right. left.
    exists idx, old, (patched (req_now r) old txt d).
    split; [exact Ho|]. repeat (split; [reflexivity|]). split; [|reflexivity].
    destruct txt as [txt|]; [right|left; reflexivity].
    eapply TodoPatchSchema_valid, Hb.
  - destruct (JS.StringToNumber i) as [k|]; [|discriminate]. simpl.
    destruct (Nat.eqb_spec (List.length (without k l)) (List.length l)) as [E|E];
      intros [= <- <- <-].
    + left. split; [now apply filter_same_length|]. now split.
    + right. right. right. exists k. repeat split.
      destruct (List.find (has_id k) l) as [t|] eqn:Hf.
      * exists t. apply List.find_some in Hf. exact Hf.
      * apply find_filter_None in Hf. unfold without in E. now rewrite Hf in E.
Qed.

(** ** Create, look up, delete *)

Lemma find_app_None {A} (p : A -> bool) l r :
  List.find p l = None -> List.find p (l ++ r) = List.find p r.
Proof.
  induction l as [|x l IH]; simpl; [reflexivity|].
  destruct (p x); [discriminate|exact IH].
Qed.

Lemma find_below n l :
  Forall (fun t => id t < n)%Z l -> List.find (has_id (JS.JInt n)) l = None.
Proof.
  intros Hl. apply find_none_of. intros t Ht.
  rewrite List.Forall_forall in Hl. specialize (Hl t Ht).
  unfold has_id. simpl. apply Z.eqb_neq. lia.
Qed.

(** X11: create, then get.  In a store whose ids are below the counter, a
    create with a valid body makes a todo with the id of the counter, the
    trimmed text, [done] false and both timestamps [now], appended to the
    collection; a get with that id returns this very todo. *)
Theorem X11_create_then_get (rid rid' now param : string) (body : json) (txt : string)
    (l : list Todo) (st : state) :
  collection st = Some l ->
  Forall (fun t => id t < nextId st)%Z l ->
  TodoCreateSchema body = Some txt ->
  JS.StringToNumber param = Some (JS.JInt (nextId st)) ->
  exists t st1,
    POST_todos rid now body st = Some (json_response 201 (TodoBody t), st1) /\
    GET_todo rid' param st1 = Some (json_response 200 (TodoBody t), st1) /\
    t = {| id := nextId st; text := txt; done := false;
           createdAt := now; updatedAt := now |} /\
    collection st1 = Some (l ++ [t]) /\
    nextId st1 = (nextId st + 1)%Z.
Proof.
  intros H Hl Hb Hn.
  rewrite (POST_todos_run rid now body l st H), Hb.
  eexists _, _. split; [reflexivity|].
  assert (H1 : collection (with_store st (l ++ [new_todo now (nextId st) txt])
                             (nextId st + 1))
               = Some (l ++ [new_todo now (nextId st) txt]))
    by (eapply collection_with_store, H).
  split; [|split; [reflexivity|split; [exact H1|reflexivity]]].
  rewrite (GET_todo_run rid' param _ _ _ H1 Hn).
  rewrite find_app_None by now apply find_below.
  simpl. unfold has_id. simpl. now rewrite Z.eqb_refl.
Qed.

Lemma X11_create_then_get_witness :
  exists t st1,
    POST_todos "req-1" Sample.t1 (Sample.text_body " call home ") Sample.started
      = Some (json_response 201 (TodoBody t), st1) /\
    GET_todo "req-2" "2" st1 = Some (json_response 200 (TodoBody t), st1) /\
    t = {| id := 2; text := "call home"; done := false;
           createdAt := Sample.t1; updatedAt := Sample.t1 |}.
Proof.
  destruct (X11_create_then_get "req-1" "req-2" Sample.t1 "2"
              (Sample.text_body " call home ") "call home"
              (default [] (collection Sample.started)) Sample.started)
    as (t & st1 & Hpost & Hget & Ht & _).
  - vm_compute. reflexivity.
  - vm_compute. repeat constructor.
  - vm_compute. reflexivity.
  - vm_compute. reflexivity.
  - exists t, st1. split; [exact Hpost|]. split; [exact Hget|exact Ht].
Defined.

Lemma without_none k l :
  List.find (has_id k) (without k l) = None.
Proof.
  apply find_none_of. intros t Ht. unfold without in Ht.
  apply List.filter_In in Ht as [_ Ht]. now apply Bool.negb_true_iff in Ht.
Qed.

Lemma has_id_inv k t : has_id k t = true -> k = JS.JInt (id t).
Proof.
  unfold has_id, JS.strict_eq. destruct k as [| | |n|num j]; try discriminate.
  intros H. apply Z.eqb_eq in H. now subst.
Qed.

Lemma without_one k l t :
  NoDup (List.map id l) -> In t l -> has_id k t = true ->
  S (List.length (without k l)) = List.length l.
Proof.
  intros Hnd Hin Hk. apply has_id_inv in Hk. subst k.
  induction l as [|x r IH]; [destruct Hin|].
  simpl in Hnd. apply NoDup_cons in Hnd as [Hx Hr]. unfold without in *. simpl.
  unfold has_id at 1. simpl.
  destruct Hin as [->|Hin].
  - rewrite Z.eqb_refl. simpl. f_equal.
    f_equal. apply filter_same_length.
    assert (E : List.filter (fun y => negb (has_id (JS.JInt (id t)) y)) r = r);
      [|now rewrite E].
    apply find_filter_None, find_none_of. intros y Hy.
    unfold has_id. simpl. apply Z.eqb_neq. intros E. apply Hx.
    rewrite <- E. apply list_elem_of_In, List.in_map, Hy.
  - destruct (Z.eqb_spec (id x) (id t)) as [E|E].
    + exfalso. apply Hx. rewrite E. apply list_elem_of_In, List.in_map, Hin.
    + simpl. f_equal. now apply IH.
Qed.

(** X12: delete.  A delete keeps exactly the todos whose id differs from
    the one of the path, in their order, and leaves the counter; it
    answers 204 when some todo had the id and 404, changing nothing, when
    none had.  Afterwards a get and a second delete with the same id both
    answer 404, and when the ids were distinct a 204 has removed exactly
    one todo. *)
Theorem X12_delete (rid rid' param : string) (k : JS.jsnum) (l : list Todo) (st : state) :
  collection st = Some l ->
  JS.StringToNumber param = Some k ->
  exists resp st1,
    DELETE_todo rid param st = Some (resp, st1) /\
    collection st1 = Some (List.filter (fun t => negb (has_id k t)) l) /\
    nextId st1 = nextId st /\
    ((resp = json_response 204 NoBody /\ exists t, In t l /\ has_id k t = true) \/
     (resp = not_found rid /\ (forall t, In t l -> has_id k t = false) /\
      collection st1 = Some l)) /\
    GET_todo rid' param st1 = Some (not_found rid', st1) /\
    (exists st2, DELETE_todo rid' param st1 = Some (not_found rid', st2) /\
                 same_store st1 st2) /\
    (NoDup (List.map id l) -> status resp = 204%Z ->
     S (List.length (List.filter (fun t => negb (has_id k t)) l)) = List.length l).
Proof.
  intros H Hk. rewrite (DELETE_todo_run rid param k l st H Hk).
  fold (without k l).
  assert (H1 : collection (rebind st (without k l)) = Some (without k l))
    by apply collection_rebind.
  eexists _, _. split; [reflexivity|]. split; [exact H1|]. split; [reflexivity|].
  split; [|split; [|split]].
  - destruct (Nat.eqb_spec (List.length (without k l)) (List.length l)) as [E|E].
    + right. apply filter_same_length in E. fold (without k l) in E.
      split; [reflexivity|]. split; [|now rewrite H1, E].
      intros t Ht. rewrite <- E in Ht. unfold without in Ht.
      apply List.filter_In in Ht as [_ Ht]. now apply Bool.negb_true_iff in Ht.
    + left. split; [reflexivity|].
      destruct (List.find (has_id k) l) as [t|] eqn:Hf.
      * exists t. now apply List.find_some in Hf.
      * apply find_filter_None in Hf. unfold without in E. now rewrite Hf in E.
  - rewrite (GET_todo_run rid' param k _ _ H1 Hk). now rewrite without_none.
  - rewrite (DELETE_todo_run rid' param k _ _ H1 Hk).
    fold (without k (without k l)).
    assert (E : without k (without k l) = without k l)
      by apply find_filter_None, without_none.
    rewrite E, Nat.eqb_refl. eexists. split; [reflexivity|].
    split; [|reflexivity]. now rewrite !collection_rebind.
  - intros Hnd Hs.
    destruct (Nat.eqb_spec (List.length (without k l)) (List.length l)) as [E|E];
      [discriminate Hs|].
    destruct (List.find (has_id k) l) as [t|] eqn:Hf.
    + apply List.find_some in Hf as [Hin Ht]. now apply (without_one k l t).
    + apply find_filter_None in Hf. unfold without in E. now rewrite Hf in E.
Qed.

Lemma X12_delete_witness :
  exists resp st1,
    DELETE_todo "req-1" "2" Sample.three_todos = Some (resp, st1) /\
    List.map id (default [] (collection st1)) = [1; 3]%Z /\
    resp = json_response 204 NoBody /\
    GET_todo "req-2" "2" st1 = Some (not_found "req-2", st1).
Proof.
  destruct (X12_delete "req-1" "req-2" "2" (JS.JInt 2)
              (default [] (collection Sample.three_todos)) Sample.three_todos)
    as (resp & st1 & Hrun & Hcol & _ & Hresp & Hget & _).
  - vm_compute. reflexivity.
  - vm_compute. reflexivity.
  - exists resp, st1. split; [exact Hrun|]. split; [now rewrite Hcol|].
    split; [|exact Hget].
    destruct Hresp as [[-> _]|[_ [Hnone _]]]; [reflexivity|].
    exfalso. specialize (Hnone (new_todo Sample.t1 2 "a")).
    assert (Hin : In (new_todo Sample.t1 2 "a") (default [] (collection Sample.three_todos)))
      by (vm_compute; tauto).
    apply Hnone in Hin. discriminate Hin.
Defined.

(** ** What every sequence of requests keeps *)

Lemma map_id_insert (l : list Todo) idx old t :
  l !! idx = Some old -> id t = id old ->
  List.map id (<[idx := t]> l) = List.map id l.
Proof.
  revert idx. induction l as [|x r IH]; intros idx Ho Hid; [reflexivity|].
  destruct idx as [|idx]; simpl in *.
  - injection Ho as ->. now rewrite Hid.
  - f_equal. now apply IH.
Qed.

Lemma In_insert {A} (l : list A) idx t x :
  In x (<[idx := t]> l) -> x = t \/ In x l.
Proof.
  revert idx. induction l as [|y r IH]; intros idx; [intros []|].
  destruct idx as [|idx]; simpl.
  - intros [<-|H]; auto.
  - intros [<-|H]; auto. destruct (IH _ H); auto.
Qed.

Lemma NoDup_filter_map (p : Todo -> bool) (l : list Todo) :
  NoDup (List.map id l) -> NoDup (List.map id (List.filter p l)).
Proof.
  induction l as [|x r IH]; simpl; [intros; constructor|].
  intros Hnd. apply NoDup_cons in Hnd as [Hx Hr].
  destruct (p x); simpl; [|now apply IH].
  apply NoDup_cons. split; [|now apply IH].
  intros Hin. apply Hx. apply list_elem_of_In in Hin. apply list_elem_of_In.
  apply List.in_map_iff in Hin as (y & Hy & Hin). apply List.in_map_iff.
  exists y. split; [exact Hy|]. now apply List.filter_In in Hin.
Qed.

Lemma NoDup_new_ids now texts n (l : list Todo) :
  NoDup (List.map id l) -> Forall (fun t => id t < n)%Z l ->
  NoDup (List.map id (l ++ new_todos now n texts)).
Proof.
  intros Hnd Hl. rewrite List.map_app.
  destruct (new_todos_sorted now texts n) as [Hs Hb].
  apply NoDup_app. split; [exact Hnd|]. split.
  - intros x Hx Hx'. apply list_elem_of_In in Hx, Hx'.
    apply List.in_map_iff in Hx as (t & <- & Ht).
    rewrite List.Forall_forall in Hl, Hb.
    specialize (Hl t Ht). specialize (Hb _ Hx'). simpl in *. lia.
  - clear Hb. induction Hs as [|a r Hs IH Ha]; [constructor|].
    apply NoDup_cons. split; [|exact IH].
    intros Hin. apply list_elem_of_In in Hin.
    rewrite List.Forall_forall in Ha. specialize (Ha _ Hin). lia.
Qed.

(** X13: ids identify.  From a store whose ids are distinct and below the
    counter, as the store of a server that has just started is, every
    sequence of requests leaves a store whose ids are distinct and below
    the counter: two todos of the store with the same id are the same. *)
Theorem X13_ids_stay_distinct (rs : list request) (st : state) (l : list Todo)
    (resps : list response) (st' : state) :
  collection st = Some l ->
  NoDup (List.map id l) ->
  Forall (fun t => id t < nextId st)%Z l ->
  serve rs st = Some (resps, st') ->
  exists l',
    collection st' = Some l' /\
    NoDup (List.map id l') /\
    Forall (fun t => id t < nextId st')%Z l'.
Proof.
  intros H Hnd Hl Hrun.
  destruct (serve_invariant
              (fun l n => NoDup (List.map id l) /\ Forall (fun t => id t < n)%Z l))
    with (rs := rs) (st := st) (l := l) (resps := resps) (st' := st')
    as (l' & Hl' & Hnd' & Hb'); auto.
  - clear. intros r l n resp l' n' [Hnd Hl] Ho.
    apply outcome_cases in Ho
      as [(-> & -> & _)|[(texts & -> & -> & _ & _ & _)
         |[(idx & old & t & Ho & -> & -> & Hid & _)|(k & -> & -> & _)]]].
    + now split.
    + split; [now apply NoDup_new_ids|]. apply Forall_app. split.
      * eapply Forall_impl; [exact Hl|]. simpl. intros; lia.
      * apply new_todos_below.
    + split; [now rewrite (map_id_insert _ _ _ _ Ho Hid)|].
      apply Forall_insert; [exact Hl|]. rewrite Hid.
      apply (Forall_lookup_1 _ _ _ _ Hl Ho).
    + split; [now apply NoDup_filter_map|].
      apply List.Forall_forall. intros x Hx. rewrite List.Forall_forall in Hl.
      apply Hl. unfold without in Hx. now apply List.filter_In in Hx.
  - now exists l'.
Qed.

Lemma X13_ids_stay_distinct_witness :
  exists l',
    collection (Sample.after Sample.busy Sample.started) = Some l' /\
    NoDup (List.map id l') /\
    Forall (fun t => id t < nextId (Sample.after Sample.busy Sample.started))%Z l'.
Proof.
  refine (X13_ids_stay_distinct Sample.busy Sample.started
            (default [] (collection Sample.started))
            (Sample.answers Sample.busy Sample.started)
            (Sample.after Sample.busy Sample.started) _ _ _ _).
  - vm_compute. reflexivity.
  - vm_compute. repeat constructor. intros Hin. inversion Hin.
  - vm_compute. repeat constructor.
  - vm_compute. reflexivity.
Defined.

Lemma new_todos_text_ok now texts : forall n,
  Forall valid_text texts -> Forall text_ok (new_todos now n texts).
Proof.
  induction texts as [|t r IH]; intros n Hv; simpl; [constructor|].
  apply Forall_cons in Hv as [Ht Hr]. constructor; [exact Ht|now apply IH].
Qed.

(** X14: stored texts are clean.  From a store whose texts are trimmed
    (of every white space character of the language, not only the ASCII
    ones) and of 1 to 200 UTF-16 code units, every sequence of requests
    leaves such a store: no route stores an empty, padded or longer
    text. *)
Theorem X14_texts_stay_valid (rs : list request) (st : state) (l : list Todo)
    (resps : list response) (st' : state) :
  collection st = Some l ->
  Forall text_ok l ->
  serve rs st = Some (resps, st') ->
  exists l', collection st' = Some l' /\ Forall text_ok l'.
Proof.
  intros H Hl Hrun.
  apply (serve_invariant (fun l _ => Forall text_ok l))
    with (rs := rs) (st := st) (l := l) (resps := resps); auto.
  clear. intros r l n resp l' n' Hl Ho.
  apply outcome_cases in Ho
    as [(-> & -> & _)|[(texts & -> & -> & Hv & _ & _)
       |[(idx & old & t & Ho & -> & -> & _ & _ & Ht & _)|(k & -> & -> & _)]]].
  - exact Hl.
  - apply Forall_app. split; [exact Hl|now apply new_todos_text_ok].
  - apply Forall_insert; [exact Hl|]. unfold text_ok.
    destruct Ht as [->|Ht]; [|exact Ht]. apply (Forall_lookup_1 _ _ _ _ Hl Ho).
  - apply List.Forall_forall. intros x Hx. rewrite List.Forall_forall in Hl.
    apply Hl. unfold without in Hx. now apply List.filter_In in Hx.
Qed.

Lemma X14_texts_stay_valid_witness :
  exists l',
    collection (Sample.after Sample.wordy Sample.started) = Some l' /\
    Forall text_ok l' /\
    List.map (fun t => JS.length (text t)) l' = [3; 200]%nat /\
    List.map status (Sample.answers Sample.wordy Sample.started)
    = [201; 400; 400; 200]%Z.
Proof.
  destruct (X14_texts_stay_valid Sample.wordy Sample.started
              (default [] (collection Sample.started))
              (Sample.answers Sample.wordy Sample.started)
              (Sample.after Sample.wordy Sample.started)) as (l' & Hl' & Hok).
  - vm_compute. reflexivity.
  - constructor; [|constructor]. split; [vm_compute; reflexivity|].
    vm_compute. split; repeat constructor.
  - vm_compute. reflexivity.
  - exists l'. split; [exact Hl'|]. split; [exact Hok|].
    vm_compute in Hl'. injection Hl' as <-. vm_compute. split; reflexivity.
Defined.

(** The length that the schemas bound is in UTF-16 code units, after the
    trim: 200 letters with an accent pass and 201 do not; an emoji counts
    for two; a text of no-break spaces is empty. *)
Example text_length_examples :
  JS.length "İlk todo" = 8%nat /\
  JS.length "😀" = 2%nat /\
  defined (TodoCreateSchema (Sample.text_body (Sample.repeated 101 "é"))) = true /\
  defined (TodoCreateSchema (Sample.text_body (Sample.repeated 200 "é"))) = true /\
  defined (TodoCreateSchema (Sample.text_body (Sample.repeated 201 "é"))) = false /\
  defined (TodoCreateSchema (Sample.text_body (Sample.repeated 100 "😀"))) = true /\
  defined (TodoCreateSchema (Sample.text_body (Sample.repeated 101 "😀"))) = false /\
  defined (TodoCreateSchema (Sample.text_body (Sample.repeated 201 "x"))) = false /\
  defined (TodoCreateSchema (Sample.text_body
             (" " ++ Sample.repeated 200 "x" ++ Sample.nbsp))) = true /\
  TodoCreateSchema (Sample.text_body (Sample.nbsp ++ "a b" ++ Sample.nbsp ++ " "))
  = Some "a b" /\
  TodoCreateSchema (Sample.text_body Sample.nbsp) = None /\
  TodoCreateSchema (Sample.text_body "") = None.
Proof. vm_compute. repeat split; reflexivity. Qed.

Lemma ids_from_app (a b : nat) : forall n : Z,
  List.map (fun k => (n + Z.of_nat k)%Z) (seq 0 (a + b))
  = List.map (fun k => (n + Z.of_nat k)%Z) (seq 0 a)
    ++ List.map (fun k => (n + Z.of_nat a + Z.of_nat k)%Z) (seq 0 b).
Proof.
  induction a as [|a IH]; intros n.
  - simpl. apply List.map_ext. intros k. lia.
  - simpl. f_equal. rewrite <- !List.seq_shift, !List.map_map.
    rewrite (List.map_ext (fun k => (n + Z.of_nat (S k))%Z)
                          (fun k => (n + 1 + Z.of_nat k)%Z)) by (intros; lia).
    rewrite (List.map_ext (fun k => (n + Z.of_nat (S k))%Z)
                          (fun k => (n + 1 + Z.of_nat k)%Z)) by (intros; lia).
    rewrite IH. f_equal. apply List.map_ext. intros k. lia.
Qed.

(** X15: ids have no gaps.  Over any sequence of requests the ids given
    to created todos are, in order, the values of the counter from its
    start to its end: a request that is refused, a read, a replace, a
    patch or a delete uses up no id. *)
Theorem X15_ids_without_gaps (rs : list request) :
  forall (st : state) (l : list Todo) (resps : list response) (st' : state),
  collection st = Some l ->
  serve rs st = Some (resps, st') ->
  (nextId st <= nextId st')%Z /\
  List.concat (List.map created_ids resps)
  = List.map (fun k => (nextId st + Z.of_nat k)%Z)
      (seq 0 (Z.to_nat (nextId st' - nextId st))).
Proof.
  induction rs as [|r rest IH]; intros st l resps st' H Hrun.
  - injection Hrun as <- <-. rewrite Z.sub_diag. split; [lia|reflexivity].
  - apply serve_cons in Hrun as (resp & st1 & resps1 & Hh & Hs & ->).
    destruct (handle_outcome r st l resp st1 H Hh) as (l1 & Ho & H1).
    destruct (IH st1 l1 resps1 st' H1 Hs) as (Hle & IHc).
    assert (Hstep : (nextId st <= nextId st1)%Z /\
              created_ids resp
              = List.map (fun k => (nextId st + Z.of_nat k)%Z)
                  (seq 0 (Z.to_nat (nextId st1 - nextId st)))).
    { apply outcome_cases in Ho
        as [(_ & -> & ->)|[(texts & _ & -> & _ & _ & ->)
           |[(idx & old & t & _ & _ & -> & _ & _ & _ & ->)|(k & _ & -> & -> & _)]]].
      - rewrite Z.sub_diag. split; [lia|reflexivity].
      - split; [lia|]. rewrite new_todos_ids. do 2 f_equal. lia.
      - rewrite Z.sub_diag. split; [lia|reflexivity].
      - rewrite Z.sub_diag. split; [lia|reflexivity]. }
    destruct Hstep as (Hle1 & Hc). split; [lia|].
    simpl. rewrite Hc, IHc.
    replace (Z.to_nat (nextId st' - nextId st))
      with (Z.to_nat (nextId st1 - nextId st) + Z.to_nat (nextId st' - nextId st1))%nat
      by lia.
    rewrite ids_from_app. f_equal. apply List.map_ext. intros k. lia.
Qed.

Lemma X15_ids_without_gaps_witness :
  (nextId Sample.started <= nextId (Sample.after Sample.busy Sample.started))%Z /\
  List.concat (List.map created_ids (Sample.answers Sample.busy Sample.started))
  = List.map (fun k => (nextId Sample.started + Z.of_nat k)%Z)
      (seq 0 (Z.to_nat (nextId (Sample.after Sample.busy Sample.started)
                        - nextId Sample.started))).
Proof.
  refine (X15_ids_without_gaps Sample.busy Sample.started
            (default [] (collection Sample.started))
            (Sample.answers Sample.busy Sample.started)
            (Sample.after Sample.busy Sample.started) _ _).
  - vm_compute. reflexivity.
  - vm_compute. reflexivity.
Defined.

(** X16: [createdAt] is set once.  From a store whose ids are below the
    counter, after any sequence of requests a todo whose id is below the
    counter of the start is a todo of the start, with the [createdAt] it
    had; the others were created since. *)
Theorem X16_createdAt_is_kept (rs : list request) (st : state) (l : list Todo)
    (resps : list response) (st' : state) :
  collection st = Some l ->
  Forall (fun t => id t < nextId st)%Z l ->
  serve rs st = Some (resps, st') ->
  exists l',
    collection st' = Some l' /\
    forall t', In t' l' ->
      ((id t' < nextId st)%Z /\
       exists t, In t l /\ id t = id t' /\ createdAt t = createdAt t') \/
      (nextId st <= id t' < nextId st')%Z.
Proof.
  intros H Hl Hrun.
  destruct (serve_invariant
     (fun l' n' =>
        (nextId st <= n')%Z /\
        forall t', In t' l' ->
          ((id t' < nextId st)%Z /\
           exists t, In t l /\ id t = id t' /\ createdAt t = createdAt t') \/
          (nextId st <= id t' < n')%Z))
    with (rs := rs) (st := st) (l := l) (resps := resps) (st' := st')
    as (l' & Hl' & _ & Hinv); auto.
  - intros r l1 n resp l' n' [Hn Hinv] Ho.
    apply outcome_cases in Ho
      as [(-> & -> & _)|[(texts & -> & -> & _ & _ & _)
         |[(idx & old & t & Ho & -> & -> & Hid & Hc & _)|(k & -> & -> & _)]]].
    + now split.
    + split; [lia|]. intros t' Ht'. apply List.in_app_or in Ht' as [Ht'|Ht'].
      * destruct (Hinv t' Ht') as [Hold|Hnew]; [now left|right; lia].
      * right. pose proof (new_todos_sorted (req_now r) texts n) as [_ Hb].
        rewrite List.Forall_forall in Hb.
        specialize (Hb (id t') (List.in_map id _ _ Ht')). simpl in Hb. lia.
    + split; [exact Hn|]. intros t' Ht'. apply In_insert in Ht' as [->|Ht'].
      * assert (Hin : In old l1).
        { apply list_elem_of_In. eapply list_elem_of_lookup_2, Ho. }
        rewrite Hid, Hc. apply (Hinv old Hin).
      * now apply Hinv.
    + split; [exact Hn|]. intros t' Ht'. apply Hinv.
      unfold without in Ht'. now apply List.filter_In in Ht'.
  - split; [lia|]. intros t' Ht'. left.
    rewrite List.Forall_forall in Hl. split; [now apply Hl|]. now exists t'.
  - now exists l'.
Qed.

Lemma X16_createdAt_is_kept_witness :
  exists l',
    collection (Sample.after Sample.busy Sample.two_todos) = Some l' /\
    forall t', In t' l' ->
      ((id t' < nextId Sample.two_todos)%Z /\
       exists t, In t (default [] (collection Sample.two_todos)) /\
                 id t = id t' /\ createdAt t = createdAt t') \/
      (nextId Sample.two_todos <= id t'
       < nextId (Sample.after Sample.busy Sample.two_todos))%Z.
Proof.
  refine (X16_createdAt_is_kept Sample.busy Sample.two_todos
            (default [] (collection Sample.two_todos))
            (Sample.answers Sample.busy Sample.two_todos)
            (Sample.after Sample.busy Sample.two_todos) _ _ _).
  - vm_compute. reflexivity.
  - vm_compute. repeat constructor.
  - vm_compute. reflexivity.
Defined.

(** ** Responses and errors *)

Lemma outcome_shape r l n resp l' n' :
  outcome r l n = Some (resp, l', n') -> well_shaped (req_id r) resp.
Proof.
  unfold outcome, well_shaped. destruct (req_route r) as [query| |i|b|b|i b|i b|i].
  - unfold list_result, page_result.
    destruct (toString <$> query_done query) as [raw|];
      [destruct (parseBool raw)|];
      try (destruct (orNumber (query_limit query) 20); [|discriminate];
           destruct (orNumber (query_offset query) 0); [|discriminate]);
      simpl; intros [= <- <- <-]; simpl; auto.
  - now intros [= <- <- <-].
  - destruct (JS.StringToNumber i) as [k|]; [|discriminate]. simpl.
    intros [= <- <- <-]. destruct (List.find (has_id k) l); simpl; auto 10.
  - destruct (TodoCreateSchema b); intros [= <- <- <-]; simpl; auto.
  - destruct (BulkCreateSchema b); intros [= <- <- <-]; simpl; auto.
  - destruct (JS.StringToNumber i) as [k|]; [|discriminate]. simpl.
    destruct (JS.findIndex (has_id k) l) as [idx|];
      [|intros [= <- <- <-]; simpl; auto 10].
    destruct (TodoPutSchema b) as [[txt d]|]; [|intros [= <- <- <-]; simpl; auto].
    destruct (l !! idx); [|discriminate]. simpl. intros [= <- <- <-]. simpl. auto.
  - destruct (JS.StringToNumber i) as [k|]; [|discriminate]. simpl.
    destruct (JS.findIndex (has_id k) l) as [idx|];
      [|intros [= <- <- <-]; simpl; auto 10].
    destruct (TodoPatchSchema b) as [[txt d]|]; [|intros [= <- <- <-]; simpl; auto].
    destruct (l !! idx); [|discriminate]. simpl. intros [= <- <- <-]. simpl. auto.
  - destruct (JS.StringToNumber i) as [k|]; [|discriminate]. simpl.
    intros [= <- <- <-]. destruct (_ =? _)%nat; simpl; auto 10.
Qed.



(** What [app] sends, by the way the request went. *)
Lemma app_cases (i : App.incoming) (st : state) (out : App.outgoing) (st' : state) :
  App.app i st = Some (out, st') ->
  (App.in_body i = None /\
   out = {| App.out_x_request_id := None; App.out_reply := App.ErrorPage 500 |} /\
   st' = st) \/
  exists b reply,
    App.in_body i = Some b /\
    out = {| App.out_x_request_id :=
               Some (App.request_id (App.in_x_request_id i) (App.in_uuid i));
             App.out_reply := reply |} /\
    let rid := App.request_id (App.in_x_request_id i) (App.in_uuid i) in
    ((exists t, reply = App.Text 200 t /\ st' = st) \/
     (reply = App.OpenapiDocument /\ st' = st) \/
     (reply = App.Json (apiError rid 404 "NOT_FOUND" "Route not found" None) /\ st' = st) \/
     (reply = App.Json (apiError rid 500 "INTERNAL_ERROR" "Internal server error" None) /\
      st' = st) \/
     (exists r resp,
        App.router (App.in_verb i) (App.in_target i) (App.in_query i) b = App.Handler r /\
        handle {| req_route := r; req_id := rid; req_now := App.in_now i |} st
          = Some (resp, st') /\
        reply = App.Json resp)).
Proof.
  unfold App.app. destruct (App.in_body i) as [b|]; [|intros [= <- <-]; now left].
  intros Hrun. right. exists b.
  destruct (App.router _ _ _ b) as [t| |r| |] eqn:Hr.
  - injection Hrun as <- <-. eexists. split; [reflexivity|]. split; [reflexivity|].
    left. now exists t.
  - injection Hrun as <- <-. eexists. split; [reflexivity|]. split; [reflexivity|].
    right. left. now split.
  - apply bind_inv in Hrun as (resp & st1 & Hh & Hrun). injection Hrun as <- <-.
    eexists. split; [reflexivity|]. split; [reflexivity|].
    do 4 right. now exists r, resp.
  - injection Hrun as <- <-. eexists. split; [reflexivity|]. split; [reflexivity|].
    do 3 right. left. now split.
  - injection Hrun as <- <-. eexists. split; [reflexivity|]. split; [reflexivity|].
    do 2 right. left. now split.
Qed.



(** The responses that no handler of the todo routes sends: a path
    parameter that does not decode, a body that does not parse, a path
    without a route. *)
Example error_paths_example :
  App.answer (App.get "%E0%A4%A") Sample.started
  = Some (Some "abc-1",
          App.Json (apiError "abc-1" 500 "INTERNAL_ERROR" "Internal server error" None)) /\
  App.answer (App.with_verb App.POST (App.get "%ff")) Sample.started
  = Some (Some "abc-1",
          App.Json (apiError "abc-1" 500 "INTERNAL_ERROR" "Internal server error" None)) /\
  App.answer (App.with_body None (App.get "1")) Sample.started
  = Some (None, App.ErrorPage 500) /\
  App.answer (App.with_target App.Healthz (App.with_body None (App.get "1"))) Sample.started
  = Some (None, App.ErrorPage 500) /\
  App.answer (App.with_verb App.POST (App.get "1")) Sample.started
  = Some (Some "abc-1",
          App.Json (apiError "abc-1" 404 "NOT_FOUND" "Route not found" None)) /\
  App.answer (App.with_target App.Healthz (App.get "1")) Sample.started
  = Some (Some "abc-1", App.Text 200 "ok").
Proof. vm_compute. repeat split; reflexivity. Qed.

(** X18: a refused request changes nothing.  Whatever the route, when the
    status of the response is 400 or more the store holds the same todos
    in the same order and the same counter as before. *)
Theorem X18_errors_change_nothing (r : request) (st : state) (l : list Todo)
    (resp : response) (st' : state) :
  collection st = Some l ->
  handle r st = Some (resp, st') ->
  (400 <= status resp)%Z ->
  same_store st st'.
Proof.
  intros H Hrun Hs. destruct (handle_outcome r st l resp st' H Hrun) as (l' & Ho & Hl').
  unfold same_store. rewrite H, Hl'.
  apply outcome_cases in Ho
    as [(-> & E & _)|[(texts & _ & _ & _ & Hst & _)
       |[(idx & old & t & _ & _ & _ & _ & _ & _ & ->)|(k & _ & _ & -> & _)]]].
  - now split.
  - rewrite Hst in Hs. lia.
  - simpl in Hs. lia.
  - simpl in Hs. lia.
Qed.

Lemma X18_errors_change_nothing_witness :
  same_store Sample.three_todos
    (Sample.after [Sample.req (DeleteTodo "9") Sample.t2] Sample.three_todos).
Proof.
  refine (X18_errors_change_nothing (Sample.req (DeleteTodo "9") Sample.t2)
            Sample.three_todos (default [] (collection Sample.three_todos))
            (not_found "req-1") _ _ _ _).
  - vm_compute. reflexivity.
  - vm_compute. reflexivity.
  - vm_compute. discriminate.
Defined.

(** X19: the request id.  When the JSON parser accepts the body, the
    [x-request-id] header of the response is the one of the request when
    that is not empty and the generated UUID otherwise, whatever the
    method and the path; and whenever the body of the response is an
    error envelope, of a todo route, of the final 404 or of the error
    handler, its [requestId] is that header.  When the parser rejects the
    body the response has no [x-request-id] header. *)
Theorem X19_request_id (i : App.incoming) (st : state) (l : list Todo)
    (out : App.outgoing) (st' : state) :
  collection st = Some l ->
  App.app i st = Some (out, st') ->
  (App.in_body i = None -> App.out_x_request_id out = None) /\
  (forall h, App.in_body i <> None -> App.in_x_request_id i = Some h -> h <> "" ->
     App.out_x_request_id out = Some h) /\
  (App.in_body i <> None ->
   App.in_x_request_id i = None \/ App.in_x_request_id i = Some "" ->
     App.out_x_request_id out = Some (App.in_uuid i)) /\
  (forall s code message details rid,
     App.out_reply out = App.Json {| status := s;
                                     payload := ErrorBody code message details rid |} ->
     App.out_x_request_id out = Some rid).
Proof.
  intros H Hrun.
  apply app_cases in Hrun as [(Hb & -> & _)|(b & reply & Hb & -> & Hcases)].
  { simpl. split; [reflexivity|]. split; [congruence|]. split; [congruence|].
    intros; discriminate. }
  simpl in Hcases |- *. rewrite Hb.
  split; [discriminate|]. split; [|split].
  - intros h _ -> Hne. simpl. destruct h; [congruence|reflexivity].
  - intros _ [-> | ->]; reflexivity.
  - intros s code message details rid.
    destruct Hcases as [(t & -> & _)|[(-> & _)|[(-> & _)|[(-> & _)|(r & resp & _ & Hh & ->)]]]];
      try discriminate.
    + now intros [= _ _ _ _ <-].
    + now intros [= _ _ _ _ <-].
    + intros [= ->].
      destruct (handle_outcome _ st l _ st' H Hh) as (l' & Ho & _).
      apply outcome_shape in Ho. unfold well_shaped in Ho. simpl in Ho.
      destruct Ho as [-> _]. reflexivity.
Qed.

Lemma X19_request_id_witness :
  App.out_x_request_id (App.outcome_of (App.get "9") Sample.started) = Some "abc-1" /\
  App.out_reply (App.outcome_of (App.get "9") Sample.started)
  = App.Json (apiError "abc-1" 404 "NOT_FOUND" "Todo not found" None).
Proof.
  split; [|vm_compute; reflexivity].
  destruct (X19_request_id (App.get "9") Sample.started
              (default [] (collection Sample.started))
              (App.outcome_of (App.get "9") Sample.started) Sample.started)
    as (_ & Hecho & _ & _).
  - vm_compute. reflexivity.
  - vm_compute. reflexivity.
  - apply (Hecho "abc-1"); [discriminate|reflexivity|discriminate].
Defined.

(** An unknown id with the id the request brought, an unmatched route with
    a generated one, and a rejected body without any. *)
Example request_id_example :
  App.answer (App.get "9") Sample.started
  = Some (Some "abc-1", App.Json (apiError "abc-1" 404 "NOT_FOUND" "Todo not found" None)) /\
  App.answer (App.without_header (App.with_target App.Elsewhere (App.get "9")))
    Sample.started
  = Some (Some "generated",
          App.Json (apiError "generated" 404 "NOT_FOUND" "Route not found" None)) /\
  App.answer (App.with_body None (App.get "9")) Sample.started
  = Some (None, App.ErrorPage 500).
Proof. vm_compute. repeat split; reflexivity. Qed.

(** ** How the write routes compose *)

Lemma serve_creates rid now : forall items texts st l,
  Forall2 (fun it txt => TodoCreateSchema it = Some txt) items texts ->
  collection st = Some l ->
  exists st',
    serve (List.map (fun it => {| req_route := PostTodos it; req_id := rid;
                                  req_now := now |}) items) st
      = Some (List.map (fun t => json_response 201 (TodoBody t))
                (new_todos now (nextId st) texts), st') /\
    collection st' = Some (l ++ new_todos now (nextId st) texts) /\
    nextId st' = (nextId st + Z.of_nat (List.length texts))%Z.
Proof.
  induction items as [|it items IH]; intros texts st l Hall H.
  - apply Forall2_nil_inv_l in Hall as ->. exists st. simpl.
    split; [reflexivity|]. rewrite app_nil_r. split; [exact H|lia].
  - apply Forall2_cons_inv_l in Hall as (txt & texts' & Hit & Hall & ->).
    pose proof (POST_todos_run rid now it l st H) as Hpost. rewrite Hit in Hpost.
    set (st1 := with_store st (l ++ [new_todo now (nextId st) txt]) (nextId st + 1))
      in Hpost.
    assert (H1 : collection st1 = Some (l ++ [new_todo now (nextId st) txt]))
      by (eapply collection_with_store, H).
    destruct (IH texts' st1 _ Hall H1) as (st' & Hs & Hc & Hn).
    exists st'. simpl List.map. simpl serve. unfold handle at 1. simpl req_route.
    cbn [req_id req_now].
    rewrite (bind_Some _ _ _ _ _ Hpost), (bind_Some _ _ _ _ _ Hs).
    split; [reflexivity|]. simpl nextId in Hc, Hn.
    rewrite Hc, Hn, <- app_assoc. simpl. split; [reflexivity|lia].
Qed.

(** X20: a batch is a sequence of creates.  When the body of a bulk create
    passes its schema, the bulk create answers with the todos that
    creating the items one after the other, at the same time, would answer
    with, and leaves the same store. *)
Theorem X20_bulk_is_a_sequence (rid now : string) (m : gmap string json)
    (items : list json) (texts : list string) (l : list Todo) (st : state) :
  collection st = Some l ->
  m !! "items" = Some (JArr items) ->
  BulkCreateSchema (JObj m) = Some texts ->
  exists created s1 s2,
    POST_bulk rid now (JObj m) st = Some (json_response 201 (ItemsBody created), s1) /\
    serve (List.map (fun it => {| req_route := PostTodos it; req_id := rid;
                                  req_now := now |}) items) st
      = Some (List.map (fun t => json_response 201 (TodoBody t)) created, s2) /\
    same_store s1 s2 /\
    (1 <= List.length created <= 100)%nat.
Proof.
  intros H Hm Hb.
  assert (Hall : Forall2 (fun it txt => TodoCreateSchema it = Some txt) items texts).
  { unfold BulkCreateSchema in Hb. rewrite Hm in Hb.
    destruct (_ && _); [|discriminate]. now apply all_items_Forall2. }
  destruct (serve_creates rid now items texts st l Hall H) as (s2 & Hs & Hc & Hn).
  rewrite (POST_bulk_run rid now _ l st H), Hb.
  eexists _, _, s2. split; [reflexivity|]. split; [exact Hs|]. split.
  - split; [|now rewrite Hn].
    rewrite Hc. eapply collection_with_store, H.
  - apply BulkCreateSchema_valid in Hb as [_ Hlen].
    assert (E : List.length (new_todos now (nextId st) texts) = List.length texts).
    { rewrite <- (new_todos_text now texts (nextId st)) at 2. now rewrite List.length_map. }
    lia.
Qed.

Lemma X20_bulk_is_a_sequence_witness :
  exists created s1 s2,
    POST_bulk "req-1" Sample.t1 (Sample.bulk_body ["a"; "b"]) Sample.started
      = Some (json_response 201 (ItemsBody created), s1) /\
    serve (List.map (fun it => {| req_route := PostTodos it; req_id := "req-1";
                                  req_now := Sample.t1 |})
             [Sample.text_body "a"; Sample.text_body "b"]) Sample.started
      = Some (List.map (fun t => json_response 201 (TodoBody t)) created, s2) /\
    same_store s1 s2 /\
    (1 <= List.length created <= 100)%nat.
Proof.
  refine (X20_bulk_is_a_sequence "req-1" Sample.t1 _
            [Sample.text_body "a"; Sample.text_body "b"] ["a"; "b"]
            (default [] (collection Sample.started)) Sample.started _ _ _).
  - vm_compute. reflexivity.
  - vm_compute. reflexivity.
  - vm_compute. reflexivity.
Defined.

Lemma put_body_is_patch_body b txt d :
  TodoPutSchema b = Some (txt, d) -> TodoPatchSchema b = Some (Some txt, Some d).
Proof.
  unfold TodoPutSchema, TodoPatchSchema, optional.
  destruct b as [| | | | |m]; try discriminate.
  destruct (m !! "text") as [j|]; [|discriminate].
  destruct (text_field (Some j)) as [t|]; [|discriminate].
  destruct (m !! "done") as [j'|]; [|discriminate].
  destruct (bool_field (Some j')) as [d'|]; [|discriminate].
  now intros [= <- <-].
Qed.

(** X21: a patch with both fields is a replace.  With a body that passes
    the schema of [PUT], [PATCH] on an id gives the response and the store
    that [PUT] on that id gives. *)
Theorem X21_full_patch_is_put (rid now param : string) (body : json) (txt : string)
    (d : bool) (l : list Todo) (st : state) :
  collection st = Some l ->
  TodoPutSchema body = Some (txt, d) ->
  PATCH_todo rid now param body st = PUT_todo rid now param body st.
Proof.
  intros H Hb. pose proof (put_body_is_patch_body _ _ _ Hb) as Hp.
  destruct (JS.StringToNumber param) as [k|] eqn:Hk;
    [|unfold PATCH_todo, PUT_todo; now rewrite Hk].
  destruct (JS.findIndex (has_id k) l) as [idx|] eqn:Hf.
  - destruct (findIndex_Some _ _ _ Hf) as (old & Ho & _).
    rewrite (PUT_todo_ok _ _ _ _ _ _ _ _ _ _ _ H Hk Hf Ho Hb).
    now rewrite (PATCH_todo_ok _ _ _ _ _ _ _ _ _ _ _ H Hk Hf Ho Hp).
  - rewrite (PUT_todo_not_found _ _ _ _ _ _ _ H Hk Hf).
    now rewrite (PATCH_todo_not_found _ _ _ _ _ _ _ H Hk Hf).
Qed.

Lemma X21_full_patch_is_put_witness :
  PATCH_todo "req-1" Sample.t2 "1"
    (JObj {[ "text" := JStr "walk"; "done" := JBool true ]}) Sample.two_todos
  = PUT_todo "req-1" Sample.t2 "1"
      (JObj {[ "text" := JStr "walk"; "done" := JBool true ]}) Sample.two_todos.
Proof.
  refine (X21_full_patch_is_put "req-1" Sample.t2 "1" _ "walk" true
            (default [] (collection Sample.two_todos)) Sample.two_todos _ _).
  - vm_compute. reflexivity.
  - vm_compute. reflexivity.
Defined.
